(** * The sktime mixer of lightwood: a shallow embedding and its properties

    Source: [lightwood/mixer/sktime.py], class [SkTime].

    The mixer keeps one sktime forecaster per group ([self.models]) with the
    index label of the last training row ([self.cutoffs]), selects the
    forecaster class by an optuna grid search, and at prediction time
    dispatches each group of rows to its forecaster or to a naive
    "previous value" forecast.

    Conventions of the embedding:
    - a pandas frame is the list of its rows in positional order together
      with its number of columns; after [reset_index] the index of the frame
      is [0 .. n-1], so a label of the prediction frame is a list position;
    - timestamps and target values are rationals ([Q]); a missing target
      (NaN) is [None];
    - a python float is a finite binary64 number, kept as its rational
      value: a float operation rounds its exact result to the nearest
      binary64 number ([to_double]), and a rational that stands for a float
      literal is read as the float nearest to it;
    - python dictionaries keyed by group are [gmap string _];
    - an exception is the [Raise] case of [result]; methods that mutate
      [self] return the new state next to their result, because a python
      mutation made before an exception is raised stays visible;
    - sktime, optuna and pandas' [date_range] are outside the repository:
      their behaviour enters through the record [library], and what a
      fitted forecaster answers through the record [fitted];
    - calls of [log] are left out. *)

From Stdlib Require Import Ascii String QArith Qround Qabs Qpower Lqa.
From stdpp Require Import gmap strings list fin_maps sorting.

Local Open Scope Z_scope.
Local Open Scope string_scope.
Local Open Scope list_scope.

(** ** Exceptions and results *)

Inductive exn :=
| AttributeError
| KeyError
| IndexError
| ValueError
| TypeError
| ZeroDivisionError
| OverflowError
| ModuleNotFoundError
| LibraryError (msg : string).

Inductive result (A : Type) :=
| Ok (a : A)
| Raise (e : exn).
Arguments Ok {A} a.
Arguments Raise {A} e.

Definition rbind {A B} (r : result A) (k : A -> result B) : result B :=
  match r with
  | Ok a => k a
  | Raise e => Raise e
  end.

Notation "x <- r ;; k" := (rbind r (fun x => k))
  (at level 100, r at next level, right associativity).

Definition of_option {A} (e : exn) (o : option A) : result A :=
  match o with
  | Some a => Ok a
  | None => Raise e
  end.

Definition is_ok {A} (r : result A) : bool :=
  match r with
  | Ok _ => true
  | Raise _ => false
  end.

(** ** Data *)

(** A target value; [None] is NaN. *)
Definition value := option Q.

Definition zero : value := Some (0 # 1)%Q.

(** One row of a data frame: its index label (a timestamp, in seconds), the
    column [__mdb_original_<order_by>], the encoded order-by column, the key
    formed by the group-by columns ([None] when a key column is null) and
    the target. *)
Record row := {
  r_index : Q;
  r_original_oby : Q;
  r_oby : list Q;
  r_group : option string;
  r_target : value
}.

Record frame := {
  rows : list row;
  ncols : nat
}.

(** [ConcatedEncodedDs([a, b]).data_frame]: the rows of [a], then those of
    [b]. *)
Definition ConcatedEncodedDs (a b : frame) : frame :=
  {| rows := rows a ++ rows b; ncols := ncols a |}.

(** A group of a [groupby]: the rows of one key with their positions. *)
Abbreviation subframe := (list (nat * row)).

(** [series_data.size]: rows times columns. *)
Definition frame_size (ncolumns : nat) (sd : subframe) : nat :=
  (length sd * ncolumns)%nat.

(** A cell of the column [prediction]: the frame is created filled with the
    scalar 0 and a cell is later overwritten by a list of values. *)
Inductive cell :=
| Zero
| Preds (l : list value).

(** ** Python helpers *)

(** [round(x)] on a float: to the nearest integer, ties to the even one. *)
Definition py_round (x : Q) : Z :=
  let f := Qfloor x in
  match Qcompare (x - inject_Z f) (1 # 2) with
  | Lt => f
  | Gt => f + 1
  | Eq => if Z.even f then f else f + 1
  end.

(** *** Floats (binary64) *)

(** [2.0 ** e] *)
Definition pow2 (e : Z) : Q := ((2 # 1) ^ e)%Q.

(** The binary exponent of [x <> 0]: [2 ** binade x <= |x| < 2 ** (binade x + 1)]. *)
Definition binade (x : Q) : Z :=
  let k := Z.log2 (Z.abs (Qnum x)) - Z.log2 (Zpos (Qden x)) in
  if Qle_bool (pow2 k) (Qabs x) then k else k - 1.

(** The exponent of the unit in the last place of the floats around [x]:
    53 binary digits, and no exponent below that of the subnormal
    numbers. *)
Definition ulp_exponent (x : Q) : Z := Z.max (binade x - 52) (-1074).

(** The float nearest to [x], ties to the even significand. A result of
    magnitude [2 ** 1024] or more stands for an infinity. *)
Definition to_double (x : Q) : Q :=
  if Qeq_bool x (0 # 1) then (0 # 1)%Q
  else Qred (inject_Z (py_round (x / pow2 (ulp_exponent x)))
             * pow2 (ulp_exponent x)).

(** Whether a float is an infinity. *)
Definition is_inf (x : Q) : bool := Qle_bool (pow2 1024) (Qabs x).

(** [x / y] on floats. *)
Definition float_div (x y : Q) : result Q :=
  if Qeq_bool (to_double y) (0 # 1) then Raise ZeroDivisionError
  else Ok (to_double (to_double x / to_double y)).

(** [x * y] on floats. *)
Definition float_mul (x y : Q) : Q := to_double (to_double x * to_double y).

(** [round(x)] of a float [x]: an integer, and no infinity has one. *)
Definition float_round (x : Q) : result Z :=
  if is_inf x then Raise OverflowError else Ok (py_round x).

(** [round(delta / freq)] where [delta] is [total_seconds()] of the time
    from [cutoff] to [start_ts]: the float nearest to the difference. *)
Definition offset_of (start_ts cutoff freq_ : Q) : result Z :=
  quotient <- float_div (start_ts - cutoff) freq_ ;;
  float_round quotient.

(** [np.arange(a, b)] *)
Definition arange (a b : Z) : list Z := seqZ a (b - a).

(** [l[-k:]] for [k >= 0]; [l[-0:]] is the whole list. *)
Definition py_suffix {A} (k : nat) (l : list A) : list A :=
  match k with
  | O => l
  | _ => drop (length l - k) l
  end.

(** [l[a:b]] for [0 <= a <= b] *)
Definition py_slice {A} (a b : nat) (l : list A) : list A :=
  take (b - a) (drop a l).

(** [enumerate(l)] *)
Definition enumerate {A} (l : list A) : list (nat * A) :=
  imap (fun i x => (i, x)) l.

(** Keys of a [groupby] come out sorted and without duplicates. *)
Definition string_le (a b : string) : Prop := String.leb a b = true.

#[global] Instance string_le_dec : RelDecision string_le.
Proof. intros a b. unfold string_le. apply _. Defined.

Definition sorted_keys (l : list string) : list string :=
  merge_sort string_le (remove_dups l).

(** The key a row is grouped under: [df.groupby(by=gby)] when [gby] is not
    empty, [df.groupby(lambda x: '__default')] otherwise. *)
Definition group_of (gby : list string) (r : row) : option string :=
  match gby with
  | [] => Some "__default"
  | _ => r_group r
  end.

(** [df.groupby(...)] iterated: one pair per key, keys ascending, the rows of
    a key in frame order; a row whose key is null belongs to no group. *)
Definition groupby (gby : list string) (rs : list row) : list (string * subframe) :=
  let irs := enumerate rs in
  map (fun k => (k, filter (fun ir : nat * row => group_of gby (snd ir) = Some k) irs))
      (sorted_keys (omap (group_of gby) rs)).

(** ** Forecasters *)

(** The classes a family name can resolve to. [AutoARIMA] is
    [StatsForecastAutoARIMA], which the module imports under that name. *)
Inductive model_class :=
| AutoARIMA
| SktimeClass (qualname : string).

Definition is_AutoARIMA (c : model_class) : bool :=
  match c with
  | AutoARIMA => true
  | SktimeClass _ => false
  end.

Inductive kwval :=
| KInt (z : Z)
| KBool (b : bool)
| KStr (s : string)
| KNone.

(** A python [dict] with string keys, in insertion order. *)
Definition pydict := list (string * kwval).

Fixpoint dict_set (k : string) (v : kwval) (d : pydict) : pydict :=
  match d with
  | [] => [(k, v)]
  | (k', v') :: t =>
      if String.eqb k k' then (k, v) :: t else (k', v') :: dict_set k v t
  end.

Fixpoint dict_get (k : string) (d : pydict) : option kwval :=
  match d with
  | [] => None
  | (k', v') :: t => if String.eqb k k' then Some v' else dict_get k t
  end.

(** The transformers of [ts_analysis['stl_transforms'][group]] that are put
    in front of the forecaster. *)
Inductive step :=
| Deseasonalizer (group : string)
| Detrender (group : string).

(** What a fitted forecaster exposes: the series its last step has retained
    ([submodel._y]), the attribute [d] of that step when it has one
    ([None]: no such attribute; [Some None]: the attribute is [None]) and
    [predict]. *)
Record fitted := {
  sub_y : list Q;
  sub_d : option (option Z);
  predict : list Z -> result (list value)
}.

(** A forecaster object: a [TransformedTargetForecaster] over its steps, or a
    bare instance of the class. *)
Record forecaster := {
  is_pipeline : bool;
  steps : list step;
  fc_class : model_class;
  fc_kwargs : pydict;
  fc_fitted : option fitted
}.

Definition is_fitted (m : forecaster) : bool :=
  match fc_fitted m with
  | Some _ => true
  | None => false
  end.

(** A [TransformedTargetForecaster] whose last step, named forecaster, is
    the class called with the keyword arguments [kw]. *)
Definition TransformedTargetForecaster (st : list step) (c : model_class)
    (kw : pydict) : forecaster :=
  {| is_pipeline := true; steps := st; fc_class := c; fc_kwargs := kw;
     fc_fitted := None |}.

(** [model_class()] *)
Definition default_constructed (c : model_class) : forecaster :=
  {| is_pipeline := false; steps := []; fc_class := c; fc_kwargs := [];
     fc_fitted := None |}.

Definition with_fitted (m : forecaster) (f : fitted) : forecaster :=
  {| is_pipeline := is_pipeline m; steps := steps m; fc_class := fc_class m;
     fc_kwargs := fc_kwargs m; fc_fitted := Some f |}.

(** ** Prediction *)

(** [min_offset] of [_call_groupmodel] *)
Definition min_offset (f : fitted) : Z :=
  let base := - Z.of_nat (length (sub_y f)) + 1 in
  match sub_d f with
  | Some (Some d) => base + d
  | Some None => base + 0
  | None => base
  end.

(** The loop that writes one window per row of the group. *)
Definition write_windows (horizon : nat) (all_preds : list value)
    (series : list (nat * value)) (ydf : list cell) : list cell :=
  fold_left
    (fun y (e : nat * (nat * value)) =>
       let true_idx := fst e in
       let idx := fst (snd e) in
       let start_idx := Nat.max 0 true_idx in
       let end_idx := (start_idx + horizon)%nat in
       <[idx := Preds (py_slice start_idx end_idx all_preds)]> y)
    (enumerate series) ydf.

(** [all_preds] of [_call_groupmodel] for a group of [n] rows: one call of
    [predict] over the window that starts at the clamped offset; for
    [AutoARIMA] the window is asked from the least offset on and cut. *)
Definition all_preds_of (horizon : nat) (model : forecaster) (sub : fitted)
    (n : nat) (offset : Z) : result (list value) :=
  let lo := min_offset sub in
  let start := Z.max offset lo in
  let end_ := start + Z.of_nat n + Z.of_nat horizon in
  if is_AutoARIMA (fc_class model)
  then (p <- predict sub (arange lo end_) ;;
        Ok (py_suffix (Z.to_nat (end_ - start)) p))
  else predict sub (arange start end_).

Definition _call_groupmodel (horizon : nat) (ydf : list cell)
    (model : forecaster) (series : list (nat * value)) (offset : Z)
    : result (list cell) :=
  match fc_fitted model with
  | None => Raise AttributeError
  | Some sub =>
      all_preds <- all_preds_of horizon model sub (length series) offset ;;
      Ok (write_windows horizon all_preds series ydf)
  end.

(** [ydf['prediction'].iloc[idxs] = all_preds] *)
Fixpoint iloc_set (idxs : list nat) (vals : list (list value))
    (ydf : list cell) : result (list cell) :=
  match idxs, vals with
  | [], [] => Ok ydf
  | i :: idxs', v :: vals' =>
      if decide (i < length ydf)%nat
      then iloc_set idxs' vals' (<[i := Preds v]> ydf)
      else Raise IndexError
  | _, _ => Raise ValueError
  end.

(** What [_call_default] is handed as [data]: [series.values] (an ndarray)
    in the loop over the groups; the result of [Series.squeeze()] for the
    rows left pending, which is a numpy scalar for a series of one element
    and the series itself otherwise. *)
Inductive arraylike :=
| NdArray (l : list value)
| NpScalar (v : value)
| PdSeries (l : list value).

(** [Series.squeeze()] *)
Definition squeeze (l : list value) : arraylike :=
  match l with
  | [v] => NpScalar v
  | _ => PdSeries l
  end.

(** [data.flatten()]: ndarrays and numpy scalars have the method, a pandas
    series has not. *)
Definition flatten (data : arraylike) : result (list value) :=
  match data with
  | NdArray l => Ok l
  | NpScalar v => Ok [v]
  | PdSeries _ => Raise AttributeError
  end.

Definition _call_default (horizon : nat) (ydf : list cell)
    (data : arraylike) (idxs : list nat) : result (list cell) :=
  flat <- flatten data ;;
  let series := zero :: removelast flat in
  let all_preds := map (fun v => replicate horizon v) series in
  iloc_set idxs all_preds ydf.

(** ** The mixer *)

Record TimeseriesSettings := {
  group_by : list string;
  window : nat
}.

(** [ts_analysis]: the settings, the seasonal periods and the average time
    delta of each group, and the groups that have fitted STL transformers. *)
Record ts_analysis_t := {
  tss : TimeseriesSettings;
  periods : gmap string (list Z);
  deltas : gmap string Q;
  stl_transforms : gset string
}.

(** An objective value of the search: a float, possibly [np.inf]. *)
Inductive objective :=
| Finite (q : Q)
| Inf.

(** A trial of the optuna study: the class it was given and its value once
    it is finished. *)
Record trial := {
  t_class : string;
  t_value : option objective
}.

Definition is_finished (t : trial) : bool :=
  match t_value t with
  | Some _ => true
  | None => false
  end.

Record SkTime := {
  horizon : nat;
  sp : option Z;
  ts_analysis : ts_analysis_t;
  grouped_by : list string;
  auto_size : bool;
  cutoff_factor : Z;
  use_stl : bool;
  models : gmap string forecaster;
  cutoffs : gmap string Q;
  study : option (list trial);
  hyperparam_dict : option string;
  model_path : string;
  model_kwargs : pydict;
  hyperparam_search : bool;
  possible_models : list string;
  n_trials : nat;
  freq : string;
  prepared : bool
}.

Definition set_models (f : gmap string forecaster -> gmap string forecaster)
    (s : SkTime) : SkTime :=
  {| horizon := horizon s; sp := sp s; ts_analysis := ts_analysis s;
     grouped_by := grouped_by s; auto_size := auto_size s;
     cutoff_factor := cutoff_factor s; use_stl := use_stl s;
     models := f (models s); cutoffs := cutoffs s; study := study s;
     hyperparam_dict := hyperparam_dict s; model_path := model_path s;
     model_kwargs := model_kwargs s;
     hyperparam_search := hyperparam_search s;
     possible_models := possible_models s; n_trials := n_trials s;
     freq := freq s; prepared := prepared s |}.

Definition set_cutoffs (f : gmap string Q -> gmap string Q) (s : SkTime)
    : SkTime :=
  {| horizon := horizon s; sp := sp s; ts_analysis := ts_analysis s;
     grouped_by := grouped_by s; auto_size := auto_size s;
     cutoff_factor := cutoff_factor s; use_stl := use_stl s;
     models := models s; cutoffs := f (cutoffs s); study := study s;
     hyperparam_dict := hyperparam_dict s; model_path := model_path s;
     model_kwargs := model_kwargs s;
     hyperparam_search := hyperparam_search s;
     possible_models := possible_models s; n_trials := n_trials s;
     freq := freq s; prepared := prepared s |}.

Definition set_study (v : option (list trial)) (s : SkTime) : SkTime :=
  {| horizon := horizon s; sp := sp s; ts_analysis := ts_analysis s;
     grouped_by := grouped_by s; auto_size := auto_size s;
     cutoff_factor := cutoff_factor s; use_stl := use_stl s;
     models := models s; cutoffs := cutoffs s; study := v;
     hyperparam_dict := hyperparam_dict s; model_path := model_path s;
     model_kwargs := model_kwargs s;
     hyperparam_search := hyperparam_search s;
     possible_models := possible_models s; n_trials := n_trials s;
     freq := freq s; prepared := prepared s |}.

Definition set_hyperparam_dict (v : option string) (s : SkTime) : SkTime :=
  {| horizon := horizon s; sp := sp s; ts_analysis := ts_analysis s;
     grouped_by := grouped_by s; auto_size := auto_size s;
     cutoff_factor := cutoff_factor s; use_stl := use_stl s;
     models := models s; cutoffs := cutoffs s; study := study s;
     hyperparam_dict := v; model_path := model_path s;
     model_kwargs := model_kwargs s;
     hyperparam_search := hyperparam_search s;
     possible_models := possible_models s; n_trials := n_trials s;
     freq := freq s; prepared := prepared s |}.

Definition set_model_kwargs (v : pydict) (s : SkTime) : SkTime :=
  {| horizon := horizon s; sp := sp s; ts_analysis := ts_analysis s;
     grouped_by := grouped_by s; auto_size := auto_size s;
     cutoff_factor := cutoff_factor s; use_stl := use_stl s;
     models := models s; cutoffs := cutoffs s; study := study s;
     hyperparam_dict := hyperparam_dict s; model_path := model_path s;
     model_kwargs := v;
     hyperparam_search := hyperparam_search s;
     possible_models := possible_models s; n_trials := n_trials s;
     freq := freq s; prepared := prepared s |}.

Definition set_hyperparam_search (v : bool) (s : SkTime) : SkTime :=
  {| horizon := horizon s; sp := sp s; ts_analysis := ts_analysis s;
     grouped_by := grouped_by s; auto_size := auto_size s;
     cutoff_factor := cutoff_factor s; use_stl := use_stl s;
     models := models s; cutoffs := cutoffs s; study := study s;
     hyperparam_dict := hyperparam_dict s; model_path := model_path s;
     model_kwargs := model_kwargs s;
     hyperparam_search := v;
     possible_models := possible_models s; n_trials := n_trials s;
     freq := freq s; prepared := prepared s |}.

Definition set_prepared (v : bool) (s : SkTime) : SkTime :=
  {| horizon := horizon s; sp := sp s; ts_analysis := ts_analysis s;
     grouped_by := grouped_by s; auto_size := auto_size s;
     cutoff_factor := cutoff_factor s; use_stl := use_stl s;
     models := models s; cutoffs := cutoffs s; study := study s;
     hyperparam_dict := hyperparam_dict s; model_path := model_path s;
     model_kwargs := model_kwargs s;
     hyperparam_search := hyperparam_search s;
     possible_models := possible_models s; n_trials := n_trials s;
     freq := freq s; prepared := v |}.

(** [_get_freq]: the label of the unit whose length in seconds is nearest
    to [delta]; [np.argmin] returns the first minimum. *)
Definition freq_units : list (string * Z) :=
  [("S", 1); ("T", 60); ("H", 60 * 60); ("D", 60 * 60 * 24);
   ("W", 60 * 60 * 24 * 7); ("M", 60 * 60 * 24 * 7 * 4);
   ("Q", 60 * 60 * 24 * 7 * 4 * 3); ("Y", 60 * 60 * 24 * 7 * 4 * 12)].

Definition _get_freq (delta : Q) : string :=
  let dist (u : string * Z) := Qabs (inject_Z (snd u) - delta) in
  fst (fold_left
         (fun best u => if Qlt_le_dec (dist u) (dist best) then u else best)
         freq_units ("S", 1)).

Definition default_possible_models : list string :=
  ["croston.Croston"; "theta.ThetaForecaster"; "trend.STLForecaster";
   "trend.PolynomialTrendForecaster"].

(** [__init__]. An empty [model_path] stands for [None]. *)
Definition init (horizon_ : nat) (ts_analysis_ : ts_analysis_t)
    (model_path_ : string) (model_kwargs_ : pydict) (auto_size_ : bool)
    (sp_ : option Z) (hyperparam_search_ use_stl_ : bool)
    : result SkTime :=
  let pm := if String.eqb model_path_ "" then default_possible_models
            else [model_path_] in
  delta <- of_option KeyError (deltas ts_analysis_ !! "__default") ;;
  Ok {| horizon := horizon_; sp := sp_; ts_analysis := ts_analysis_;
        grouped_by := match group_by (tss ts_analysis_) with
                      | [] => ["__default"]
                      | g => g
                      end;
        auto_size := auto_size_; cutoff_factor := 4; use_stl := use_stl_;
        models := ∅; cutoffs := ∅; study := None; hyperparam_dict := None;
        model_path := if String.eqb model_path_ "" then "trend.STLForecaster"
                      else model_path_;
        model_kwargs := model_kwargs_;
        hyperparam_search := hyperparam_search_;
        possible_models := pm; n_trials := length pm;
        freq := _get_freq delta; prepared := false |}.

(** A loop whose body can raise: the exception ends the loop. *)
Fixpoint foldM {A B} (f : A -> B -> result A) (a : A) (l : list B)
    : result A :=
  match l with
  | [] => Ok a
  | b :: t => a' <- f a b ;; foldM f a' t
  end.

(** *** [__call__] *)

(** The targets of a group with their positions, as [__call__] takes them
    from the rows of the group. *)
Definition series_of (series_data : subframe) : list (nat * value) :=
  map (fun ir : nat * row => (fst ir, r_target (snd ir))) series_data.

(** The body of the loop over the groups of [__call__]; the accumulator is
    [ydf] and [pending_idxs]. [ncolumns] is the number of columns of the
    frame after [reset_index]. *)
Definition call_group (self : SkTime) (ncolumns : nat)
    (acc : list cell * gset nat) (grp : string * subframe)
    : result (list cell * gset nat) :=
  let '(ydf, pending_idxs) := acc in
  let '(group, series_data) := grp in
  if decide (0 < frame_size ncolumns series_data)%nat then
    r0 <- of_option IndexError (head series_data) ;;
    let start_ts := r_index (snd r0) in
    let series := series_of series_data in
    let series_idxs := map fst series in
    ydf' <-
      (match models self !! group with
       | Some forecaster =>
           if is_fitted forecaster then
             freq_ <- of_option KeyError (deltas (ts_analysis self) !! group) ;;
             cutoff <- of_option KeyError (cutoffs self !! group) ;;
             offset <- offset_of start_ts cutoff freq_ ;;
             _call_groupmodel (horizon self) ydf forecaster series offset
           else _call_default (horizon self) ydf (NdArray (map snd series))
                              series_idxs
       | None => _call_default (horizon self) ydf (NdArray (map snd series))
                               series_idxs
       end) ;;
    Ok (ydf', pending_idxs ∖ list_to_set series_idxs)
  else Ok (ydf, pending_idxs).

(** [df[self.target][idxs]] *)
Definition targets_at (df : list row) (idxs : list nat) : result (list value) :=
  foldr (fun i acc =>
           t <- of_option KeyError (r_target <$> df !! i) ;;
           l <- acc ;;
           Ok (t :: l))
        (Ok []) idxs.

Definition call (self : SkTime) (ds : frame) : result (list cell) :=
  let df := rows ds in
  let gby := group_by (tss (ts_analysis self)) in
  let ydf := replicate (length df) Zero in
  let pending_idxs : gset nat := list_to_set (seq 0 (length df)) in
  acc <- foldM (call_group self (S (ncols ds))) (ydf, pending_idxs)
               (groupby gby df) ;;
  let '(ydf, pending_idxs) := acc in
  if decide (0 < size pending_idxs)%nat then
    let idxs := elements pending_idxs in
    series <- targets_at df idxs ;;
    _call_default (horizon self) ydf (squeeze series) idxs
  else Ok ydf.

(** *** Helpers of the fit *)

(** [str.split(".")] *)
Fixpoint split_dot (s : string) : list string :=
  match s with
  | EmptyString => [EmptyString]
  | String a t =>
      if Ascii.eqb a "."%char then EmptyString :: split_dot t
      else match split_dot t with
           | h :: tl => String a h :: tl
           | [] => [String a EmptyString]
           end
  end.

(** Sorting by a rational key, ascending. *)
Definition key_le {A} (key : A -> Q) (x y : A) : Prop :=
  Qle_bool (key x) (key y) = true.

#[global] Instance key_le_dec {A} (key : A -> Q) : RelDecision (key_le key).
Proof. intros x y. unfold key_le. apply _. Defined.

Definition sort_by {A} (key : A -> Q) (l : list A) : list A :=
  merge_sort (key_le key) l.

Definition qmin (a b : Q) : Q := if Qle_bool a b then a else b.

(** [np.min] of a flat array; it raises on an empty one. *)
Definition np_min (l : list Q) : result Q :=
  match l with
  | [] => Raise ValueError
  | x :: t => Ok (fold_left qmin t x)
  end.

(** The series handed to [fit]: the target of the group, sorted by index
    label, without its missing values. *)
Definition training_series (series_data : subframe) : list Q :=
  omap snd
    (sort_by fst
       (map (fun ir : nat * row => (r_index (snd ir), r_target (snd ir)))
            series_data)).

Definition lt_objective (a b : objective) : bool :=
  match a, b with
  | Finite x, Finite y =>
      match Qcompare x y with
      | Lt => true
      | _ => false
      end
  | Finite _, Inf => true
  | Inf, _ => false
  end.

(** [study.best_trial]: the first trial of minimal value among the finished
    ones. *)
Definition best_trial (trials : list trial) : option trial :=
  fold_left
    (fun best t =>
       match t_value t, best with
       | None, _ => best
       | Some _, None => Some t
       | Some v, Some b =>
           match t_value b with
           | Some vb => if lt_objective v vb then Some t else best
           | None => Some t
           end
       end)
    trials None.

(** A loop over the groups whose body mutates [self] and can raise. *)
Fixpoint for_each {B} (body : SkTime -> B -> SkTime * result unit)
    (self : SkTime) (l : list B) : SkTime * result unit :=
  match l with
  | [] => (self, Ok tt)
  | b :: t =>
      let '(self', r) := body self b in
      match r with
      | Ok _ => for_each body self' t
      | Raise e => (self', Raise e)
      end
  end.

(** The libraries outside the repository the mixer calls. *)
Record library := {
  (** the package [sktime.forecasting]: its modules by name and, for a
      module, the forecaster classes it defines by attribute name *)
  sktime_forecasting : string -> option (string -> option model_class);
  (** whether the constructor of a class takes a keyword argument: the test
      made by [lightwood.helpers.templating._add_cls_kwarg] *)
  accepts_kwarg : model_class -> string -> bool;
  (** [model_class(k1=v1, ...)], the constructor of a class called with
      keyword arguments: the exception it raises, if any; python raises
      [TypeError] for a keyword the constructor does not take *)
  sk_new : model_class -> pydict -> result unit;
  (** [forecaster.fit(series, fh)] of sktime: the fitted state, or the
      exception it raises *)
  sk_fit : forecaster -> list Q -> nat -> result fitted;
  (** whether [pd.date_range(start, freq, periods)] is within bounds *)
  date_range_ok : Q -> string -> nat -> bool;
  (** the order in which optuna's [GridSampler] hands out the grid *)
  sampler_order : list string -> list string;
  (** [MeanAbsolutePercentageError(symmetric=True)] *)
  trial_error_fn : list value -> list value -> result objective
}.

Section Mixer.

Context (lib : library).

(** [lightwood.helpers.templating._add_cls_kwarg], whose source is not among
    the files at hand: it adds the argument when the constructor of the
    class takes it, a test the library record supplies. *)
Definition _add_cls_kwarg (cls : model_class) (kwargs : pydict)
    (key : string) (v : kwval) : pydict :=
  if accepts_kwarg lib cls key then dict_set key v kwargs else kwargs.

(** The class [_fit] builds its forecasters from. *)
Definition module_name_of (self : SkTime) : result string :=
  match hyperparam_search self, study self with
  | false, None => Ok (model_path self)
  | true, None => Raise AttributeError
  | _, Some trials =>
      let finished_study :=
        Nat.eqb (length (List.filter is_finished trials)) (n_trials self) in
      if finished_study
      then t <- of_option ValueError (best_trial trials) ;; Ok (t_class t)
      else of_option KeyError (hyperparam_dict self)
  end.

Definition resolve_class (module_name : string) : result model_class :=
  let parts := split_dot module_name in
  sktime_module <-
    of_option ModuleNotFoundError
              (sktime_forecasting lib (List.hd EmptyString parts)) ;;
  cls_name <- of_option IndexError (parts !! 1%nat) ;;
  match sktime_module cls_name with
  | Some c => Ok c
  | None => Ok AutoARIMA
  end.

Definition _transform_index_to_datetime (series_oby : list (list Q))
    (freq_ : string) (n : nat) : result unit :=
  let flat := concat series_oby in
  lo <- np_min flat ;;
  start <- np_min (List.filter (fun q => negb (Qeq_bool q lo)) flat) ;;
  if date_range_ok lib start freq_ n then Ok tt
  else Raise (LibraryError "OutOfBoundsDatetime").

(** [try: fit with the pipeline / except: fit model_class()] *)
Definition fit_or_default (model_class_ : model_class) (group : string)
    (series : list Q) (self : SkTime) : SkTime * result unit :=
  match models self !! group with
  | None => (self, Raise KeyError)
  | Some m =>
      match sk_fit lib m series (horizon self) with
      | Ok f => (set_models <[group := with_fitted m f]> self, Ok tt)
      | Raise _ =>
          match sk_new lib model_class_ [] with
          | Raise e => (self, Raise e)
          | Ok _ =>
              let m' := default_constructed model_class_ in
              match sk_fit lib m' series (horizon self) with
              | Ok f => (set_models <[group := with_fitted m' f]> self, Ok tt)
              | Raise e => (set_models <[group := m']> self, Raise e)
              end
          end
      end
  end.

(** [sp = self.sp if self.sp else self.ts_analysis['periods'].get(group, [1])[0]] *)
Definition seasonal_period (self : SkTime) (group : string) : result Z :=
  let detected :=
    of_option IndexError
      (head (default [1] (periods (ts_analysis self) !! group))) in
  match sp self with
  | Some z => if Z.eqb z 0 then detected else Ok z
  | None => detected
  end.

(** [options]: the dictionary [self.model_kwargs] itself, with the entries
    the loop writes into it. *)
Definition fit_options (self : SkTime) (sp_ : Z) : pydict :=
  let options :=
    dict_set "error_action" (KStr "raise")
      (dict_set "suppress_warnings" (KBool true)
         (dict_set "sp" (KInt sp_) (model_kwargs self))) in
  if String.eqb (model_path self) "fbprophet.Prophet"
  then dict_set "freq" (KStr (freq self)) options
  else options.

(** The forecaster built for the group before it is fitted: the class with
    the options it takes, behind the STL transformers of the group when
    they are used. With the transformers the argument [sp] is set whether
    the class takes it or not, and the constructor is called outside any
    [try]. *)
Definition configured_forecaster (model_class_ : model_class) (self : SkTime)
    (group : string) (options : pydict) : result forecaster :=
  let kwargs :=
    fold_left (fun kw (kv : string * kwval) =>
                 _add_cls_kwarg model_class_ kw (fst kv) (snd kv))
              options [] in
  let with_stl :=
    use_stl self &&
    bool_decide (group ∈ stl_transforms (ts_analysis self)) in
  let model_pipeline :=
    if with_stl then [Deseasonalizer group; Detrender group] else [] in
  let kwargs := if with_stl then dict_set "sp" KNone kwargs else kwargs in
  _ <- sk_new lib model_class_ kwargs ;;
  Ok (TransformedTargetForecaster model_pipeline model_class_ kwargs).

(** The series handed to [fit]: the most recent observations when
    [auto_size] is set. *)
Definition fit_input (self : SkTime) (sp_ : Z) (series : list Q) : list Q :=
  if auto_size self then
    let cutoff :=
      Z.min (Z.of_nat (length series))
            (Z.max 500 (sp_ * cutoff_factor self)) in
    py_suffix (Z.to_nat cutoff) series
  else series.

(** Whether the iteration ends at the [continue]: only for Prophet, when the
    index of the series cannot be turned into dates and the group is
    [__default]; for another group the series goes on as it is. *)
Definition skips_fit (self : SkTime) (series_oby : list row) (group : string)
    (n : nat) : bool :=
  if String.eqb (model_path self) "fbprophet.Prophet" then
    match _transform_index_to_datetime (map r_oby series_oby) (freq self) n with
    | Ok _ => false
    | Raise _ => String.eqb group "__default"
    end
  else false.

(** The body of the loop over the groups of [_fit]. *)
Definition fit_group (model_class_ : model_class) (df : list row)
    (ncolumns : nat) (self : SkTime) (grp : string * subframe)
    : SkTime * result unit :=
  let '(group, series_data) := grp in
  match seasonal_period self group with
  | Raise e => (self, Raise e)
  | Ok sp_ =>
      let options := fit_options self sp_ in
      let self := set_model_kwargs options self in
      match configured_forecaster model_class_ self group options with
      | Raise e => (self, Raise e)
      | Ok model =>
          let self := set_models <[group := model]> self in
          let series_oby :=
            if decide (grouped_by self = ["__default"]) then df
            else map snd series_data in
          match last series_oby with
          | None => (self, Raise IndexError)
          | Some r_last =>
              let self := set_cutoffs <[group := r_index r_last]> self in
              if decide (window (tss (ts_analysis self))
                         < frame_size ncolumns series_data)%nat
              then
                let series := training_series series_data in
                if skips_fit self series_oby group (length series)
                then (self, Ok tt)
                else fit_or_default model_class_ group
                       (fit_input self sp_ series) self
              else (self, Ok tt)
          end
      end
  end.

Definition _fit (self : SkTime) (data : frame) : SkTime * result unit :=
  let df := sort_by r_original_oby (rows data) in
  let gby := group_by (tss (ts_analysis self)) in
  match module_name_of self with
  | Raise e => (self, Raise e)
  | Ok module_name =>
      match resolve_class module_name with
      | Raise e => (self, Raise e)
      | Ok model_class_ =>
          for_each (fit_group model_class_ df (ncols data)) self
                   (groupby gby df)
      end
  end.

(** The objective of the search for the class [cls] the sampler suggests. *)
Definition _get_best_model (self : SkTime) (cls : string)
    (train_data test_data : frame) : SkTime * objective :=
  let self := set_hyperparam_dict (Some cls) self in
  let '(self, fitted_) := _fit self train_data in
  let error :=
    r <- fitted_ ;;
    let y_true := take (horizon self) (map r_target (rows test_data)) in
    ydf <- call self test_data ;;
    first <- of_option IndexError (head ydf) ;;
    match first with
    | Zero => Raise ValueError
    | Preds l => trial_error_fn lib y_true (take (length y_true) l)
    end in
  (self, match error with
         | Ok e => e
         | Raise _ => Inf
         end).

Definition add_trial (t : trial) (self : SkTime) : SkTime :=
  set_study (option_map (fun ts => ts ++ [t]) (study self)) self.

Definition finish_trial (v : objective) (self : SkTime) : SkTime :=
  set_study
    (option_map
       (fun ts =>
          match last ts with
          | Some t => removelast ts ++ [{| t_class := t_class t;
                                           t_value := Some v |}]
          | None => ts
          end)
       (study self)) self.

(** [study.optimize(objective, n_trials)] over the grid: each trial is
    listed as running while its objective is evaluated. *)
Definition optimize (self : SkTime) (train_data dev_data : frame)
    (grid : list string) : SkTime :=
  fold_left
    (fun self cls =>
       let self := add_trial {| t_class := cls; t_value := None |} self in
       let '(self, error) := _get_best_model self cls train_data dev_data in
       finish_trial error self)
    grid self.

Definition fit (self : SkTime) (train_data dev_data : frame)
    : SkTime * result unit :=
  if hyperparam_search self then
    let self := set_study (Some []) self in
    let self :=
      optimize self train_data dev_data
               (take (n_trials self) (sampler_order lib (possible_models self))) in
    _fit self (ConcatedEncodedDs train_data dev_data)
  else _fit self (ConcatedEncodedDs train_data dev_data).

Definition partial_fit (self : SkTime) (train_data dev_data : frame)
    : SkTime * result unit :=
  let self := set_hyperparam_search false self in
  let '(self, r) := fit self dev_data train_data in
  match r with
  | Ok _ => (set_prepared true self, Ok tt)
  | Raise e => (self, Raise e)
  end.

End Mixer.

(** ** A small forecasting library and data to run the mixer on *)

Module Demo.

(** A fitted state over the retained series [y]: [predict] answers an
    offset with the offset itself and refuses offsets below the least one
    the retained series covers. *)
Definition fitted_on (y : list Q) (d : option (option Z)) : fitted :=
  let lo := min_offset {| sub_y := y; sub_d := d;
                          predict := fun _ => Ok [] |} in
  {| sub_y := y; sub_d := d;
     predict := fun offsets =>
       if forallb (Z.leb lo) offsets
       then Ok (map (fun o => Some (inject_Z o)) offsets)
       else Raise (LibraryError "data not available") |}.

Definition forecasting (module : string) : option (string -> option model_class) :=
  if String.eqb module "trend" then
    Some (fun c =>
            if String.eqb c "STLForecaster" || String.eqb c "PolynomialTrendForecaster"
            then Some (SktimeClass ("trend." ++ c)) else None)
  else if String.eqb module "theta" then
    Some (fun c => if String.eqb c "ThetaForecaster"
                   then Some (SktimeClass "theta.ThetaForecaster") else None)
  else if String.eqb module "croston" then
    Some (fun c => if String.eqb c "Croston"
                   then Some (SktimeClass "croston.Croston") else None)
  else None.

(** [fit] fails on a series containing a negative value, whatever the
    options, fails for [ThetaForecaster] on fewer than three observations,
    and fails with a seasonal period the series is too short for. *)
Definition fit_ (m : forecaster) (series : list Q) (h : nat) : result fitted :=
  if existsb (fun q => negb (Qle_bool (0 # 1) q)) series
  then Raise (LibraryError "negative value")
  else if match fc_class m with
          | SktimeClass name => String.eqb name "theta.ThetaForecaster"
          | AutoARIMA => false
          end && Nat.ltb (length series) 3
  then Raise (LibraryError "too few observations")
  else
    match dict_get "sp" (fc_kwargs m) with
    | Some (KInt p) =>
        if Z.ltb (Z.of_nat (length series)) (2 * p)
        then Raise (LibraryError "series too short")
        else Ok (fitted_on series None)
    | _ => Ok (fitted_on series None)
    end.

(** The error of a trial: the absolute error of the first value. *)
Definition error_fn (y_true y_pred : list value) : result objective :=
  match y_true, y_pred with
  | Some a :: _, Some b :: _ => Ok (Finite (Qabs (a - b)))
  | _, _ => Raise ValueError
  end.

(** Every class takes the argument [sp] and no other, except
    [PolynomialTrendForecaster], which takes none. *)
Definition takes (c : model_class) (k : string) : bool :=
  String.eqb k "sp" &&
  match c with
  | SktimeClass name => negb (String.eqb name "trend.PolynomialTrendForecaster")
  | AutoARIMA => true
  end.

Definition new (c : model_class) (kwargs : pydict) : result unit :=
  if forallb (fun kv : string * kwval => takes c (fst kv)) kwargs
  then Ok tt else Raise TypeError.

Definition lib : library :=
  {| sktime_forecasting := forecasting;
     accepts_kwarg := takes;
     sk_new := new;
     sk_fit := fit_;
     date_range_ok := fun _ _ _ => true;
     sampler_order := fun l => l;
     trial_error_fn := error_fn |}.

Definition day : Q := inject_Z 86400.

Definition at_day (t : Z) : Q := (inject_Z t * day)%Q.

Definition mk_row (t : Z) (g : string) (v : Z) : row :=
  {| r_index := at_day t; r_original_oby := at_day t;
     r_oby := [at_day t]; r_group := Some g;
     r_target := Some (inject_Z v) |}.

Definition no_key (t : Z) (v : Z) : row :=
  {| r_index := at_day t; r_original_oby := at_day t;
     r_oby := [at_day t]; r_group := None;
     r_target := Some (inject_Z v) |}.

Definition analysis (w : nat) : ts_analysis_t :=
  {| tss := {| group_by := ["store"]; window := w |};
     periods := ∅;
     deltas := {[ "__default" := day; "A" := day; "B" := day ]};
     stl_transforms := ∅ |}.

(** A mixer with horizon 3 and the class pinned, search off. *)
Definition mixer (w : nat) (path : string) : SkTime :=
  {| horizon := 3; sp := None; ts_analysis := analysis w;
     grouped_by := ["store"]; auto_size := true; cutoff_factor := 4;
     use_stl := false; models := ∅; cutoffs := ∅; study := None;
     hyperparam_dict := None; model_path := path; model_kwargs := [];
     hyperparam_search := false; possible_models := [path];
     n_trials := 1; freq := "D"; prepared := false |}.

(** Groups A and B, three days each. *)
Definition train_ab : frame :=
  {| rows := [mk_row 8 "A" 1; mk_row 8 "B" 5; mk_row 9 "A" 2;
              mk_row 9 "B" 6; mk_row 10 "A" 3; mk_row 10 "B" 7];
     ncols := 5 |}.

Definition train_a : frame :=
  {| rows := [mk_row 11 "A" 4; mk_row 12 "A" 5]; ncols := 5 |}.

Definition empty_frame : frame := {| rows := []; ncols := 5 |}.

End Demo.

(** The value the naive forecast repeats for the [k]-th row of a batch. *)
Definition previous_target (data : list value) (k : nat) : value :=
  match k with
  | O => zero
  | S k' => default zero (data !! k')
  end.

(** A forecaster fitted on five observations: its least offset is -4. *)
Definition fitted_on_five : forecaster :=
  with_fitted (default_constructed (SktimeClass "theta.ThetaForecaster"))
    (Demo.fitted_on [1 # 1; 2 # 1; 3 # 1; 4 # 1; 5 # 1]%Q None).

(** The mixer after a fit on groups A and B, whose last rows are at day 10. *)
Definition fitted_ab : SkTime :=
  fst (_fit Demo.lib (Demo.mixer 2 "trend.STLForecaster") Demo.train_ab).

(** The fields of the mixer other than the registry ([models], [cutoffs])
    and the options dictionary. *)
Definition settings (s : SkTime) :=
  (horizon s, sp s, ts_analysis s, grouped_by s, auto_size s,
   cutoff_factor s, use_stl s, model_path s, possible_models s, n_trials s,
   freq s).

(** The public operations of a mixer. *)
Inductive operation :=
| DoFit (train_data dev_data : frame)
| DoPartialFit (train_data dev_data : frame)
| DoCall (ds : frame).

Definition run (lib : library) (self : SkTime) (o : operation) : SkTime :=
  match o with
  | DoFit train_data dev_data => fst (fit lib self train_data dev_data)
  | DoPartialFit train_data dev_data =>
      fst (partial_fit lib self train_data dev_data)
  | DoCall _ => self
  end.

Definition run_all (lib : library) (self : SkTime) (ops : list operation)
    : SkTime :=
  fold_left (run lib) ops self.

(** Two states that differ at most in the registry and the options. *)
Definition same_settings (s s' : SkTime) : Prop :=
  settings s' = settings s /\ study s' = study s /\
  hyperparam_dict s' = hyperparam_dict s /\
  hyperparam_search s' = hyperparam_search s /\
  prepared s' = prepared s.

Arguments fit_group : simpl never.
Arguments fit_or_default : simpl never.
Arguments _fit : simpl never.
Arguments _get_best_model : simpl never.
Arguments call_group : simpl never.
Arguments call : simpl never.
Arguments groupby : simpl never.

(** Mixers and data for the examples of the fit. *)
Definition stl_mixer (w : nat) : SkTime := Demo.mixer w "trend.STLForecaster".

Definition after_ab (w : nat) : SkTime * result unit :=
  fit Demo.lib (stl_mixer w) Demo.train_ab Demo.empty_frame.

Definition after_ab_then_a : SkTime * result unit :=
  fit Demo.lib (fst (after_ab 2)) Demo.train_a Demo.empty_frame.

(** Group A holds a negative value, which the demo library cannot fit with
    any options; group B is sound. *)
Definition train_bad_a : frame :=
  {| rows := [Demo.mk_row 8 "A" (-1); Demo.mk_row 8 "B" 5;
              Demo.mk_row 9 "A" 2; Demo.mk_row 9 "B" 6];
     ncols := 5 |}.

Definition after_bad_a : SkTime * result unit :=
  fit Demo.lib (stl_mixer 2) train_bad_a Demo.empty_frame.

Definition stl_class : model_class := SktimeClass "trend.STLForecaster".

(** The rows of group A in [train_bad_a], with their positions. *)
Definition bad_a_rows : subframe :=
  [(0%nat, Demo.mk_row 8 "A" (-1)); (2%nat, Demo.mk_row 9 "A" 2)].

(** A mixer as the objective of a search trial hands it to [_fit]: the
    class of the trial is the one of [model_path]. *)
Definition in_trial (s : SkTime) : SkTime :=
  set_hyperparam_dict (Some (model_path s)) s.

(** A mixer that uses the STL transformers, with transformers for
    group A. *)
Definition stl_on_a (s : SkTime) : SkTime :=
  {| horizon := horizon s; sp := sp s;
     ts_analysis :=
       {| tss := tss (ts_analysis s); periods := periods (ts_analysis s);
          deltas := deltas (ts_analysis s); stl_transforms := {[ "A" ]} |};
     grouped_by := grouped_by s; auto_size := auto_size s;
     cutoff_factor := cutoff_factor s; use_stl := true;
     models := models s; cutoffs := cutoffs s; study := study s;
     hyperparam_dict := hyperparam_dict s; model_path := model_path s;
     model_kwargs := model_kwargs s;
     hyperparam_search := hyperparam_search s;
     possible_models := possible_models s; n_trials := n_trials s;
     freq := freq s; prepared := prepared s |}.

(** The rows of group B in [train_bad_a]. *)
Definition bad_b_rows : list (string * subframe) :=
  [("B", [(1%nat, Demo.mk_row 8 "B" 5); (3%nat, Demo.mk_row 9 "B" 6)])].

(** Mixers whose family name does not resolve: the module exists and the
    class does not; the module does not exist. *)
Definition unknown_class_mixer : SkTime := Demo.mixer 2 "trend.NoSuchForecaster".

Definition unknown_module_mixer : SkTime := Demo.mixer 2 "nosuchmodule.Forecaster".

(** The state of the mixer when the search of [fit] has run all its trials. *)
Definition searched (lib : library) (self : SkTime) (train_data dev_data : frame)
    : SkTime :=
  optimize lib (set_study (Some []) self) train_data dev_data
           (take (n_trials self) (sampler_order lib (possible_models self))).

(** The [k]-th trial of a run of [optimize] over [grid] that starts from
    [self], as the study records it: the class the sampler hands out and,
    as value, the objective [_get_best_model] returns in the state the
    earlier trials have left, with the trial itself listed as running. *)
Definition trial_of (lib : library) (self : SkTime)
    (train_data dev_data : frame) (grid : list string) (k : nat)
    (cls : string) : trial :=
  let running :=
    add_trial {| t_class := cls; t_value := None |}
              (optimize lib self train_data dev_data (take k grid)) in
  {| t_class := cls;
     t_value :=
       Some (snd (_get_best_model lib running cls train_data dev_data)) |}.

(** A mixer that searches over the four default families. *)
Definition searching_mixer : SkTime :=
  {| horizon := 3; sp := None; ts_analysis := Demo.analysis 2;
     grouped_by := ["store"]; auto_size := true; cutoff_factor := 4;
     use_stl := false; models := ∅; cutoffs := ∅; study := None;
     hyperparam_dict := None; model_path := "trend.STLForecaster";
     model_kwargs := []; hyperparam_search := true;
     possible_models := default_possible_models;
     n_trials := 4; freq := "D"; prepared := false |}.

(** A mixer that searches over two families, neither of them the one of
    [model_path]; on two days of training data the fit of the first one
    raises. *)
Definition searching_two : SkTime :=
  {| horizon := 3; sp := None; ts_analysis := Demo.analysis 2;
     grouped_by := ["store"]; auto_size := true; cutoff_factor := 4;
     use_stl := false; models := ∅; cutoffs := ∅; study := None;
     hyperparam_dict := None; model_path := "trend.STLForecaster";
     model_kwargs := []; hyperparam_search := true;
     possible_models :=
       ["theta.ThetaForecaster"; "trend.PolynomialTrendForecaster"];
     n_trials := 2; freq := "D"; prepared := false |}.

Definition polynomial_class : model_class :=
  SktimeClass "trend.PolynomialTrendForecaster".

Definition dev_a : frame :=
  {| rows := [Demo.mk_row 11 "A" 4; Demo.mk_row 12 "A" 5]; ncols := 5 |}.

(** What [best_trial] has found after the trials [seen]. *)
Definition is_best (best : option trial) (seen : list trial) : Prop :=
  match best with
  | None => seen = []
  | Some b =>
      b ∈ seen /\
      exists vb, t_value b = Some vb /\
                 forall t v, t ∈ seen -> t_value t = Some v ->
                             lt_objective v vb = false
  end.

(** A fitted forecaster answers every window that starts at or after its
    least offset with one value per offset. *)
Definition answers_from_min_offset (f : fitted) : Prop :=
  forall a b, min_offset f <= a ->
              exists p, predict f (arange a b) = Ok p /\
                        length p = length (arange a b).

(** A registry [__call__] can predict from: every fitted forecaster answers
    its windows and its group has a cutoff and a time delta that is not
    zero. *)
Definition valid_for_call (self : SkTime) : Prop :=
  forall g m f,
    models self !! g = Some m -> fc_fitted m = Some f ->
    answers_from_min_offset f /\
    is_Some (cutoffs self !! g) /\
    exists d, deltas (ts_analysis self) !! g = Some d /\
              Qeq_bool d (0 # 1) = false.

(** The offset of every group of the frame with a fitted forecaster is
    defined: its time delta is not zero as a float and the quotient is
    no infinity. *)
Definition offsets_in_range (self : SkTime) (ds : frame) : Prop :=
  forall g sd r0 m cutoff d,
    (g, sd) ∈ groupby (group_by (tss (ts_analysis self))) (rows ds) ->
    head sd = Some r0 ->
    models self !! g = Some m -> is_fitted m = true ->
    cutoffs self !! g = Some cutoff ->
    deltas (ts_analysis self) !! g = Some d ->
    is_ok (offset_of (r_index (snd r0)) cutoff d) = true.

(** At most one row of the frame has a null group key. *)
Definition at_most_one_without_key (gby : list string) (rs : list row) : Prop :=
  forall i j ri rj,
    rs !! i = Some ri -> rs !! j = Some rj ->
    group_of gby ri = None -> group_of gby rj = None -> i = j.

(** The forecast of the [k]-th row of the group [g] whose rows are [sd]:
    for a group with a fitted forecaster, the [k]-th window of length
    [horizon] of the forecasts of the group; otherwise the target of the
    row before, repeated. *)
Definition row_forecast (self : SkTime) (g : string) (sd : subframe) (k : nat)
    : result (list value) :=
  let naive :=
    Ok (replicate (horizon self)
                  (previous_target (map snd (series_of sd)) k)) in
  match models self !! g with
  | Some m =>
      match fc_fitted m with
      | Some f =>
          first <- of_option IndexError (head sd) ;;
          delta <- of_option KeyError (deltas (ts_analysis self) !! g) ;;
          cutoff <- of_option KeyError (cutoffs self !! g) ;;
          offset <- offset_of (r_index (snd first)) cutoff delta ;;
          p <- all_preds_of (horizon self) m f (length sd) offset ;;
          Ok (py_slice k (k + horizon self) p)
      | None => naive
      end
  | None => naive
  end.

(** The forecasters the demo library leaves for groups A and B of
    [Demo.train_ab]. *)
Definition fitted_a : forecaster :=
  with_fitted (TransformedTargetForecaster [] stl_class [("sp", KInt 1)])
    (Demo.fitted_on [1 # 1; 2 # 1; 3 # 1]%Q None).

Definition fitted_b : forecaster :=
  with_fitted (TransformedTargetForecaster [] stl_class [("sp", KInt 1)])
    (Demo.fitted_on [5 # 1; 6 # 1; 7 # 1]%Q None).

(** Rows of the seen group A, of the unseen group C, and one row without a
    key. *)
Definition mixed_rows : frame :=
  {| rows := [Demo.mk_row 13 "A" 0; Demo.no_key 13 4; Demo.mk_row 14 "A" 0;
              Demo.mk_row 13 "C" 8; Demo.mk_row 14 "C" 9];
     ncols := 5 |}.

(** The mixer [__init__] constructs for the demo analysis, with the search
    on. *)
Definition fresh_mixer : SkTime :=
  match init 3 (Demo.analysis 2) "" [] true None true false with
  | Ok s => s
  | Raise _ => Demo.mixer 2 ""
  end.

(** Two rows without a key. *)
Definition two_rows_without_key : frame :=
  {| rows := [Demo.mk_row 13 "A" 0; Demo.no_key 13 4; Demo.no_key 14 5];
     ncols := 5 |}.

(** The distance [np.abs(secs - delta)] of a unit of [_get_freq]. *)
Definition unit_distance (delta : Q) (u : string * Z) : Q :=
  Qabs (inject_Z (snd u) - delta).

(** Every group that has a forecaster has a cutoff. *)
Definition registry_wf (s : SkTime) : Prop :=
  forall g, is_Some (models s !! g) -> is_Some (cutoffs s !! g).

(** Whether a name contains the character [.]. *)
Fixpoint has_dot (s : string) : bool :=
  match s with
  | EmptyString => false
  | String a t => Ascii.eqb a "."%char || has_dot t
  end.

(** ** The simple split of [lightwood/data/splitter.py] *)

(** A bound [i] of a python slice over [n] rows: counted from the end when
    negative, and cut to the range [0 .. n]. *)
Definition slice_bound (n : nat) (i : Z) : nat :=
  if Z.ltb i 0 then Z.to_nat (Z.max 0 (Z.of_nat n + i))
  else Z.to_nat (Z.min i (Z.of_nat n)).

(** [data[a:b]] on the rows of a frame. *)
Definition rows_slice {A} (a b : Z) (data : list A) : list A :=
  let a' := slice_bound (length data) a in
  let b' := slice_bound (length data) b in
  take (b' - a') (drop a' data).

(** [simple_split]: the three cutoffs are rounded shares of the number of
    rows, each added to the one before; a share is the float product of
    the number of rows and the percentage. *)
Definition simple_split {A} (data : list A) (pct_train pct_dev pct_test : Q)
    : result (list A * list A * list A) :=
  let n := inject_Z (Z.of_nat (length data)) in
  train_cutoff <- float_round (float_mul n pct_train) ;;
  dev_share <- float_round (float_mul n pct_dev) ;;
  let dev_cutoff := dev_share + train_cutoff in
  test_share <- float_round (float_mul n pct_test) ;;
  let test_cutoff := test_share + dev_cutoff in
  Ok (rows_slice 0 train_cutoff data,
      rows_slice train_cutoff dev_cutoff data,
      rows_slice dev_cutoff test_cutoff data).

(** The number of rows a share stands for. *)
Definition share (n : nat) (pct : Q) : nat :=
  Z.to_nat (py_round (float_mul (inject_Z (Z.of_nat n)) pct)).

(** ** Properties *)

(** *** Rounding *)

(** [round] returns an integer nearest to its argument. *)
Lemma py_round_nearest (x : Q) :
  (Qabs (inject_Z (py_round x) - x) <= 1 # 2)%Q.
Proof.
  unfold py_round.
  pose proof (Qfloor_le x) as Hlo. pose proof (Qlt_floor x) as Hhi.
  rewrite inject_Z_plus in Hhi. change (inject_Z 1) with 1%Q in Hhi.
  apply Qabs_Qle_condition.
  destruct (Qcompare_spec (x - inject_Z (Qfloor x)) (1 # 2)) as [He|Hl|Hg].
  - destruct (Z.even (Qfloor x)).
    + split; lra.
    + rewrite inject_Z_plus. change (inject_Z 1) with 1%Q. split; lra.
  - split; lra.
  - rewrite inject_Z_plus. change (inject_Z 1) with 1%Q. split; lra.
Qed.

Lemma py_round_tie_even (x : Q) :
  (Qabs (inject_Z (py_round x) - x) == 1 # 2)%Q ->
  Z.even (py_round x) = true.
Proof.
  unfold py_round.
  pose proof (Qfloor_le x) as Hlo. pose proof (Qlt_floor x) as Hhi.
  rewrite inject_Z_plus in Hhi. change (inject_Z 1) with 1%Q in Hhi.
  destruct (Qcompare_spec (x - inject_Z (Qfloor x)) (1 # 2)) as [He|Hl|Hg].
  - intros _. destruct (Z.even (Qfloor x)) eqn:Hev; [done|].
    rewrite Z.even_add, Hev. reflexivity.
  - intros Habs. exfalso.
    rewrite Qabs_neg in Habs by lra. lra.
  - intros Habs. exfalso. rewrite inject_Z_plus in Habs.
    change (inject_Z 1) with 1%Q in Habs.
    rewrite Qabs_pos in Habs by lra. lra.
Qed.

Lemma pow2_pos (e : Z) : (0 < pow2 e)%Q.
Proof. apply Qpower_0_lt. reflexivity. Qed.

Lemma pow2_add (a b : Z) : (pow2 (a + b) == pow2 a * pow2 b)%Q.
Proof. apply Qpower_plus. discriminate. Qed.

Lemma pow2_of_Z (a : Z) : 0 <= a -> (inject_Z (2 ^ a) == pow2 a)%Q.
Proof. intros. unfold pow2. by rewrite Zpower_Qpower. Qed.

Lemma binade_spec (x : Q) :
  ~ (x == 0)%Q ->
  (pow2 (binade x) <= Qabs x)%Q /\ (Qabs x < pow2 (binade x + 1))%Q.
Proof.
  intros Hnz. destruct x as [n d].
  assert (n <> 0) as Hn.
  { intros ->. apply Hnz. reflexivity. }
  unfold binade. cbn [Qnum Qden].
  set (a := Z.log2 (Z.abs n)). set (b := Z.log2 (Z.pos d)).
  assert (0 < Z.abs n) as HN by lia.
  destruct (Z.log2_spec (Z.abs n) HN) as [Ha1 Ha2].
  destruct (Z.log2_spec (Z.pos d)) as [Hb1 Hb2]; [lia|].
  fold a in Ha1, Ha2. fold b in Hb1, Hb2.
  assert (0 <= a) as Ha0 by apply Z.log2_nonneg.
  assert (0 <= b) as Hb0 by apply Z.log2_nonneg.
  assert (pow2 a <= inject_Z (Z.abs n))%Q as Qa1.
  { rewrite <- pow2_of_Z by done. by rewrite <- Zle_Qle. }
  assert (inject_Z (Z.abs n) < pow2 (a + 1))%Q as Qa2.
  { rewrite <- pow2_of_Z by lia. by rewrite <- Zlt_Qlt. }
  assert (pow2 b <= inject_Z (Z.pos d))%Q as Qb1.
  { rewrite <- pow2_of_Z by done. by rewrite <- Zle_Qle. }
  assert (inject_Z (Z.pos d) < pow2 (b + 1))%Q as Qb2.
  { rewrite <- pow2_of_Z by lia. by rewrite <- Zlt_Qlt. }
  assert (Qabs (n # d) == inject_Z (Z.abs n) / inject_Z (Z.pos d))%Q as Habs.
  { rewrite <- Zabs_Qabs. apply Qmake_Qdiv. }
  assert (0 < inject_Z (Z.pos d))%Q as HD.
  { change 0%Q with (inject_Z 0). by rewrite <- Zlt_Qlt. }
  pose proof (pow2_pos a) as Pa. pose proof (pow2_pos b) as Pb.
  pose proof (pow2_pos (a - b)) as Pk.
  assert (pow2 a == pow2 (a - b) * pow2 b)%Q as Hk.
  { rewrite <- pow2_add. by replace (a - b + b) with a by lia. }
  assert (pow2 (a + 1) == 2 * pow2 a)%Q as Ha'.
  { rewrite pow2_add. change (pow2 1) with (2 # 1)%Q. ring. }
  assert (pow2 (b + 1) == 2 * pow2 b)%Q as Hb'.
  { rewrite pow2_add. change (pow2 1) with (2 # 1)%Q. ring. }
  destruct (Qle_bool (pow2 (a - b)) (Qabs (n # d))) eqn:Hle.
  - apply Qle_bool_iff in Hle. split; [done|].
    rewrite Habs. apply Qlt_shift_div_r; [done|].
    rewrite pow2_add. change (pow2 1) with (2 # 1)%Q. nra.
  - assert (Qabs (n # d) < pow2 (a - b))%Q as Hlt.
    { apply Qnot_le_lt. intros H. apply Qle_bool_iff in H. congruence. }
    replace (a - b - 1 + 1) with (a - b) by lia. split; [|done].
    rewrite Habs. apply Qle_shift_div_l; [done|].
    assert (pow2 (a - b) == 2 * pow2 (a - b - 1))%Q as Hk'.
    { replace (a - b) with (a - b - 1 + 1) at 1 by lia.
      rewrite pow2_add. change (pow2 1) with (2 # 1)%Q. ring. }
    pose proof (pow2_pos (a - b - 1)). nra.
Qed.

Lemma to_double_0 (x : Q) : (x == 0)%Q -> to_double x = (0 # 1)%Q.
Proof.
  intros H. unfold to_double.
  by rewrite (proj2 (Qeq_bool_iff x (0 # 1)) H).
Qed.

(** The float nearest [x]: a multiple of the unit in the last place, at
    most half a unit away from [x]; half-way between two floats, the one
    with the even multiple. *)
Lemma to_double_nearest (x : Q) :
  ~ (x == 0)%Q ->
  exists m : Z,
    (to_double x == inject_Z m * pow2 (ulp_exponent x))%Q /\
    (Qabs (to_double x - x) <= pow2 (ulp_exponent x) / 2)%Q /\
    ((Qabs (to_double x - x) == pow2 (ulp_exponent x) / 2)%Q ->
     Z.even m = true).
Proof.
  intros Hnz. unfold to_double.
  destruct (Qeq_bool x (0 # 1)) eqn:Hz.
  { by apply Qeq_bool_iff in Hz. }
  set (p := pow2 (ulp_exponent x)).
  pose proof (pow2_pos (ulp_exponent x)) as Hp. fold p in Hp.
  set (m := py_round (x / p)).
  assert (Qred (inject_Z m * p) - x == (inject_Z m - x / p) * p)%Q as Hdiff.
  { rewrite Qred_correct. field. lra. }
  assert (Qabs (Qred (inject_Z m * p) - x)
          == Qabs (inject_Z m - x / p) * p)%Q as Habs.
  { rewrite Hdiff, Qabs_Qmult, (Qabs_pos p) by lra. reflexivity. }
  exists m. split; [apply Qred_correct|]. split.
  - rewrite Habs. pose proof (py_round_nearest (x / p)) as Hn. fold m in Hn.
    apply Qle_shift_div_l; [reflexivity|]. nra.
  - intros Htie. apply py_round_tie_even. fold m.
    rewrite Habs in Htie.
    assert (Qabs (inject_Z m - x / p) * p == (1 # 2) * p)%Q as H'.
    { rewrite Htie. field. }
    apply Qmult_inj_r in H'; [done|lra].
Qed.

(** The binade of a float has 53 binary digits. *)
Lemma ulp_exponent_spec (x : Q) :
  ~ (x == 0)%Q ->
  (pow2 (-1022) <= Qabs x)%Q ->
  (pow2 (ulp_exponent x + 52) <= Qabs x)%Q /\
  (Qabs x < pow2 (ulp_exponent x + 53))%Q.
Proof.
  intros Hnz Hnormal. destruct (binade_spec x Hnz) as [Hlo Hhi].
  assert (-1022 <= binade x) as Hb.
  { apply Z.lt_succ_r. apply Z.nle_gt. intros Hle.
    assert (pow2 (binade x + 1) <= pow2 (-1022))%Q.
    { apply Qpower_le_compat_l; [lia|]. discriminate. }
    lra. }
  unfold ulp_exponent. rewrite Z.max_l by lia.
  replace (binade x - 52 + 52) with (binade x) by lia.
  replace (binade x - 52 + 53) with (binade x + 1) by lia. done.
Qed.

Lemma to_double_nonneg (x : Q) : (0 <= x)%Q -> (0 <= to_double x)%Q.
Proof.
  intros Hx. unfold to_double.
  destruct (Qeq_bool x (0 # 1)); [discriminate|].
  rewrite Qred_correct.
  pose proof (pow2_pos (ulp_exponent x)) as Hp.
  apply Qmult_le_0_compat; [|lra].
  change 0%Q with (inject_Z 0). rewrite <- Zle_Qle.
  unfold py_round.
  assert (0 <= x / pow2 (ulp_exponent x))%Q as Hq.
  { apply Qle_shift_div_l; [done|]. lra. }
  assert (0 <= Qfloor (x / pow2 (ulp_exponent x))) as Hf.
  { change 0 with (Qfloor 0). by apply Qfloor_resp_le. }
  repeat case_match; lia.
Qed.

(** *** The naive forecast *)

Lemma iloc_set_spec (idxs : list nat) :
  forall (vals : list (list value)) (ydf : list cell),
    length idxs = length vals ->
    NoDup idxs ->
    Forall (fun i => i < length ydf)%nat idxs ->
    exists ydf',
      iloc_set idxs vals ydf = Ok ydf' /\
      length ydf' = length ydf /\
      (forall k i v, idxs !! k = Some i -> vals !! k = Some v ->
                     ydf' !! i = Some (Preds v)) /\
      (forall j, j ∉ idxs -> ydf' !! j = ydf !! j).
Proof.
  induction idxs as [|i idxs IH]; intros vals ydf Hlen Hnd Hin.
  - destruct vals; [|discriminate]. exists ydf. repeat split; auto.
    intros k i v Hk. by rewrite lookup_nil in Hk.
  - destruct vals as [|v vals]; [discriminate|].
    apply NoDup_cons in Hnd as [Hi Hnd].
    apply Forall_cons in Hin as [Hlt Hin].
    simpl. destruct (decide (i < length ydf)%nat); [|lia].
    destruct (IH vals (<[i:=Preds v]> ydf)) as (ydf' & Heq & Hl & Hset & Hother).
    + simpl in Hlen. lia.
    + done.
    + rewrite length_insert. done.
    + exists ydf'. split; [done|]. split; [by rewrite Hl, length_insert|]. split.
      * intros [|k] j w Hj Hw; simpl in *.
        -- inversion Hj; inversion Hw; subst.
           rewrite Hother by done. by apply list_lookup_insert_eq.
        -- eauto.
      * intros j Hj. apply not_elem_of_cons in Hj as [Hne Hj].
        rewrite Hother by done. by apply list_lookup_insert_ne.
Qed.

Lemma length_removelast_cons {A} (x : A) (l : list A) :
  length (removelast (x :: l)) = length l.
Proof.
  rewrite removelast_firstn_len, length_take. simpl. lia.
Qed.

Lemma lookup_removelast {A} (l : list A) (k : nat) :
  (S k < length l)%nat -> removelast l !! k = l !! k.
Proof.
  intros Hk. rewrite removelast_firstn_len. apply lookup_take_lt. lia.
Qed.

Lemma shifted_lookup (data : list value) (k : nat) :
  (k < length data)%nat ->
  (zero :: removelast data) !! k = Some (previous_target data k).
Proof.
  intros Hk. destruct k as [|k]; [done|]. simpl.
  rewrite lookup_removelast by lia.
  destruct (data !! k) eqn:E; [done|].
  apply lookup_ge_None in E. lia.
Qed.

Lemma call_default_spec (h : nat) (ydf : list cell) (data : arraylike)
    (flat : list value) (idxs : list nat) :
  flatten data = Ok flat ->
  flat <> [] ->
  length idxs = length flat ->
  NoDup idxs ->
  Forall (fun i => i < length ydf)%nat idxs ->
  exists ydf',
    _call_default h ydf data idxs = Ok ydf' /\
    length ydf' = length ydf /\
    (forall k i, idxs !! k = Some i ->
                 ydf' !! i = Some (Preds (replicate h (previous_target flat k)))) /\
    (forall j, j ∉ idxs -> ydf' !! j = ydf !! j).
Proof.
  intros Hflat Hne Hlen Hnd Hin. unfold _call_default.
  rewrite Hflat. cbn [rbind].
  destruct flat as [|d0 flat]; [done|].
  destruct (iloc_set_spec idxs
              (map (fun v => replicate h v) (zero :: removelast (d0 :: flat)))
              ydf) as (ydf' & Heq & Hl & Hset & Hother); try done.
  - rewrite length_map, length_cons, length_removelast_cons.
    by rewrite Hlen.
  - exists ydf'. repeat split; try done.
    intros k i Hk. eapply Hset; [done|].
    rewrite list_lookup_fmap.
    rewrite shifted_lookup; [done|].
    apply lookup_lt_Some in Hk. lia.
Qed.

(** The naive forecast on data that has a [flatten], an ndarray or a numpy
    scalar: every row of the batch receives an array of [horizon] values,
    each equal to the target of the row before it in the batch; the first
    row of the batch receives [horizon] zeros. *)
Lemma fallback_repeats_previous_target (h : nat) (ydf : list cell)
    (data : arraylike) (flat : list value) (idxs : list nat) :
  flatten data = Ok flat ->
  flat <> [] ->
  length idxs = length flat ->
  NoDup idxs ->
  Forall (fun i => i < length ydf)%nat idxs ->
  exists ydf',
    _call_default h ydf data idxs = Ok ydf' /\
    (forall i, idxs !! 0%nat = Some i ->
               ydf' !! i = Some (Preds (replicate h zero))) /\
    (forall k i prev, idxs !! S k = Some i -> flat !! k = Some prev ->
               ydf' !! i = Some (Preds (replicate h prev))) /\
    (forall k i l, idxs !! k = Some i -> ydf' !! i = Some (Preds l) ->
               length l = h).
Proof.
  intros Hflat Hne Hlen Hnd Hin.
  destruct (call_default_spec h ydf data flat idxs)
    as (ydf' & Heq & _ & Hset & _); try done.
  exists ydf'. split; [done|]. split; [|split].
  - intros i Hi. by rewrite (Hset 0%nat i Hi).
  - intros k i prev Hi Hprev. rewrite (Hset (S k) i Hi). simpl.
    by rewrite Hprev.
  - intros k i l Hi Hl. rewrite (Hset k i Hi) in Hl. inversion Hl.
    by rewrite length_replicate.
Qed.

Lemma fallback_repeats_previous_target_witness :
  exists ydf',
    _call_default 3 [Zero; Zero; Zero]
      (NdArray [Some (7 # 1)%Q; Some (9 # 1)%Q]) [2%nat; 0%nat] = Ok ydf' /\
    ydf' !! 2%nat = Some (Preds (replicate 3 zero)) /\
    ydf' !! 0%nat = Some (Preds (replicate 3 (Some (7 # 1)%Q))).
Proof.
  destruct (fallback_repeats_previous_target 3 [Zero; Zero; Zero]
              (NdArray [Some (7 # 1)%Q; Some (9 # 1)%Q])
              [Some (7 # 1)%Q; Some (9 # 1)%Q] [2%nat; 0%nat])
    as (ydf' & Heq & H0 & H1 & _).
  - reflexivity.
  - discriminate.
  - reflexivity.
  - compute_done.
  - compute_done.
  - exists ydf'. split; [exact Heq|]. split.
    + apply H0. reflexivity.
    + apply (H1 0%nat 0%nat). reflexivity. reflexivity.
Defined.

(** *** The forecast of a fitted group *)

Lemma length_arange (a b : Z) : a <= b -> length (arange a b) = Z.to_nat (b - a).
Proof. intros H. unfold arange. by rewrite length_seqZ. Qed.

(** C2 (as amended). An offset below the least offset the fitted forecaster
    answers is replaced by that least offset: the forecaster is asked for
    the window that starts there, and the call behaves as if the least
    offset had been given. *)
Theorem groupmodel_clamps_offset (h : nat) (ydf : list cell) (m : forecaster)
    (f : fitted) (series : list (nat * value)) (offset : Z) :
  fc_fitted m = Some f ->
  offset < min_offset f ->
  _call_groupmodel h ydf m series offset =
    _call_groupmodel h ydf m series (min_offset f) /\
  _call_groupmodel h ydf m series offset =
    (p <- predict f (arange (min_offset f)
                            (min_offset f + Z.of_nat (length series)
                             + Z.of_nat h)) ;;
     Ok (write_windows h
           (if is_AutoARIMA (fc_class m)
            then py_suffix (length series + h) p else p)
           series ydf)).
Proof.
  intros Hf Hlt. unfold _call_groupmodel, all_preds_of. rewrite Hf.
  rewrite Z.max_r by lia. rewrite Z.max_id. split; [done|].
  replace (Z.to_nat (min_offset f + Z.of_nat (length series) + Z.of_nat h
                     - min_offset f))
    with (length series + h)%nat by lia.
  destruct (is_AutoARIMA (fc_class m)); [|by destruct (predict f _)].
  cbn [rbind]. by destruct (predict f _).
Qed.

Lemma groupmodel_clamps_offset_witness :
  _call_groupmodel 3 [Zero; Zero] fitted_on_five
    [(0%nat, Some (1 # 1)%Q); (1%nat, Some (2 # 1)%Q)] (-10) =
  _call_groupmodel 3 [Zero; Zero] fitted_on_five
    [(0%nat, Some (1 # 1)%Q); (1%nat, Some (2 # 1)%Q)] (-4).
Proof.
  apply (groupmodel_clamps_offset 3 [Zero; Zero] fitted_on_five
           (Demo.fitted_on [1 # 1; 2 # 1; 3 # 1; 4 # 1; 5 # 1]%Q None)).
  - reflexivity.
  - vm_compute. reflexivity.
Defined.

(** C2 (as stated) fails: the forecaster refuses the offset -10, which is
    below its least offset -4, and still the call for offset -10 raises
    nothing and returns the forecasts of the window that starts at -4. *)
Lemma offset_below_minimum_raises_nothing :
  (-10 < -4) /\
  (exists f, fc_fitted fitted_on_five = Some f /\ min_offset f = -4 /\
             predict f [-10] = Raise (LibraryError "data not available")) /\
  _call_groupmodel 3 [Zero; Zero] fitted_on_five
    [(0%nat, Some (1 # 1)%Q); (1%nat, Some (2 # 1)%Q)] (-10) =
  Ok [Preds [Some (-4 # 1)%Q; Some (-3 # 1)%Q; Some (-2 # 1)%Q];
      Preds [Some (-3 # 1)%Q; Some (-2 # 1)%Q; Some (-1 # 1)%Q]].
Proof.
  split; [lia|]. split; [|vm_compute; reflexivity].
  eexists. split; [reflexivity|]. split; vm_compute; reflexivity.
Qed.

Lemma call_group_with_fitted_model (self : SkTime) (nc : nat)
    (ydf : list cell) (pending_idxs : gset nat) (group : string) (i0 : nat)
    (r0 : row) (others : subframe) (m : forecaster) (delta_ cutoff : Q) :
  models self !! group = Some m ->
  is_fitted m = true ->
  deltas (ts_analysis self) !! group = Some delta_ ->
  cutoffs self !! group = Some cutoff ->
  call_group self (S nc) (ydf, pending_idxs) (group, (i0, r0) :: others) =
    (ydf' <- (offset <- offset_of (r_index r0) cutoff delta_ ;;
              _call_groupmodel (horizon self) ydf m
                (series_of ((i0, r0) :: others)) offset) ;;
     Ok (ydf', pending_idxs ∖ list_to_set
                 (map fst (series_of ((i0, r0) :: others))))).
Proof.
  intros Hm Hfit Hd Hc. unfold call_group.
  destruct (decide (0 < frame_size (S nc) ((i0, r0) :: others))%nat) as [_|Hn];
    [|unfold frame_size in Hn; simpl in Hn; lia].
  cbn [head of_option rbind snd]. rewrite Hm, Hfit, Hd, Hc.
  reflexivity.
Qed.

(** C8. For a group with a fitted forecaster the offset handed to the
    forecaster is [round(delta / freq)], computed on floats: [delta] is the
    float of the seconds from the stored cutoff of the group to the index
    label of its first row, [freq] the float of its average time delta and
    the quotient the float nearest to the exact quotient of the two (at
    most half a unit in the last place away, the even significand at a
    tie); [round] takes the integer nearest to that float, the even one at
    a tie. A delta of zero and a quotient that is an infinity raise. For a
    cutoff at day 10, a delta of one day and a row at day 13 the offset
    is 3. *)
Theorem offset_from_cutoff (self : SkTime) (nc : nat) (ydf : list cell)
    (pending_idxs : gset nat) (group : string) (i0 : nat) (r0 : row)
    (others : subframe) (m : forecaster) (delta_ cutoff : Q) :
  models self !! group = Some m ->
  is_fitted m = true ->
  deltas (ts_analysis self) !! group = Some delta_ ->
  cutoffs self !! group = Some cutoff ->
  let exact := (to_double (r_index r0 - cutoff) / to_double delta_)%Q in
  let quotient := to_double exact in
  let offset := py_round quotient in
  call_group self (S nc) (ydf, pending_idxs) (group, (i0, r0) :: others) =
    (if Qeq_bool (to_double delta_) (0 # 1) then Raise ZeroDivisionError
     else if Qle_bool (pow2 1024) (Qabs quotient) then Raise OverflowError
     else
       ydf' <- _call_groupmodel (horizon self) ydf m
                 (series_of ((i0, r0) :: others)) offset ;;
       Ok (ydf', pending_idxs ∖ list_to_set
                   (map fst (series_of ((i0, r0) :: others))))) /\
  (Qabs (inject_Z offset - quotient) <= 1 # 2)%Q /\
  ((Qabs (inject_Z offset - quotient) == 1 # 2)%Q -> Z.even offset = true) /\
  (~ (exact == 0)%Q ->
   exists significand : Z,
     (quotient == inject_Z significand * pow2 (ulp_exponent exact))%Q /\
     (Qabs (quotient - exact) <= pow2 (ulp_exponent exact) / 2)%Q /\
     ((Qabs (quotient - exact) == pow2 (ulp_exponent exact) / 2)%Q ->
      Z.even significand = true)) /\
  offset_of (Demo.at_day 13) (Demo.at_day 10) Demo.day = Ok 3.
Proof.
  intros Hm Hfit Hd Hc exact quotient offset.
  split; [|split; [|split; [|split]]].
  - rewrite (call_group_with_fitted_model self nc ydf pending_idxs group i0
               r0 others m delta_ cutoff Hm Hfit Hd Hc).
    unfold offset_of, float_div, float_round, is_inf.
    destruct (Qeq_bool (to_double delta_) (0 # 1)); [reflexivity|].
    cbn [rbind]. fold exact. fold quotient.
    destruct (Qle_bool (pow2 1024) (Qabs quotient)); reflexivity.
  - apply py_round_nearest.
  - apply py_round_tie_even.
  - apply to_double_nearest.
  - vm_compute. reflexivity.
Qed.

Lemma offset_from_cutoff_witness :
  call_group fitted_ab 6 ([Zero], ∅) ("A", [(0%nat, Demo.mk_row 13 "A" 0)]) =
    (ydf' <- _call_groupmodel 3 [Zero] fitted_a [(0%nat, Some (0 # 1)%Q)] 3 ;;
     Ok (ydf', ∅ ∖ list_to_set [0%nat])).
Proof.
  destruct (offset_from_cutoff fitted_ab 5 [Zero] ∅ "A" 0%nat
              (Demo.mk_row 13 "A" 0) [] fitted_a Demo.day (Demo.at_day 10))
    as [Hcall _].
  - vm_compute. reflexivity.
  - reflexivity.
  - vm_compute. reflexivity.
  - vm_compute. reflexivity.
  - rewrite Hcall. reflexivity.
Defined.

(** The offset follows the floats, not the exact quotient: 0.35 / 0.1 is
    a float below 3.5, where the exact quotient is the tie 3.5; and the
    quotient of 0.75 by the float nearest to 0.1 is the float 7.5, where
    the exact quotient is below 7.5. *)
Example offset_of_float_quotients :
  offset_of (35 # 100) (0 # 1) (1 # 10) = Ok 3 /\
  py_round ((35 # 100) / (1 # 10))%Q = 4 /\
  to_double (1 # 10) = (3602879701896397 # 36028797018963968)%Q /\
  offset_of (3 # 4) (0 # 1) (3602879701896397 # 36028797018963968) = Ok 8 /\
  py_round ((3 # 4) / (3602879701896397 # 36028797018963968))%Q = 7.
Proof. repeat split; vm_compute; reflexivity. Qed.

(** *** What a fit leaves alone *)

Section Frame.

Context (lib : library).

Lemma fit_group_settings mc df nc self grp :
  settings (fst (fit_group lib mc df nc self grp)) = settings self /\
  study (fst (fit_group lib mc df nc self grp)) = study self /\
  hyperparam_dict (fst (fit_group lib mc df nc self grp)) = hyperparam_dict self /\
  hyperparam_search (fst (fit_group lib mc df nc self grp)) = hyperparam_search self /\
  prepared (fst (fit_group lib mc df nc self grp)) = prepared self.
Proof.
  destruct grp as [group series_data].
  unfold fit_group, fit_or_default.
  repeat (case_match; try done).
Qed.

Lemma for_each_settings {B} (body : SkTime -> B -> SkTime * result unit)
    (P : SkTime -> SkTime -> Prop) :
  (forall s, P s s) ->
  (forall s1 s2 s3, P s1 s2 -> P s2 s3 -> P s1 s3) ->
  (forall s b, P s (fst (body s b))) ->
  forall l s, P s (fst (for_each body s l)).
Proof.
  intros Hrefl Htrans Hbody l. induction l as [|b l IH]; intros s; [apply Hrefl|].
  simpl. specialize (Hbody s b). destruct (body s b) as [s' r].
  destruct r; [|done]. eapply Htrans; [exact Hbody|apply IH].
Qed.

Lemma _fit_settings self data : same_settings self (fst (_fit lib self data)).
Proof.
  unfold _fit. destruct (module_name_of self); [|done].
  destruct (resolve_class lib a); [|done].
  apply (for_each_settings _ same_settings).
  - done.
  - unfold same_settings. intros s1 s2 s3 (?&?&?&?&?) (?&?&?&?&?).
    repeat split; congruence.
  - intros s b. apply fit_group_settings.
Qed.

Lemma _fit_hyperparam_search self data :
  hyperparam_search (fst (_fit lib self data)) = hyperparam_search self.
Proof. apply _fit_settings. Qed.

Lemma _fit_study self data : study (fst (_fit lib self data)) = study self.
Proof. apply _fit_settings. Qed.

Lemma _get_best_model_keeps self cls train test :
  hyperparam_search (fst (_get_best_model lib self cls train test))
    = hyperparam_search self /\
  study (fst (_get_best_model lib self cls train test)) = study self /\
  settings (fst (_get_best_model lib self cls train test)) = settings self.
Proof.
  unfold _get_best_model.
  pose proof (_fit_settings (set_hyperparam_dict (Some cls) self) train)
    as (Hs & Hst & _ & Hh & _).
  destruct (_fit lib (set_hyperparam_dict (Some cls) self) train) as [s r].
  simpl in *. by rewrite Hs, Hst, Hh.
Qed.

Lemma optimize_hyperparam_search grid : forall self train dev,
  hyperparam_search (optimize lib self train dev grid) = hyperparam_search self.
Proof.
  induction grid as [|c grid IH]; intros self train dev; [done|].
  unfold optimize in *. simpl. rewrite IH.
  pose proof (_get_best_model_keeps
                (add_trial {| t_class := c; t_value := None |} self)
                c train dev) as (Hh & _).
  destruct (_get_best_model lib _ c train dev) as [s e]. simpl in *.
  by rewrite Hh.
Qed.

Lemma fit_hyperparam_search self train dev :
  hyperparam_search (fst (fit lib self train dev)) = hyperparam_search self.
Proof.
  unfold fit. destruct (hyperparam_search self) eqn:E.
  - rewrite _fit_hyperparam_search, optimize_hyperparam_search. done.
  - by rewrite _fit_hyperparam_search.
Qed.

Lemma partial_fit_hyperparam_search self train dev :
  hyperparam_search (fst (partial_fit lib self train dev)) = false.
Proof.
  unfold partial_fit.
  pose proof (fit_hyperparam_search (set_hyperparam_search false self)
                dev train) as H.
  destruct (fit lib (set_hyperparam_search false self) dev train) as [s r].
  simpl in H. by destruct r.
Qed.

Lemma run_keeps_search_off self o :
  hyperparam_search self = false ->
  hyperparam_search (run lib self o) = false.
Proof.
  intros H. destruct o; simpl.
  - by rewrite fit_hyperparam_search.
  - apply partial_fit_hyperparam_search.
  - done.
Qed.

Lemma run_all_keeps_search_off ops : forall self,
  hyperparam_search self = false ->
  hyperparam_search (run_all lib self ops) = false.
Proof.
  induction ops as [|o ops IH]; intros self H; [done|].
  apply IH. by apply run_keeps_search_off.
Qed.

(** C10. [partial_fit] turns the search off, and no sequence of later
    calls of [fit], [partial_fit] or [__call__] turns it on again; a
    [fit] with the search off is the plain [_fit] on the two splits and
    leaves the study as it was; and [partial_fit] calls [fit] with its
    [dev_data] as the training split and its [train_data] as the dev
    split. *)
Theorem partial_fit_disables_search (self : SkTime)
    (train_data dev_data : frame) (later : list operation) :
  let after := fst (partial_fit lib self train_data dev_data) in
  hyperparam_search after = false /\
  hyperparam_search (run_all lib after later) = false /\
  (forall s train dev,
      hyperparam_search s = false ->
      fit lib s train dev = _fit lib s (ConcatedEncodedDs train dev) /\
      study (fst (fit lib s train dev)) = study s) /\
  partial_fit lib self train_data dev_data =
    (let '(s, r) := fit lib (set_hyperparam_search false self)
                        dev_data train_data in
     match r with
     | Ok _ => (set_prepared true s, Ok tt)
     | Raise e => (s, Raise e)
     end) /\
  fit lib (set_hyperparam_search false self) dev_data train_data =
    _fit lib (set_hyperparam_search false self)
         (ConcatedEncodedDs dev_data train_data).
Proof.
  intros after. split; [apply partial_fit_hyperparam_search|].
  split; [apply run_all_keeps_search_off, partial_fit_hyperparam_search|].
  split; [|split; [reflexivity|reflexivity]].
  intros s train dev Hs. unfold fit. rewrite Hs. split; [done|].
  apply _fit_study.
Qed.

End Frame.

(** *** Grouping *)

Lemma sorted_keys_NoDup (l : list string) : NoDup (sorted_keys l).
Proof.
  unfold sorted_keys.
  rewrite (merge_sort_Permutation string_le (remove_dups l)).
  apply NoDup_remove_dups.
Qed.

Lemma elem_of_sorted_keys (l : list string) (k : string) :
  k ∈ sorted_keys l <-> k ∈ l.
Proof.
  unfold sorted_keys.
  rewrite (merge_sort_Permutation string_le (remove_dups l)).
  apply elem_of_remove_dups.
Qed.

Lemma sort_by_Permutation {A} (key : A -> Q) (l : list A) : sort_by key l ≡ₚ l.
Proof. apply merge_sort_Permutation. Qed.

Lemma groupby_keys (gby : list string) (rs : list row) :
  map fst (groupby gby rs) = sorted_keys (omap (group_of gby) rs).
Proof.
  unfold groupby. rewrite map_map. simpl. apply map_id.
Qed.

Lemma groupby_NoDup (gby : list string) (rs : list row) :
  NoDup (map fst (groupby gby rs)).
Proof. rewrite groupby_keys. apply sorted_keys_NoDup. Qed.

Lemma elem_of_groupby (gby : list string) (rs : list row) (g : string)
    (sd : subframe) :
  (g, sd) ∈ groupby gby rs <->
  sd = filter (fun ir : nat * row => group_of gby (snd ir) = Some g)
              (enumerate rs) /\
  exists r, r ∈ rs /\ group_of gby r = Some g.
Proof.
  unfold groupby. rewrite list_elem_of_fmap. split.
  - intros (k & Heq & Hk). inversion Heq; subst. split; [done|].
    apply elem_of_sorted_keys, list_elem_of_omap in Hk. done.
  - intros (-> & Hr). exists g. split; [done|].
    by apply elem_of_sorted_keys, list_elem_of_omap.
Qed.

Lemma elem_of_enumerate {A} (l : list A) (i : nat) (x : A) :
  (i, x) ∈ enumerate l <-> l !! i = Some x.
Proof.
  unfold enumerate. rewrite elem_of_lookup_imap. split.
  - intros (j & y & Heq & Hj). by inversion Heq; subst.
  - intros H. by exists i, x.
Qed.

Lemma enumerate_fst {A} (l : list A) : map fst (enumerate l) = seq 0 (length l).
Proof.
  apply list_eq. intros i.
  change (map fst (enumerate l)) with (fst <$> enumerate l).
  unfold enumerate. rewrite list_lookup_fmap, list_lookup_imap.
  destruct (l !! i) eqn:E; simpl; symmetry.
  - apply lookup_seq. split; [done|]. by apply lookup_lt_Some in E.
  - apply lookup_ge_None. rewrite length_seq. by apply lookup_ge_None in E.
Qed.

(** The rows of a group: at least one, at distinct positions of the frame,
    each with the key of the group. *)
Lemma group_rows (gby : list string) (rs : list row) (g : string)
    (sd : subframe) :
  (g, sd) ∈ groupby gby rs ->
  sd <> [] /\
  NoDup (map fst sd) /\
  (forall i r, (i, r) ∈ sd <-> rs !! i = Some r /\ group_of gby r = Some g).
Proof.
  intros (-> & r & Hr & Hg)%elem_of_groupby. split; [|split].
  - apply list_elem_of_lookup in Hr as [i Hi].
    intros Hnil.
    assert ((i, r) ∈ filter (fun ir : nat * row => group_of gby (snd ir) = Some g)
                       (enumerate rs)) as Hin.
    { apply list_elem_of_filter. split; [done|]. by apply elem_of_enumerate. }
    rewrite Hnil in Hin. by apply elem_of_nil in Hin.
  - eapply sublist_NoDup; [|apply (fmap_sublist fst), sublist_filter].
    change (NoDup (map fst (enumerate rs))).
    rewrite enumerate_fst. apply NoDup_seq.
  - intros i r'. rewrite list_elem_of_filter, elem_of_enumerate. simpl.
    tauto.
Qed.

(** *** The registry after a fit *)

Section Registry.

Context (lib : library).

Lemma fit_group_other mc df nc self g sd g' :
  g' <> g ->
  models (fst (fit_group lib mc df nc self (g, sd))) !! g' = models self !! g' /\
  cutoffs (fst (fit_group lib mc df nc self (g, sd))) !! g' = cutoffs self !! g'.
Proof.
  intros Hne. unfold fit_group, fit_or_default.
  repeat (case_match; simpl; rewrite ?lookup_insert_ne by done; try done).
Qed.

Lemma for_each_fit_group_other mc df nc g' : forall gs self,
  g' ∉ map fst gs ->
  models (fst (for_each (fit_group lib mc df nc) self gs)) !! g' = models self !! g' /\
  cutoffs (fst (for_each (fit_group lib mc df nc) self gs)) !! g' = cutoffs self !! g'.
Proof.
  induction gs as [|[g sd] gs IH]; intros self Hnot; [done|].
  simpl in Hnot. apply not_elem_of_cons in Hnot as [Hne Hnot].
  simpl. pose proof (fit_group_other mc df nc self g sd g' Hne) as [Hm Hc].
  destruct (fit_group lib mc df nc self (g, sd)) as [s' r]. simpl in *.
  destruct r; [|done]. destruct (IH s' Hnot) as [Hm' Hc'].
  by rewrite Hm', Hc'.
Qed.

(** After a loop that ends without an exception, the entries of a group
    are those its own iteration has left. *)
Lemma for_each_fit_group_own mc df nc : forall gs self s',
  NoDup (map fst gs) ->
  for_each (fit_group lib mc df nc) self gs = (s', Ok tt) ->
  forall g sd, (g, sd) ∈ gs ->
  exists s1 s2,
    same_settings self s1 /\
    fit_group lib mc df nc s1 (g, sd) = (s2, Ok tt) /\
    models s' !! g = models s2 !! g /\
    cutoffs s' !! g = cutoffs s2 !! g.
Proof.
  induction gs as [|[g0 sd0] gs IH]; intros self s' Hnd Hrun g sd Hin.
  { by apply elem_of_nil in Hin. }
  simpl in Hnd. apply NoDup_cons in Hnd as [Hfresh Hnd].
  simpl in Hrun.
  pose proof (fit_group_settings lib mc df nc self (g0, sd0)) as Hset.
  destruct (fit_group lib mc df nc self (g0, sd0)) as [s0 r0] eqn:E0.
  destruct r0 as [[]|]; [|done]. simpl in Hset.
  apply elem_of_cons in Hin as [Heq|Hin].
  - inversion Heq; subst. exists self, s0. split; [done|]. split; [done|].
    pose proof (for_each_fit_group_other mc df nc g0 gs s0 Hfresh) as [Hm Hc].
    rewrite Hrun in Hm, Hc. done.
  - destruct (IH s0 s' Hnd Hrun g sd Hin) as (s1 & s2 & Hs & Hfit & Hm & Hc).
    exists s1, s2. split; [|done].
    destruct Hset as (?&?&?&?&?), Hs as (?&?&?&?&?).
    repeat split; congruence.
Qed.

End Registry.

Section RegistryEntries.

Context (lib : library).

Lemma last_elem_of {A} (l : list A) (x : A) : last l = Some x -> x ∈ l.
Proof.
  intros H. destruct (decide (l = [])) as [->|Hne]; [done|].
  destruct (exists_last Hne) as (l' & y & ->).
  rewrite last_snoc in H. inversion H; subst.
  apply elem_of_app. right. by apply list_elem_of_singleton.
Qed.

(** What an iteration that ends without an exception leaves for its group:
    a forecaster of the class of the pass and the index label of the last
    row of the series it was given. *)
Lemma fit_group_own mc df nc self g sd s' :
  fit_group lib mc df nc self (g, sd) = (s', Ok tt) ->
  exists m r_last,
    models s' !! g = Some m /\ fc_class m = mc /\
    cutoffs s' !! g = Some (r_index r_last) /\
    last (if decide (grouped_by self = ["__default"]) then df
          else map snd sd) = Some r_last.
Proof.
  unfold fit_group, fit_or_default, configured_forecaster, rbind. intros H.
  repeat (case_match; simplify_eq; simpl in *;
          rewrite ?lookup_insert_eq in *; simplify_eq);
    eexists _, _; simpl; rewrite ?lookup_insert_eq; repeat split; eauto.
Qed.

Lemma fit_group_short mc df nc self g sd s' r :
  (frame_size nc sd <= window (tss (ts_analysis self)))%nat ->
  fit_group lib mc df nc self (g, sd) = (s', r) ->
  r = Ok tt ->
  exists sp_ r_last m,
    seasonal_period self g = Ok sp_ /\
    configured_forecaster lib mc (set_model_kwargs (fit_options self sp_) self)
      g (fit_options self sp_) = Ok m /\
    is_fitted m = false /\
    models s' !! g = Some m /\
    cutoffs s' !! g = Some (r_index r_last).
Proof.
  unfold fit_group. intros Hsize H ->.
  destruct (seasonal_period self g) as [sp_|]; [|by inversion H].
  destruct (configured_forecaster _ _ _ _ _) as [m|] eqn:Hm; [|by inversion H].
  simpl in H. destruct (last _) as [r_last|]; [|by inversion H].
  destruct (decide _) as [Hlt|_]; [simpl in Hlt; lia|].
  inversion H; subst. exists sp_, r_last, m. simpl.
  rewrite !lookup_insert_eq. repeat split; try done.
  unfold configured_forecaster, rbind in Hm.
  destruct (sk_new _ _ _); by inversion Hm.
Qed.

End RegistryEntries.

Section RegistryAfterFit.

Context (lib : library).

Lemma elem_of_sort_by {A} (key : A -> Q) (l : list A) (x : A) :
  x ∈ sort_by key l <-> x ∈ l.
Proof. by rewrite (sort_by_Permutation key l). Qed.

Lemma group_key_observed (gby : list string) (rs : list row) (g : string) :
  g ∈ map fst (groupby gby rs) <->
  exists r, r ∈ rs /\ group_of gby r = Some g.
Proof. by rewrite groupby_keys, elem_of_sorted_keys, list_elem_of_omap. Qed.

(** C5 (as amended). A pass of [_fit] writes into the one registry of the
    mixer: the entries of a group that has no row in the data of the pass
    are exactly those from before the pass, whether the pass ends normally
    or with an exception; and after a pass that ends normally every group
    with a row in its data holds a forecaster of the class resolved in this
    pass and, as cutoff, an index label of this pass's data. *)
Theorem fit_overwrites_only_observed_groups (self : SkTime) (data : frame)
    (s' : SkTime) (r : result unit) :
  _fit lib self data = (s', r) ->
  (forall g,
      (forall x, x ∈ rows data ->
                 group_of (group_by (tss (ts_analysis self))) x <> Some g) ->
      models s' !! g = models self !! g /\
      cutoffs s' !! g = cutoffs self !! g) /\
  (r = Ok tt ->
   forall g x,
     x ∈ rows data ->
     group_of (group_by (tss (ts_analysis self))) x = Some g ->
     exists m name last_row,
       models s' !! g = Some m /\
       module_name_of self = Ok name /\
       resolve_class lib name = Ok (fc_class m) /\
       cutoffs s' !! g = Some (r_index last_row) /\
       last_row ∈ rows data).
Proof.
  unfold _fit. intros Hfit.
  destruct (module_name_of self) as [name|e] eqn:Hname;
    [|inversion Hfit; subst; split; [done|discriminate]].
  destruct (resolve_class lib name) as [mc|e] eqn:Hres;
    [|inversion Hfit; subst; split; [done|discriminate]].
  set (gby := group_by (tss (ts_analysis self))) in *.
  set (df := sort_by r_original_oby (rows data)) in *.
  split.
  - intros g Hnone.
    assert (g ∉ map fst (groupby gby df)) as Hfresh.
    { rewrite group_key_observed. intros (x & Hx & Hg).
      apply elem_of_sort_by in Hx. by apply (Hnone x). }
    pose proof (for_each_fit_group_other lib mc df (ncols data) g _ self Hfresh)
      as Hother.
    by rewrite Hfit in Hother.
  - intros -> g x Hx Hg.
    assert ((g, filter (fun ir : nat * row => group_of gby (snd ir) = Some g)
                       (enumerate df)) ∈ groupby gby df) as Hin.
    { apply elem_of_groupby. split; [done|]. exists x.
      split; [by apply elem_of_sort_by|done]. }
    destruct (for_each_fit_group_own lib mc df (ncols data) _ self s'
                (groupby_NoDup gby df) Hfit _ _ Hin)
      as (s1 & s2 & _ & Hg1 & Hm & Hc).
    destruct (fit_group_own lib _ _ _ _ _ _ _ Hg1)
      as (m & r_last & Hm2 & Hcls & Hc2 & Hlast).
    exists m, name, r_last. rewrite Hm, Hc, Hcls. repeat split; try done.
    apply last_elem_of in Hlast.
    destruct (decide (grouped_by s1 = ["__default"])).
    + by apply elem_of_sort_by in Hlast.
    + apply list_elem_of_fmap in Hlast as ([i y] & -> & Hy).
      apply (group_rows gby df g) in Hy as [Hy _]; [|done].
      simpl. apply (elem_of_sort_by r_original_oby).
      by eapply list_elem_of_lookup_2.
Qed.

End RegistryAfterFit.

Lemma fit_overwrites_only_observed_groups_witness :
  (models (fst after_ab_then_a) !! "B" = models (fst (after_ab 2)) !! "B" /\
   cutoffs (fst after_ab_then_a) !! "B" = cutoffs (fst (after_ab 2)) !! "B") /\
  cutoffs (fst after_ab_then_a) !! "A" = Some (Demo.at_day 12).
Proof.
  destruct (fit_overwrites_only_observed_groups Demo.lib (fst (after_ab 2))
              (ConcatedEncodedDs Demo.train_a Demo.empty_frame)
              (fst after_ab_then_a) (snd after_ab_then_a)) as [Hother Hown].
  - vm_compute. reflexivity.
  - split.
    + apply Hother. intros x Hx.
      apply list_elem_of_In in Hx. simpl in Hx.
      destruct Hx as [<-|[<-|[]]]; discriminate.
    + vm_compute. reflexivity.
Defined.

(** C5 (as stated) fails: after a fit on groups A and B, a second fit whose
    data has rows of group A only still holds the forecaster and the cutoff
    of group B from the first fit. *)
Lemma registry_keeps_groups_of_earlier_fit :
  snd (after_ab 2) = Ok tt /\
  snd after_ab_then_a = Ok tt /\
  Forall (fun x => r_group x = Some "A")
         (rows (ConcatedEncodedDs Demo.train_a Demo.empty_frame)) /\
  (exists m, models (fst after_ab_then_a) !! "B" = Some m /\
             models (fst (after_ab 2)) !! "B" = Some m /\
             is_fitted m = true) /\
  cutoffs (fst after_ab_then_a) !! "B" = Some (Demo.at_day 10).
Proof.
  split; [vm_compute; reflexivity|]. split; [vm_compute; reflexivity|].
  split; [repeat constructor|].
  split; [|vm_compute; reflexivity].
  eexists. split; [vm_compute; reflexivity|].
  split; vm_compute; reflexivity.
Qed.

(** *** Groups that are not fitted *)

Lemma call_group_without_fitted_model (self : SkTime) (nc : nat)
    (ydf : list cell) (pending_idxs : gset nat) (g : string) (i0 : nat)
    (r0 : row) (others : subframe) :
  (forall m, models self !! g = Some m -> is_fitted m = false) ->
  call_group self (S nc) (ydf, pending_idxs) (g, (i0, r0) :: others) =
    (ydf' <- _call_default (horizon self) ydf
               (NdArray (map snd (series_of ((i0, r0) :: others))))
               (map fst (series_of ((i0, r0) :: others))) ;;
     Ok (ydf', pending_idxs ∖ list_to_set
                 (map fst (series_of ((i0, r0) :: others))))).
Proof.
  intros Hm. unfold call_group.
  destruct (decide (0 < frame_size (S nc) ((i0, r0) :: others))%nat) as [_|Hn];
    [|unfold frame_size in Hn; simpl in Hn; lia].
  cbn [head of_option rbind snd].
  destruct (models self !! g) as [m|]; [|done].
  by rewrite (Hm m eq_refl).
Qed.

(** C4 (as amended). A group whose sub-frame has a size (rows times
    columns) of at most the window is not fitted by the pass, but the pass
    does store a forecaster for it, which reports itself as not fitted, and
    a cutoff; at prediction time the rows of the group receive the naive
    forecast. *)
Theorem short_group_is_recorded_unfitted (lib : library) (self : SkTime)
    (data : frame) (s' : SkTime) (g : string) (sd : subframe) :
  _fit lib self data = (s', Ok tt) ->
  (g, sd) ∈ groupby (group_by (tss (ts_analysis self)))
                    (sort_by r_original_oby (rows data)) ->
  (frame_size (ncols data) sd <= window (tss (ts_analysis self)))%nat ->
  (exists m c, models s' !! g = Some m /\ is_fitted m = false /\
               cutoffs s' !! g = Some c) /\
  (forall nc ydf pending_idxs i0 r0 others,
      call_group s' (S nc) (ydf, pending_idxs) (g, (i0, r0) :: others) =
        (ydf' <- _call_default (horizon s') ydf
                   (NdArray (map snd (series_of ((i0, r0) :: others))))
                   (map fst (series_of ((i0, r0) :: others))) ;;
         Ok (ydf', pending_idxs ∖ list_to_set
                     (map fst (series_of ((i0, r0) :: others)))))).
Proof.
  unfold _fit. intros Hfit Hin Hsize.
  destruct (module_name_of self) as [name|e]; [|by inversion Hfit].
  destruct (resolve_class lib name) as [mc|e]; [|by inversion Hfit].
  destruct (for_each_fit_group_own lib mc _ (ncols data) _ self s'
              (groupby_NoDup _ _) Hfit _ _ Hin)
    as (s1 & s2 & (Hset & _) & Hg1 & Hm & Hc).
  assert (window (tss (ts_analysis s1)) = window (tss (ts_analysis self)))
    as Hw by (unfold settings in Hset; congruence).
  destruct (fit_group_short lib mc _ (ncols data) s1 g sd s2 (Ok tt)
              ltac:(lia) Hg1 eq_refl)
    as (sp_ & r_last & m2 & _ & _ & Hunfit2 & Hm2 & Hc2).
  assert (forall m, models s' !! g = Some m -> is_fitted m = false) as Hunfit.
  { intros m Hm'. rewrite Hm, Hm2 in Hm'. by inversion Hm'; subst. }
  split.
  - eexists _, _. rewrite Hm, Hc. split; [exact Hm2|]. split; [done|exact Hc2].
  - intros. by apply call_group_without_fitted_model.
Qed.

Lemma short_group_is_recorded_unfitted_witness :
  (exists m c, models (fst (after_ab 100)) !! "A" = Some m /\
               is_fitted m = false /\
               cutoffs (fst (after_ab 100)) !! "A" = Some c) /\
  call_group (fst (after_ab 100)) 6 ([Zero], ∅)
             ("A", [(0%nat, Demo.mk_row 13 "A" 9)]) =
    Ok ([Preds [zero; zero; zero]], ∅ ∖ list_to_set [0%nat]).
Proof.
  destruct (short_group_is_recorded_unfitted Demo.lib (stl_mixer 100)
              (ConcatedEncodedDs Demo.train_ab Demo.empty_frame)
              (fst (after_ab 100)) "A"
              [(0%nat, Demo.mk_row 8 "A" 1); (2%nat, Demo.mk_row 9 "A" 2);
               (4%nat, Demo.mk_row 10 "A" 3)]) as [Hrec Hcall].
  - vm_compute. reflexivity.
  - apply list_elem_of_In. vm_compute. left. reflexivity.
  - vm_compute. lia.
  - split; [exact Hrec|].
    rewrite (Hcall 5%nat [Zero] ∅ 0%nat (Demo.mk_row 13 "A" 9) []).
    reflexivity.
Defined.

(** C4 (as stated) fails twice. With a window of 100, group A has three
    training rows and is not fitted, yet the registry holds a forecaster
    and a cutoff for it. With a window of 4, group A still has fewer rows
    than the window, but its sub-frame of 3 rows and 5 columns has size 15,
    and the group is fitted. *)
Lemma short_group_has_a_registry_entry :
  snd (after_ab 100) = Ok tt /\
  length (filter (fun x => r_group x = Some "A") (rows Demo.train_ab)) = 3%nat /\
  (exists m, models (fst (after_ab 100)) !! "A" = Some m /\
             is_fitted m = false) /\
  cutoffs (fst (after_ab 100)) !! "A" = Some (Demo.at_day 10) /\
  (exists m, models (fst (after_ab 4)) !! "A" = Some m /\
             is_fitted m = true).
Proof.
  split; [vm_compute; reflexivity|]. split; [vm_compute; reflexivity|].
  split; [eexists; split; vm_compute; reflexivity|].
  split; [vm_compute; reflexivity|].
  eexists; split; vm_compute; reflexivity.
Qed.

(** *** A fit that raises *)

Lemma for_each_app {B} (body : SkTime -> B -> SkTime * result unit)
    (l1 l2 : list B) : forall self s1,
  for_each body self l1 = (s1, Ok tt) ->
  for_each body self (l1 ++ l2) = for_each body s1 l2.
Proof.
  induction l1 as [|b l1 IH]; intros self s1 H; simpl in *.
  - by inversion H.
  - destruct (body self b) as [s r]. destruct r as [[]|e]; [by apply IH|].
    by inversion H.
Qed.

(** C3 (as amended). Take a pass of [_fit] in which the groups before the
    group [g] are done and the iteration of [g] reaches the fit: the
    seasonal period is found, the forecaster is constructed, the cutoff is
    found, the sub-frame is larger than the window and the group is not
    skipped. When the fit of the configured forecaster raises, the group
    is fitted once more with the default-constructed forecaster of the
    class. If that fit succeeds the registry holds the fitted default
    forecaster. If it raises too, its exception ends the pass: the
    unfitted default forecaster is left in the registry and the groups
    after [g] keep the entries they had. What becomes of the exception
    depends on the caller of the pass: [fit] and [partial_fit] end with it
    when the pass is their final one, and the objective of a search trial
    catches it and returns infinity. *)
Theorem failed_fit_retried_once_with_defaults (lib : library)
    (self : SkTime) (data : frame) (name : string) (mc : model_class)
    (before after : list (string * subframe)) (s0 : SkTime)
    (g : string) (sd : subframe) (sp_ : Z) (m : forecaster) (r_last : row)
    (e1 : exn) :
  let df := sort_by r_original_oby (rows data) in
  let series_oby :=
    if decide (grouped_by self = ["__default"]) then df else map snd sd in
  let options := fit_options s0 sp_ in
  let series := fit_input s0 sp_ (training_series sd) in
  module_name_of self = Ok name ->
  resolve_class lib name = Ok mc ->
  groupby (group_by (tss (ts_analysis self))) df = before ++ (g, sd) :: after ->
  for_each (fit_group lib mc df (ncols data)) self before = (s0, Ok tt) ->
  seasonal_period s0 g = Ok sp_ ->
  configured_forecaster lib mc (set_model_kwargs options s0) g options = Ok m ->
  last series_oby = Some r_last ->
  (window (tss (ts_analysis self)) < frame_size (ncols data) sd)%nat ->
  skips_fit lib s0 series_oby g (length (training_series sd)) = false ->
  sk_fit lib m series (horizon self) = Raise e1 ->
  sk_new lib mc [] = Ok tt ->
  (forall f,
      sk_fit lib (default_constructed mc) series (horizon self) = Ok f ->
      exists s1,
        fit_group lib mc df (ncols data) s0 (g, sd) = (s1, Ok tt) /\
        models s1 !! g = Some (with_fitted (default_constructed mc) f)) /\
  (forall e2,
      sk_fit lib (default_constructed mc) series (horizon self) = Raise e2 ->
      exists s',
        _fit lib self data = (s', Raise e2) /\
        models s' !! g = Some (default_constructed mc) /\
        (forall g', g' ∈ map fst after ->
                    models s' !! g' = models self !! g' /\
                    cutoffs s' !! g' = cutoffs self !! g') /\
        (forall train_data dev_data,
            hyperparam_search self = false ->
            data = ConcatedEncodedDs train_data dev_data ->
            fit lib self train_data dev_data = (s', Raise e2)) /\
        (forall mixer train_data dev_data,
            hyperparam_search mixer = true ->
            self = searched lib mixer train_data dev_data ->
            data = ConcatedEncodedDs train_data dev_data ->
            fit lib mixer train_data dev_data = (s', Raise e2)) /\
        (forall mixer train_data dev_data,
            hyperparam_search mixer = false ->
            self = set_hyperparam_search false mixer ->
            data = ConcatedEncodedDs dev_data train_data ->
            partial_fit lib mixer train_data dev_data = (s', Raise e2)) /\
        (forall running cls test_data,
            self = set_hyperparam_dict (Some cls) running ->
            _get_best_model lib running cls data test_data = (s', Inf))).
Proof.
  intros df series_oby options series Hname Hres Hgroups Hbefore Hsp Hnew
         Hlast Hsize Hskip Hfail Hdefault.
  pose proof (for_each_settings (fit_group lib mc df (ncols data))
                same_settings) as Hkeep.
  specialize (Hkeep ltac:(done)).
  specialize (Hkeep ltac:(unfold same_settings;
                          intros s1 s2 s3 (?&?&?&?&?) (?&?&?&?&?);
                          repeat split; congruence)).
  specialize (Hkeep (fun s b => fit_group_settings lib mc df (ncols data) s b)
                    before self).
  rewrite Hbefore in Hkeep. destruct Hkeep as (Hset & _). cbn [fst] in Hset.
  assert (grouped_by s0 = grouped_by self /\
          ts_analysis s0 = ts_analysis self /\
          horizon s0 = horizon self) as (Hgb & Hts & Hh).
  { unfold settings in Hset. by simplify_eq. }
  assert (forall r2,
    sk_fit lib (default_constructed mc) series (horizon self) = r2 ->
    exists s',
      fit_group lib mc df (ncols data) s0 (g, sd) =
        (s', match r2 with Ok _ => Ok tt | Raise e => Raise e end) /\
      models s' !! g =
        Some (match r2 with
              | Ok f => with_fitted (default_constructed mc) f
              | Raise _ => default_constructed mc
              end)) as Hstep.
  { intros r2 Hr2.
    assert (fit_group lib mc df (ncols data) s0 (g, sd) =
            fit_or_default lib mc g series
              (set_cutoffs <[g := r_index r_last]>
                 (set_models <[g := m]>
                    (set_model_kwargs options s0)))) as ->.
    { unfold fit_group. rewrite Hsp. cbn zeta. fold options. rewrite Hnew.
      cbn [set_model_kwargs set_models set_cutoffs grouped_by ts_analysis].
      rewrite Hgb, Hts. fold series_oby. rewrite Hlast.
      destruct (decide (window (tss (ts_analysis self))
                        < frame_size (ncols data) sd)%nat) as [_|Hn]; [|lia].
      change (skips_fit lib (set_cutoffs _ _)) with (skips_fit lib s0).
      by rewrite Hskip. }
    unfold fit_or_default. cbn [models set_cutoffs set_models].
    rewrite lookup_insert_eq.
    change (horizon (set_cutoffs _ _)) with (horizon s0).
    rewrite Hh, Hfail, Hdefault, Hr2.
    destruct r2; eexists; (split; [reflexivity|]); cbn [models set_models];
      by rewrite lookup_insert_eq. }
  split.
  - intros f Hf. apply (Hstep (Ok f) Hf).
  - intros e2 He2. destruct (Hstep (Raise e2) He2) as (s' & Hg & Hm).
    assert (_fit lib self data = (s', Raise e2)) as Hpass.
    { unfold _fit. rewrite Hname, Hres. fold df. rewrite Hgroups.
      rewrite (for_each_app _ before _ self s0 Hbefore).
      cbn [for_each]. by rewrite Hg. }
    exists s'. split; [done|]. split; [done|].
    split; [|split; [|split; [|split]]].
    + intros g' Hin.
      pose proof (groupby_NoDup (group_by (tss (ts_analysis self))) df) as Hnd.
      rewrite Hgroups, map_app in Hnd. cbn [map fst] in Hnd.
      apply NoDup_app in Hnd as (_ & Hdisj & Hnd).
      apply NoDup_cons in Hnd as [Hfresh _].
      assert (g' <> g) as Hne by (intros ->; done).
      assert (g' ∉ map fst before) as Hnot.
      { intros Hb. apply (Hdisj g' Hb). by right. }
      pose proof (for_each_fit_group_other lib mc df (ncols data) g' before
                    self Hnot) as [Hm0 Hc0].
      rewrite Hbefore in Hm0, Hc0. cbn [fst] in Hm0, Hc0.
      pose proof (fit_group_other lib mc df (ncols data) s0 g sd g' Hne)
        as [Hm1 Hc1].
      rewrite Hg in Hm1, Hc1. cbn [fst] in Hm1, Hc1.
      by rewrite Hm1, Hc1.
    + intros train_data dev_data Hoff ->. unfold fit. by rewrite Hoff.
    + intros mixer train_data dev_data Hon -> ->. unfold fit.
      rewrite Hon. exact Hpass.
    + intros mixer train_data dev_data Hoff -> ->. unfold partial_fit, fit.
      cbn [hyperparam_search set_hyperparam_search]. by rewrite Hpass.
    + intros running cls test_data ->. unfold _get_best_model.
      by rewrite Hpass.
Qed.

Lemma failed_fit_retried_once_with_defaults_witness :
  exists s',
    _fit Demo.lib (in_trial (stl_mixer 2)) train_bad_a
      = (s', Raise (LibraryError "negative value")) /\
    models s' !! "A" = Some (default_constructed stl_class) /\
    models s' !! "B" = None /\
    fit Demo.lib (in_trial (stl_mixer 2)) train_bad_a Demo.empty_frame
      = (s', Raise (LibraryError "negative value")) /\
    _get_best_model Demo.lib (stl_mixer 2) "trend.STLForecaster"
                    train_bad_a dev_a = (s', Inf).
Proof.
  destruct (failed_fit_retried_once_with_defaults Demo.lib
              (in_trial (stl_mixer 2))
              train_bad_a "trend.STLForecaster" stl_class [] bad_b_rows
              (in_trial (stl_mixer 2)) "A" bad_a_rows 1
              (TransformedTargetForecaster [] stl_class [("sp", KInt 1)])
              (Demo.mk_row 9 "A" 2) (LibraryError "negative value"))
    as [_ Hraise].
  - reflexivity.
  - reflexivity.
  - vm_compute. reflexivity.
  - reflexivity.
  - reflexivity.
  - reflexivity.
  - reflexivity.
  - vm_compute. lia.
  - reflexivity.
  - vm_compute. reflexivity.
  - reflexivity.
  - destruct (Hraise (LibraryError "negative value"))
      as (s' & Hpass & Hm & Hafter & Hfit & _ & _ & Htrial);
      [vm_compute; reflexivity|].
    exists s'. split; [exact Hpass|]. split; [exact Hm|].
    split; [|split].
    + destruct (Hafter "B") as [HB _]; [by left|]. rewrite HB. reflexivity.
    + apply Hfit; [reflexivity|vm_compute; reflexivity].
    + apply Htrial. reflexivity.
Defined.

(** C3 (as stated) fails: group A cannot be fitted with the configured
    options nor with the defaults, and the whole fit ends with the
    exception of the second attempt; group B, which comes after A, is never
    visited and has no entry in the registry. *)
Lemma failing_group_aborts_the_fit :
  snd after_bad_a = Raise (LibraryError "negative value") /\
  models (fst after_bad_a) !! "A" = Some (default_constructed stl_class) /\
  models (fst after_bad_a) !! "B" = None.
Proof.
  split; [vm_compute; reflexivity|].
  split; vm_compute; reflexivity.
Qed.

(** *** Resolving the family name *)

(** C9 (as amended). When the module part of the family name is a module of
    [sktime.forecasting] and the class part is not an attribute of that
    module, the pass builds its forecasters from [AutoARIMA]. *)
Theorem unknown_class_falls_back_to_AutoARIMA (lib : library) (self : SkTime)
    (data : frame) (name module_ cls : string) (more : list string)
    (attrs : string -> option model_class) :
  module_name_of self = Ok name ->
  split_dot name = module_ :: cls :: more ->
  sktime_forecasting lib module_ = Some attrs ->
  attrs cls = None ->
  resolve_class lib name = Ok AutoARIMA /\
  _fit lib self data =
    for_each (fit_group lib AutoARIMA (sort_by r_original_oby (rows data))
                        (ncols data))
             self
             (groupby (group_by (tss (ts_analysis self)))
                      (sort_by r_original_oby (rows data))).
Proof.
  intros Hname Hsplit Hmod Hcls.
  assert (resolve_class lib name = Ok AutoARIMA) as Hres.
  { unfold resolve_class. rewrite Hsplit. cbn [List.hd of_option rbind].
    rewrite Hmod. cbn [of_option rbind lookup list_lookup]. simpl.
    by rewrite Hcls. }
  split; [done|]. unfold _fit. by rewrite Hname, Hres.
Qed.

Lemma unknown_class_falls_back_to_AutoARIMA_witness :
  resolve_class Demo.lib "trend.NoSuchForecaster" = Ok AutoARIMA /\
  _fit Demo.lib unknown_class_mixer Demo.train_ab =
    for_each (fit_group Demo.lib AutoARIMA
                (sort_by r_original_oby (rows Demo.train_ab))
                (ncols Demo.train_ab))
             unknown_class_mixer
             (groupby (group_by (tss (ts_analysis unknown_class_mixer)))
                      (sort_by r_original_oby (rows Demo.train_ab))).
Proof.
  apply (unknown_class_falls_back_to_AutoARIMA Demo.lib unknown_class_mixer
           Demo.train_ab "trend.NoSuchForecaster" "trend" "NoSuchForecaster" []
           (fun c =>
              if String.eqb c "STLForecaster"
                 || String.eqb c "PolynomialTrendForecaster"
              then Some (SktimeClass ("trend." ++ c)) else None)).
  - reflexivity.
  - reflexivity.
  - reflexivity.
  - reflexivity.
Defined.

(** C9 (as stated) fails: a family name whose module part is not a module
    of [sktime.forecasting] resolves to no class, and the fit ends with the
    import error, the registry untouched. *)
Lemma unknown_module_fails_the_fit :
  Demo.forecasting "nosuchmodule" = None /\
  module_name_of unknown_module_mixer = Ok "nosuchmodule.Forecaster" /\
  _fit Demo.lib unknown_module_mixer Demo.train_ab =
    (unknown_module_mixer, Raise ModuleNotFoundError) /\
  fit Demo.lib unknown_module_mixer Demo.train_ab Demo.empty_frame =
    (unknown_module_mixer, Raise ModuleNotFoundError).
Proof.
  split; [reflexivity|]. split; [reflexivity|].
  split; reflexivity.
Qed.

(** *** The search *)

Lemma lt_objective_irrefl (v : objective) : lt_objective v v = false.
Proof.
  destruct v as [q|]; [|done]. cbn [lt_objective].
  destruct (Qcompare q q) eqn:E; try done.
  apply Qlt_alt in E. by apply Qlt_irrefl in E.
Qed.

Lemma lt_objective_trans (a b c : objective) :
  lt_objective a b = true -> lt_objective b c = true ->
  lt_objective a c = true.
Proof.
  destruct a as [x|], b as [y|], c as [z|]; cbn [lt_objective]; try done.
  destruct (Qcompare x y) eqn:E1; try done.
  destruct (Qcompare y z) eqn:E2; try done.
  intros _ _. apply Qlt_alt in E1, E2.
  assert (x < z)%Q as H by (eapply Qlt_trans; eauto).
  apply Qlt_alt in H. unfold Qcompare in *. by rewrite H.
Qed.

Lemma best_trial_step (ts : list trial) :
  forall (acc : option trial) (seen : list trial),
    Forall (fun t => is_finished t = true) ts ->
    is_best acc seen ->
    is_best
      (fold_left
         (fun best t =>
            match t_value t, best with
            | None, _ => best
            | Some _, None => Some t
            | Some v, Some b =>
                match t_value b with
                | Some vb => if lt_objective v vb then Some t else best
                | None => Some t
                end
            end) ts acc)
      (seen ++ ts).
Proof.
  induction ts as [|t ts IH]; intros acc seen Hfin Hacc.
  { by rewrite app_nil_r. }
  apply Forall_cons in Hfin as [Ht Hfin].
  replace (seen ++ t :: ts) with ((seen ++ [t]) ++ ts)
    by (by rewrite <- app_assoc).
  simpl. apply IH; [done|].
  unfold is_finished in Ht. destruct (t_value t) as [v|] eqn:Hv; [|done].
  destruct acc as [b|]; simpl in Hacc.
  - destruct Hacc as (Hb & vb & Hvb & Hmin). rewrite Hvb.
    destruct (lt_objective v vb) eqn:Hlt; simpl.
    + split; [apply elem_of_app; right; by apply list_elem_of_singleton|].
      exists v. split; [done|]. intros t' v' Hin Hv'.
      apply elem_of_app in Hin as [Hin|Hin].
      * destruct (lt_objective v' v) eqn:Hlt'; [|done].
        rewrite <- (Hmin t' v' Hin Hv'). symmetry.
        by apply (lt_objective_trans v' v vb).
      * apply list_elem_of_singleton in Hin as ->.
        rewrite Hv in Hv'. inversion Hv'; subst. apply lt_objective_irrefl.
    + split; [apply elem_of_app; by left|].
      exists vb. split; [done|]. intros t' v' Hin Hv'.
      apply elem_of_app in Hin as [Hin|Hin]; [by eapply Hmin|].
      apply list_elem_of_singleton in Hin as ->.
      rewrite Hv in Hv'. by inversion Hv'; subst.
  - subst seen. simpl. split; [by apply list_elem_of_singleton|].
    exists v. split; [done|]. intros t' v' Hin Hv'.
    apply list_elem_of_singleton in Hin as ->.
    rewrite Hv in Hv'. inversion Hv'; subst. apply lt_objective_irrefl.
Qed.

Lemma best_trial_minimal (ts : list trial) :
  ts <> [] ->
  Forall (fun t => is_finished t = true) ts ->
  exists b, best_trial ts = Some b /\ b ∈ ts /\
            forall t v vb, t ∈ ts -> t_value t = Some v ->
                           t_value b = Some vb -> lt_objective v vb = false.
Proof.
  intros Hne Hfin. pose proof (best_trial_step ts None [] Hfin eq_refl) as H.
  simpl in H. unfold best_trial. destruct (fold_left _ ts None) as [b|].
  - destruct H as (Hb & vb & Hvb & Hmin). exists b. split; [done|].
    split; [done|]. intros t v vb' Hin Hv Hvb'.
    rewrite Hvb in Hvb'. inversion Hvb'; subst. by eapply Hmin.
  - done.
Qed.

Section Search.

Context (lib : library).

Lemma _get_best_model_study self cls train dev :
  study (fst (_get_best_model lib self cls train dev)) = study self.
Proof. apply _get_best_model_keeps. Qed.

(** The trials a run of [optimize] appends to the study: one per class of
    the grid, in the order of the grid, each finished with the value of
    the objective. *)
Lemma optimize_study (train dev : frame) (grid : list string) :
  forall (self : SkTime) (ts : list trial),
    study self = Some ts ->
    exists new,
      study (optimize lib self train dev grid) = Some (ts ++ new) /\
      map t_class new = grid /\
      Forall (fun t => is_finished t = true) new /\
      settings (optimize lib self train dev grid) = settings self /\
      hyperparam_search (optimize lib self train dev grid)
        = hyperparam_search self.
Proof.
  induction grid as [|c grid IH]; intros self ts Hst.
  { exists []. rewrite app_nil_r. repeat split; done. }
  unfold optimize. cbn [fold_left].
  set (s0 := add_trial {| t_class := c; t_value := None |} self).
  pose proof (_get_best_model_keeps lib s0 c train dev) as (Hh & Hstudy & Hset).
  destruct (_get_best_model lib s0 c train dev) as [s1 e] eqn:E.
  cbn [fst] in Hh, Hstudy, Hset.
  assert (study (finish_trial e s1)
          = Some (ts ++ [{| t_class := c; t_value := Some e |}])) as Hfin.
  { unfold finish_trial. cbn [study set_study]. rewrite Hstudy.
    unfold s0, add_trial. cbn [study set_study]. rewrite Hst. cbn [option_map].
    by rewrite last_snoc, removelast_last. }
  destruct (IH (finish_trial e s1) _ Hfin)
    as (new & Hnew & Hcls & Hdone & Hset' & Hh').
  exists ({| t_class := c; t_value := Some e |} :: new).
  fold (optimize lib (finish_trial e s1) train dev grid).
  rewrite Hnew, <- app_assoc. split; [done|].
  split; [by rewrite <- Hcls|]. split; [by constructor|].
  rewrite Hset', Hh'. split; [|done]. exact Hset.
Qed.

(** The study after a run of [optimize]: the trials of the grid, each
    with the objective of its own evaluation. *)
Lemma optimize_trials (train dev : frame) (self : SkTime) (ts : list trial) :
  study self = Some ts ->
  forall grid,
    study (optimize lib self train dev grid)
      = Some (ts ++ imap (trial_of lib self train dev grid) grid).
Proof.
  intros Hst grid. induction grid as [|c grid IH] using rev_ind.
  { cbn. by rewrite app_nil_r. }
  rewrite imap_app. cbn [imap]. rewrite Nat.add_0_r.
  assert (imap (trial_of lib self train dev (grid ++ [c])) grid
          = imap (trial_of lib self train dev grid) grid) as ->.
  { apply imap_ext. intros k cls Hk. unfold trial_of.
    apply lookup_lt_Some in Hk.
    by rewrite take_app_le by lia. }
  unfold trial_of at 2. rewrite take_app_length.
  unfold optimize at 1. rewrite fold_left_app. cbn [fold_left].
  fold (optimize lib self train dev grid).
  set (s0 := add_trial {| t_class := c; t_value := None |}
                       (optimize lib self train dev grid)).
  pose proof (_get_best_model_study s0 c train dev) as Hstudy.
  destruct (_get_best_model lib s0 c train dev) as [s1 e].
  cbn [fst snd] in *.
  unfold finish_trial. cbn [study set_study]. rewrite Hstudy.
  unfold s0, add_trial. cbn [study set_study]. rewrite IH. cbn [option_map].
  rewrite last_snoc, removelast_last. by rewrite <- app_assoc.
Qed.

(** C7. With the search on and [n_trials] the number of candidate
    families, [fit] runs exactly that many trials, one per candidate in
    the order of the sampler. The value recorded for a trial is the
    objective of its own evaluation, in the state the earlier trials have
    left: the error the error function returns for the first forecast on
    the held-out data when the fit of the trial, the prediction and the
    error function all return, and infinity when one of them raises; the
    other trials are evaluated all the same. The family [_fit] then builds
    from is that of the best trial of the study, the first trial whose
    value no other trial's is below; and [fit] ends with one more [_fit],
    over the training data followed by the held-out data, with that
    family. *)
Theorem search_runs_every_candidate_then_refits (self : SkTime)
    (train_data dev_data : frame) :
  hyperparam_search self = true ->
  n_trials self = length (possible_models self) ->
  possible_models self <> [] ->
  sampler_order lib (possible_models self) ≡ₚ possible_models self ->
  (exists trials best,
      study (searched lib self train_data dev_data) = Some trials /\
      trials = imap (trial_of lib (set_study (Some []) self) train_data
                              dev_data
                              (sampler_order lib (possible_models self)))
                    (sampler_order lib (possible_models self)) /\
      length trials = length (possible_models self) /\
      map t_class trials ≡ₚ possible_models self /\
      best_trial trials = Some best /\
      best ∈ trials /\
      t_class best ∈ possible_models self /\
      (forall t v vb, t ∈ trials -> t_value t = Some v ->
                      t_value best = Some vb -> lt_objective v vb = false) /\
      module_name_of (searched lib self train_data dev_data)
        = Ok (t_class best)) /\
  fit lib self train_data dev_data =
    _fit lib (searched lib self train_data dev_data)
         (ConcatedEncodedDs train_data dev_data) /\
  (forall s cls s1 r,
      _fit lib (set_hyperparam_dict (Some cls) s) train_data = (s1, r) ->
      let y_true := take (horizon s1) (map r_target (rows dev_data)) in
      fst (_get_best_model lib s cls train_data dev_data) = s1 /\
      (forall l ydf e,
          r = Ok tt ->
          call s1 dev_data = Ok (Preds l :: ydf) ->
          trial_error_fn lib y_true (take (length y_true) l) = Ok e ->
          snd (_get_best_model lib s cls train_data dev_data) = e) /\
      ((exists e, r = Raise e) \/
       (exists e, call s1 dev_data = Raise e) \/
       call s1 dev_data = Ok [] \/
       (exists ydf, call s1 dev_data = Ok (Zero :: ydf)) \/
       (exists l ydf e,
           call s1 dev_data = Ok (Preds l :: ydf) /\
           trial_error_fn lib y_true (take (length y_true) l) = Raise e) ->
       snd (_get_best_model lib s cls train_data dev_data) = Inf)).
Proof.
  intros Hsearch Hn Hne Hperm.
  assert (take (n_trials self) (sampler_order lib (possible_models self))
          = sampler_order lib (possible_models self)) as Hgrid.
  { apply take_ge. rewrite Hn. by rewrite Hperm. }
  split; [|split].
  - destruct (optimize_study train_data dev_data
                (sampler_order lib (possible_models self))
                (set_study (Some []) self) [] eq_refl)
      as (trials & Hst & Hcls & Hdone & Hset & Hh).
    pose proof (optimize_trials train_data dev_data (set_study (Some []) self)
                  [] eq_refl (sampler_order lib (possible_models self)))
      as Hexact.
    unfold searched. rewrite Hgrid. simpl in Hst, Hexact.
    assert (trials <> []) as Hne'.
    { intros ->. simpl in Hcls. rewrite <- Hcls in Hperm.
      by apply Permutation_nil in Hperm. }
    destruct (best_trial_minimal trials Hne' Hdone) as (b & Hbest & Hb & Hmin).
    exists trials, b. split; [done|].
    split; [rewrite Hst in Hexact; by inversion Hexact|].
    assert (length trials = length (possible_models self)) as Hlen.
    { rewrite <- Hperm, <- Hcls. by rewrite length_map. }
    split; [done|]. split; [by rewrite Hcls|]. split; [done|].
    split; [done|]. split.
    { rewrite <- Hperm, <- Hcls. apply list_elem_of_fmap. by exists b. }
    split; [done|].
    unfold module_name_of. rewrite Hst, Hh. cbn [hyperparam_search set_study].
    rewrite Hsearch.
    assert (List.filter is_finished trials = trials) as ->.
    { clear -Hdone. induction Hdone as [|t ts Ht _ IH]; [done|].
      simpl. by rewrite Ht, IH. }
    assert (n_trials (optimize lib (set_study (Some []) self) train_data
                        dev_data (sampler_order lib (possible_models self)))
            = n_trials self) as ->.
    { unfold settings in Hset. cbn in Hset. congruence. }
    rewrite Hlen, Hn, Nat.eqb_refl, Hbest. done.
  - unfold fit, searched. by rewrite Hsearch.
  - intros s cls s1 r Hfit y_true. unfold _get_best_model. rewrite Hfit.
    cbn [fst snd]. split; [done|]. split.
    + intros l ydf e -> Hc He. cbn [rbind]. rewrite Hc.
      cbn [rbind head of_option]. fold y_true. by rewrite He.
    + intros [[e ->]|[[e He]|[He|[[ydf He]|(l & ydf & e & Hc & He)]]]].
      * done.
      * destruct r; [|done]. cbn [rbind]. by rewrite He.
      * destruct r; [|done]. cbn [rbind]. by rewrite He.
      * destruct r; [|done]. cbn [rbind]. by rewrite He.
      * destruct r; [|done]. cbn [rbind]. rewrite Hc.
        cbn [rbind head of_option]. fold y_true. by rewrite He.
Qed.

End Search.

Lemma search_runs_every_candidate_then_refits_witness :
  (exists trials best,
      study (searched Demo.lib searching_mixer Demo.train_a Demo.train_ab)
        = Some trials /\
      trials = imap (trial_of Demo.lib (set_study (Some []) searching_mixer)
                              Demo.train_a Demo.train_ab
                              default_possible_models)
                    default_possible_models /\
      length trials = 4%nat /\
      best_trial trials = Some best /\
      module_name_of
        (searched Demo.lib searching_mixer Demo.train_a Demo.train_ab)
        = Ok (t_class best)) /\
  fit Demo.lib searching_mixer Demo.train_a Demo.train_ab =
    _fit Demo.lib
         (searched Demo.lib searching_mixer Demo.train_a Demo.train_ab)
         (ConcatedEncodedDs Demo.train_a Demo.train_ab).
Proof.
  destruct (search_runs_every_candidate_then_refits Demo.lib searching_mixer
              Demo.train_a Demo.train_ab) as ((trials & best & H) & Hfit & _).
  - reflexivity.
  - reflexivity.
  - discriminate.
  - reflexivity.
  - split; [|exact Hfit].
    destruct H as (Hst & Hexact & Hlen & _ & Hb & _ & _ & _ & Hname).
    exists trials, best. repeat split; assumption.
Defined.

(** The search of the demo. On three days of training data every family
    is fitted and misses the first held-out target by 3. On training data
    with a negative value no family can be fitted: every trial is recorded
    with infinity, and the search still runs its four trials. On two days
    of training data the fit of [ThetaForecaster] raises: its trial alone
    is recorded with infinity, the trials after it are evaluated, and the
    first of the families with the least error wins. *)
Example search_of_the_demo :
  study (searched Demo.lib searching_mixer Demo.train_ab dev_a)
    = Some (map (fun cls => {| t_class := cls;
                               t_value := Some (Finite (3 # 1)) |})
                default_possible_models) /\
  study (searched Demo.lib searching_mixer train_bad_a dev_a)
    = Some (map (fun cls => {| t_class := cls; t_value := Some Inf |})
                default_possible_models) /\
  study (searched Demo.lib searching_mixer Demo.train_a Demo.train_ab)
    = Some [{| t_class := "croston.Croston";
               t_value := Some (Finite (2 # 1)) |};
            {| t_class := "theta.ThetaForecaster"; t_value := Some Inf |};
            {| t_class := "trend.STLForecaster";
               t_value := Some (Finite (2 # 1)) |};
            {| t_class := "trend.PolynomialTrendForecaster";
               t_value := Some (Finite (2 # 1)) |}] /\
  module_name_of (searched Demo.lib searching_mixer Demo.train_a Demo.train_ab)
    = Ok "croston.Croston".
Proof. repeat split; vm_compute; reflexivity. Qed.

(** *** One window per row *)

Lemma write_windows_snoc (h : nat) (p : list value) (series : list (nat * value))
    (i : nat) (v : value) (ydf : list cell) :
  write_windows h p (series ++ [(i, v)]) ydf =
    <[i := Preds (py_slice (length series) (length series + h) p)]>
      (write_windows h p series ydf).
Proof.
  unfold write_windows, enumerate. rewrite imap_app, fold_left_app.
  simpl. by rewrite Nat.add_0_r.
Qed.

Lemma write_windows_spec (h : nat) (p : list value) (ydf : list cell)
    (series : list (nat * value)) :
  NoDup (map fst series) ->
  length (write_windows h p series ydf) = length ydf /\
  (forall k i v, series !! k = Some (i, v) -> (i < length ydf)%nat ->
     write_windows h p series ydf !! i
       = Some (Preds (py_slice k (k + h) p))) /\
  (forall j, j ∉ map fst series ->
     write_windows h p series ydf !! j = ydf !! j).
Proof.
  induction series as [|[i v] series IH] using rev_ind; intros Hnd.
  { split; [done|]. split; [|done]. intros k i v Hk. by rewrite lookup_nil in Hk. }
  rewrite map_app in Hnd. simpl in Hnd.
  apply NoDup_app in Hnd as (Hnd & Hfresh & _).
  destruct (IH Hnd) as (Hlen & Hset & Hother).
  rewrite write_windows_snoc. split; [by rewrite length_insert|]. split.
  - intros k j w Hk Hj.
    destruct (decide (k < length series)%nat) as [Hlt|Hge].
    + rewrite lookup_app_l in Hk by done.
      assert (j <> i) as Hne.
      { intros ->. apply (Hfresh i); [|by apply list_elem_of_singleton].
        apply list_elem_of_fmap. exists (i, w). split; [done|].
        by eapply list_elem_of_lookup_2. }
      rewrite list_lookup_insert_ne by done. by eapply Hset.
    + rewrite lookup_app_r in Hk by lia.
      destruct (k - length series)%nat as [|n] eqn:E; [|done].
      simpl in Hk. inversion Hk; subst.
      assert (k = length series) as -> by lia.
      apply list_lookup_insert_eq. by rewrite Hlen.
  - intros j Hj. rewrite map_app in Hj. simpl in Hj.
    apply not_elem_of_app in Hj as [Hj Hne].
    rewrite list_lookup_insert_ne; [by apply Hother|].
    intros ->. apply Hne. by apply list_elem_of_singleton.
Qed.

Lemma length_py_slice {A} (k h : nat) (p : list A) :
  (k + h <= length p)%nat -> length (py_slice k (k + h) p) = h.
Proof.
  intros H. unfold py_slice. rewrite length_take, length_drop. lia.
Qed.

Lemma all_preds_of_length (h : nat) (m : forecaster) (f : fitted) (n : nat)
    (offset : Z) :
  answers_from_min_offset f ->
  (0 < n)%nat ->
  exists p, all_preds_of h m f n offset = Ok p /\ length p = (n + h)%nat.
Proof.
  intros Hans Hn. unfold all_preds_of.
  set (lo := min_offset f). set (start := Z.max offset lo).
  set (end_ := start + Z.of_nat n + Z.of_nat h).
  assert (lo <= start) as Hlo by (unfold start; lia).
  destruct (is_AutoARIMA (fc_class m)).
  - destruct (Hans lo end_) as (p & Hp & Hlen); [done|]. rewrite Hp.
    cbn [rbind]. eexists. split; [done|].
    rewrite length_arange in Hlen by (unfold end_; lia).
    replace (Z.to_nat (end_ - start)) with (n + h)%nat by (unfold end_; lia).
    unfold py_suffix. destruct (n + h)%nat eqn:E; [lia|].
    rewrite length_drop, Hlen. unfold end_. lia.
  - destruct (Hans start end_) as (p & Hp & Hlen); [done|].
    exists p. split; [done|]. rewrite Hlen, length_arange; unfold end_; lia.
Qed.

Lemma series_of_fst (sd : subframe) : map fst (series_of sd) = map fst sd.
Proof. unfold series_of. rewrite map_map. done. Qed.

Lemma series_of_lookup (sd : subframe) (k i : nat) (r : row) :
  sd !! k = Some (i, r) -> series_of sd !! k = Some (i, r_target r).
Proof.
  intros H. unfold series_of.
  change (map ?f sd) with (f <$> sd). rewrite list_lookup_fmap, H. done.
Qed.

Lemma lookup_map_fst {A B} (l : list (A * B)) (k : nat) (a : A) (b : B) :
  l !! k = Some (a, b) -> map fst l !! k = Some a.
Proof.
  intros H. change (map fst l) with (fst <$> l).
  by rewrite list_lookup_fmap, H.
Qed.

(** One pass of the loop of [__call__] over a group: the rows of the group
    receive their forecasts, the other cells are untouched. *)
Lemma call_group_spec (self : SkTime) (nc : nat) (ydf : list cell)
    (pending_idxs : gset nat) (g : string) (sd : subframe) :
  valid_for_call self ->
  (forall r0 m cutoff d,
      head sd = Some r0 -> models self !! g = Some m -> is_fitted m = true ->
      cutoffs self !! g = Some cutoff ->
      deltas (ts_analysis self) !! g = Some d ->
      is_ok (offset_of (r_index (snd r0)) cutoff d) = true) ->
  sd <> [] ->
  NoDup (map fst sd) ->
  Forall (fun i => i < length ydf)%nat (map fst sd) ->
  exists ydf',
    call_group self (S nc) (ydf, pending_idxs) (g, sd)
      = Ok (ydf', pending_idxs ∖ list_to_set (map fst sd)) /\
    length ydf' = length ydf /\
    (forall j, j ∉ map fst sd -> ydf' !! j = ydf !! j) /\
    (forall k i r, sd !! k = Some (i, r) ->
       exists l, row_forecast self g sd k = Ok l /\
                 length l = horizon self /\
                 ydf' !! i = Some (Preds l)).
Proof.
  intros Hvalid Hrange Hne Hnd Hin.
  destruct sd as [|[i0 r0] others]; [done|].
  set (sd := (i0, r0) :: others) in *.
  assert (forall k i r, sd !! k = Some (i, r) -> (i < length ydf)%nat) as Hlt.
  { intros k i r Hk. eapply Forall_forall in Hin; [exact Hin|].
    apply list_elem_of_fmap. exists (i, r). split; [done|].
    by eapply list_elem_of_lookup_2. }
  assert ((forall m, models self !! g = Some m -> is_fitted m = false) ->
    exists ydf',
      call_group self (S nc) (ydf, pending_idxs) (g, sd)
        = Ok (ydf', pending_idxs ∖ list_to_set (map fst sd)) /\
      length ydf' = length ydf /\
      (forall j, j ∉ map fst sd -> ydf' !! j = ydf !! j) /\
      (forall k i r, sd !! k = Some (i, r) ->
         ydf' !! i = Some (Preds (replicate (horizon self)
                       (previous_target (map snd (series_of sd)) k))))) as Hnaive.
  { intros Hunfit. unfold sd.
    rewrite (call_group_without_fitted_model self nc ydf pending_idxs g i0 r0
               others Hunfit).
    fold sd.
    destruct (call_default_spec (horizon self) ydf
                (NdArray (map snd (series_of sd))) (map snd (series_of sd))
                (map fst (series_of sd))) as (ydf' & Heq & Hlen & Hset & Hother).
    - done.
    - done.
    - by rewrite !length_map.
    - by rewrite series_of_fst.
    - by rewrite series_of_fst.
    - rewrite Heq. cbn [rbind]. rewrite series_of_fst in *.
      exists ydf'. repeat split; try done.
      intros k i r Hk. apply (Hset k i). by eapply lookup_map_fst. }
  destruct (models self !! g) as [m|] eqn:Hm.
  - destruct (fc_fitted m) as [f|] eqn:Hf.
    + destruct (Hvalid g m f Hm Hf) as (Hans & [cutoff Hc] & d & Hd & Hnz).
      assert (is_fitted m = true) as Hfit by (unfold is_fitted; by rewrite Hf).
      pose proof (Hrange (i0, r0) m cutoff d eq_refl eq_refl Hfit Hc Hd) as Hoff.
      cbn [snd] in Hoff.
      destruct (offset_of (r_index r0) cutoff d) as [offset|] eqn:Hoffset;
        [clear Hoff|discriminate].
      unfold sd.
      rewrite (call_group_with_fitted_model self nc ydf pending_idxs g i0 r0
                 others m d cutoff Hm Hfit Hd Hc).
      rewrite Hoffset. cbn [rbind].
      fold sd. unfold _call_groupmodel. rewrite Hf.
      destruct (all_preds_of_length (horizon self) m f (length (series_of sd))
                  offset Hans)
        as (p & Hp & Hlen); [unfold series_of; rewrite length_map; simpl; lia|].
      rewrite Hp. cbn [rbind].
      destruct (write_windows_spec (horizon self) p ydf (series_of sd))
        as (Hl & Hset & Hother); [by rewrite series_of_fst|].
      rewrite series_of_fst in *.
      eexists. split; [done|]. split; [done|]. split; [done|].
      intros k i r Hk.
      exists (py_slice k (k + horizon self) p).
      split; [|split].
      * unfold row_forecast. rewrite Hm, Hf. subst sd.
        cbn [head of_option rbind snd].
        rewrite Hd, Hc. cbn [of_option rbind]. rewrite Hoffset. cbn [rbind].
        unfold series_of in Hp. rewrite length_map in Hp. by rewrite Hp.
      * apply length_py_slice. rewrite Hlen.
        apply lookup_lt_Some in Hk. unfold series_of. rewrite length_map. lia.
      * eapply Hset; [by apply series_of_lookup|by eapply Hlt].
    + destruct Hnaive as (ydf' & Heq & Hlen & Hother & Hset).
      { intros m' Hm'. inversion Hm'; subst. unfold is_fitted. by rewrite Hf. }
      exists ydf'. repeat split; try done.
      intros k i r Hk. eexists. split; [|split; [|by eapply Hset]].
      * unfold row_forecast. by rewrite Hm, Hf.
      * by rewrite length_replicate.
  - destruct Hnaive as (ydf' & Heq & Hlen & Hother & Hset); [done|].
    exists ydf'. repeat split; try done.
    intros k i r Hk. eexists. split; [|split; [|by eapply Hset]].
    * unfold row_forecast. by rewrite Hm.
    * by rewrite length_replicate.
Qed.

(** The loop of [__call__] over groups of the rows [rs] with distinct keys:
    every row of a group receives its forecast, a position of no group is
    untouched and stays pending. *)
Lemma call_loop_spec (self : SkTime) (nc : nat) (gby : list string)
    (rs : list row) :
  valid_for_call self ->
  forall (gs : list (string * subframe)) (ydf : list cell)
         (pending_idxs : gset nat),
    length ydf = length rs ->
    NoDup (map fst gs) ->
    (forall g sd, (g, sd) ∈ gs ->
       sd <> [] /\ NoDup (map fst sd) /\
       forall i r, (i, r) ∈ sd <-> rs !! i = Some r /\ group_of gby r = Some g) ->
    (forall g sd r0 m cutoff d,
        (g, sd) ∈ gs -> head sd = Some r0 ->
        models self !! g = Some m -> is_fitted m = true ->
        cutoffs self !! g = Some cutoff ->
        deltas (ts_analysis self) !! g = Some d ->
        is_ok (offset_of (r_index (snd r0)) cutoff d) = true) ->
    exists ydf' pending',
      foldM (call_group self (S nc)) (ydf, pending_idxs) gs
        = Ok (ydf', pending') /\
      length ydf' = length ydf /\
      (forall j, j ∈ pending' <->
                 j ∈ pending_idxs /\
                 forall g sd, (g, sd) ∈ gs -> j ∉ map fst sd) /\
      (forall j, (forall g sd, (g, sd) ∈ gs -> j ∉ map fst sd) ->
                 ydf' !! j = ydf !! j) /\
      (forall g sd k i r,
          (g, sd) ∈ gs -> sd !! k = Some (i, r) ->
          exists l, row_forecast self g sd k = Ok l /\
                    length l = horizon self /\
                    ydf' !! i = Some (Preds l)).
Proof.
  intros Hvalid gs.
  induction gs as [|[g sd] gs IH];
    intros ydf pending_idxs Hlen Hnd Hgs Hrange.
  { exists ydf, pending_idxs. split; [done|]. split; [done|].
    split; [|split; [done|]].
    - intros j. split; [|tauto]. intros Hj. split; [done|].
      intros g sd Hin. by apply elem_of_nil in Hin.
    - intros g sd k i r Hin. by apply elem_of_nil in Hin. }
  simpl in Hnd. apply NoDup_cons in Hnd as [Hfresh Hnd].
  destruct (Hgs g sd) as (Hne & Hnd_sd & Hrows); [by left|].
  assert (Forall (fun i => i < length ydf)%nat (map fst sd)) as Hin_range.
  { apply Forall_forall. intros i Hi.
    apply list_elem_of_fmap in Hi as ([i' r] & -> & Hir).
    apply Hrows in Hir as [Hir _]. apply lookup_lt_Some in Hir.
    simpl. lia. }
  destruct (call_group_spec self nc ydf pending_idxs g sd Hvalid
              ltac:(intros r0 m cutoff d; apply Hrange; by left)
              Hne Hnd_sd Hin_range)
    as (ydf1 & Hstep & Hlen1 & Hother1 & Hset1).
  destruct (IH ydf1 (pending_idxs ∖ list_to_set (map fst sd)))
    as (ydf' & pending' & Hloop & Hlen' & Hpend & Hother & Hset).
  { by rewrite Hlen1. }
  { done. }
  { intros g' sd' Hin. apply Hgs. by right. }
  { intros g' sd' r0 m cutoff d Hin. apply Hrange. by right. }
  assert (forall i r g' sd', (i, r) ∈ sd -> (g', sd') ∈ gs ->
                             i ∉ map fst sd') as Hdisjoint.
  { intros i r g' sd' Hir Hin Hi.
    apply list_elem_of_fmap in Hi as ([i' r'] & Heq & Hir'). simpl in Heq.
    subst i'. apply Hrows in Hir as [Hr Hg].
    destruct (Hgs g' sd') as (_ & _ & Hrows'); [by right|].
    apply Hrows' in Hir' as [Hr' Hg'].
    rewrite Hr in Hr'. inversion Hr'; subst r'.
    rewrite Hg in Hg'. inversion Hg'; subst g'.
    apply Hfresh. apply list_elem_of_fmap. by exists (g, sd'). }
  exists ydf', pending'. split; [|split; [|split; [|split]]].
  - cbn [foldM]. rewrite Hstep. cbn [rbind]. exact Hloop.
  - by rewrite Hlen', Hlen1.
  - intros j. rewrite Hpend, elem_of_difference, elem_of_list_to_set.
    split.
    + intros [[Hj Hnot] Hrest]. split; [done|].
      intros g' sd' Hin. apply elem_of_cons in Hin as [Heq|Hin].
      * by inversion Heq; subst.
      * by eapply Hrest.
    + intros [Hj Hall]. split; [split; [done|]|].
      * apply (Hall g sd). by left.
      * intros g' sd' Hin. apply (Hall g' sd'). by right.
  - intros j Hall. rewrite Hother.
    + apply Hother1. apply (Hall g sd). by left.
    + intros g' sd' Hin. apply (Hall g' sd'). by right.
  - intros g' sd' k i r Hin Hk. apply elem_of_cons in Hin as [Heq|Hin].
    + inversion Heq; subst g' sd'.
      destruct (Hset1 k i r Hk) as (l & Hl & Hlenl & Hcell).
      exists l. split; [done|]. split; [done|].
      rewrite Hother; [done|].
      intros g' sd' Hin'. eapply Hdisjoint; [|done].
      by eapply list_elem_of_lookup_2.
    + by eapply Hset.
Qed.

Lemma targets_at_single (df : list row) (j : nat) (r : row) :
  df !! j = Some r -> targets_at df [j] = Ok [r_target r].
Proof. intros H. unfold targets_at. simpl. by rewrite H. Qed.

(** What [__call__] returns on a frame with at most one row without a group
    key. *)
Lemma call_spec (self : SkTime) (ds : frame) :
  valid_for_call self ->
  offsets_in_range self ds ->
  at_most_one_without_key (group_by (tss (ts_analysis self))) (rows ds) ->
  exists ydf,
    call self ds = Ok ydf /\
    length ydf = length (rows ds) /\
    (forall i, (i < length (rows ds))%nat ->
       exists l, ydf !! i = Some (Preds l) /\ length l = horizon self) /\
    (forall g sd k i r,
        (g, sd) ∈ groupby (group_by (tss (ts_analysis self))) (rows ds) ->
        sd !! k = Some (i, r) ->
        rows ds !! i = Some r /\
        exists l, row_forecast self g sd k = Ok l /\
                  ydf !! i = Some (Preds l)) /\
    (forall i r,
        rows ds !! i = Some r ->
        group_of (group_by (tss (ts_analysis self))) r = None ->
        ydf !! i = Some (Preds (replicate (horizon self) zero))).
Proof.
  intros Hvalid Hrange Hone. unfold call.
  set (gby := group_by (tss (ts_analysis self))) in *.
  set (rs := rows ds) in *.
  destruct (call_loop_spec self (ncols ds) gby rs Hvalid (groupby gby rs)
              (replicate (length rs) Zero) (list_to_set (seq 0 (length rs))))
    as (ydf & pending & Hloop & Hlen & Hpend & _ & Hset).
  { by rewrite length_replicate. }
  { apply groupby_NoDup. }
  { intros g sd Hin. by apply group_rows. }
  { exact Hrange. }
  rewrite length_replicate in Hlen.
  rewrite Hloop. cbn [rbind].
  assert (forall g sd k i r, (g, sd) ∈ groupby gby rs -> sd !! k = Some (i, r) ->
                             rs !! i = Some r /\ group_of gby r = Some g)
    as Hmember.
  { intros g sd k i r Hin Hk.
    apply (group_rows gby rs g sd Hin). by eapply list_elem_of_lookup_2. }
  assert (forall j, j ∈ pending <->
                    exists r, rs !! j = Some r /\ group_of gby r = None)
    as Hkeyless.
  { intros j. rewrite Hpend, elem_of_list_to_set, elem_of_seq. split.
    - intros [[_ Hj] Hnone]. simpl in Hj.
      destruct (lookup_lt_is_Some_2 rs j Hj) as [r Hr].
      exists r. split; [done|].
      destruct (group_of gby r) as [g|] eqn:Hg; [|done]. exfalso.
      set (sd := filter (fun ir : nat * row => group_of gby (snd ir) = Some g)
                        (enumerate rs)).
      assert ((g, sd) ∈ groupby gby rs) as Hin.
      { apply elem_of_groupby. split; [done|]. exists r.
        split; [by eapply list_elem_of_lookup_2|done]. }
      apply (Hnone g sd Hin). apply list_elem_of_fmap. exists (j, r).
      split; [done|]. by apply (group_rows gby rs g sd Hin).
    - intros (r & Hr & Hg). split.
      + split; [lia|]. simpl. by apply lookup_lt_Some in Hr.
      + intros g sd Hin Hj.
        apply list_elem_of_fmap in Hj as ([j' r'] & Heq & Hjr). simpl in Heq.
        subst j'. apply (group_rows gby rs g sd Hin) in Hjr as [Hr' Hg'].
        rewrite Hr in Hr'. inversion Hr'; subst. by rewrite Hg in Hg'. }
  assert (forall i, (i < length rs)%nat -> i ∉ pending ->
                    exists l, ydf !! i = Some (Preds l) /\
                              length l = horizon self) as Hgrouped.
  { intros i Hi Hnot.
    destruct (lookup_lt_is_Some_2 rs i Hi) as [r Hr].
    destruct (group_of gby r) as [g|] eqn:Hg;
      [|exfalso; apply Hnot, Hkeyless; by exists r].
    set (sd := filter (fun ir : nat * row => group_of gby (snd ir) = Some g)
                      (enumerate rs)).
    assert ((g, sd) ∈ groupby gby rs) as Hin.
    { apply elem_of_groupby. split; [done|]. exists r.
      split; [by eapply list_elem_of_lookup_2|done]. }
    assert ((i, r) ∈ sd) as Hir by (by apply (group_rows gby rs g sd Hin)).
    apply list_elem_of_lookup in Hir as [k Hk].
    destruct (Hset g sd k i r Hin Hk) as (l & _ & Hl & Hcell). by exists l. }
  unfold size, set_size. simpl.
  destruct (elements pending) as [|j [|j' rest]] eqn:Hel.
  - destruct (decide (0 < length (@nil nat))%nat) as [Hlt|_];
      [simpl in Hlt; lia|].
    assert (forall j, j ∉ pending) as Hempty.
    { intros j Hj. apply elem_of_elements in Hj. rewrite Hel in Hj.
      by apply elem_of_nil in Hj. }
    exists ydf. split; [done|]. split; [done|]. split; [|split].
    + intros i Hi. by apply Hgrouped.
    + intros g sd k i r Hin Hk. split; [by eapply Hmember|].
      destruct (Hset g sd k i r Hin Hk) as (l & Hl & _ & Hcell). by exists l.
    + intros i r Hr Hg. exfalso. apply (Hempty i), Hkeyless. by exists r.
  - destruct (decide (0 < length [j])%nat) as [_|Hn]; [|simpl in Hn; lia].
    assert (j ∈ pending) as Hj.
    { apply elem_of_elements. rewrite Hel. by left. }
    assert (forall i, i ∈ pending -> i = j) as Honly.
    { intros i Hi. apply elem_of_elements in Hi. rewrite Hel in Hi.
      by apply list_elem_of_singleton in Hi. }
    destruct (proj1 (Hkeyless j) Hj) as (rj & Hrj & Hgj).
    rewrite (targets_at_single rs j rj Hrj). cbn [rbind squeeze].
    destruct (call_default_spec (horizon self) ydf (NpScalar (r_target rj))
                [r_target rj] [j]) as (ydf' & Heq & Hlen' & Hset' & Hother').
    { done. }
    { done. }
    { done. }
    { apply NoDup_singleton. }
    { apply Forall_singleton. rewrite Hlen. by apply lookup_lt_Some in Hrj. }
    exists ydf'. split; [done|]. split; [by rewrite Hlen'|].
    assert (ydf' !! j = Some (Preds (replicate (horizon self) zero))) as Hcellj.
    { by apply (Hset' 0%nat j). }
    split; [|split].
    + intros i Hi. destruct (decide (i = j)) as [->|Hne].
      * eexists. split; [exact Hcellj|]. by rewrite length_replicate.
      * rewrite Hother'
          by (apply not_elem_of_cons; split; [done|apply not_elem_of_nil]).
        apply Hgrouped; [done|]. intros Hin. by apply Honly in Hin.
    + intros g sd k i r Hin Hk. split; [by eapply Hmember|].
      destruct (Hset g sd k i r Hin Hk) as (l & Hl & _ & Hcell).
      exists l. split; [done|].
      rewrite Hother'; [done|]. apply not_elem_of_cons. split; [|apply not_elem_of_nil].
      intros ->. destruct (Hmember g sd k j r Hin Hk) as [Hr Hg].
      rewrite Hrj in Hr. inversion Hr; subst. by rewrite Hgj in Hg.
    + intros i r Hr Hg.
      assert (i = j) as -> by (apply Honly, Hkeyless; by exists r).
      done.
  - exfalso.
    assert (NoDup (j :: j' :: rest)) as Hnd
      by (rewrite <- Hel; apply NoDup_elements).
    assert (j ∈ pending) as Hj by (apply elem_of_elements; rewrite Hel; by left).
    assert (j' ∈ pending) as Hj'
      by (apply elem_of_elements; rewrite Hel; right; by left).
    apply Hkeyless in Hj as (r & Hr & Hg), Hj' as (r' & Hr' & Hg').
    assert (j = j') as -> by (by eapply Hone).
    apply NoDup_cons in Hnd as [Hnot _]. apply Hnot. by left.
Qed.

(** X17. What [__call__] does guarantee. With a registry that can be predicted
    from, offsets that are defined (as floats: no time delta of zero and
    no infinite quotient) and a frame in which at most one row lacks a
    group key, it returns
    one cell per row of the frame, in the order of the rows; every cell is
    an array of [horizon] values; the [k]-th row of a group holds, at its
    own position in the frame, the forecast of the [k]-th row of that
    group, from the fitted forecaster of the group or from the naive
    forecast; and a row without a key holds [horizon] zeros. *)
Theorem call_returns_one_window_per_row (self : SkTime) (ds : frame) :
  valid_for_call self ->
  offsets_in_range self ds ->
  at_most_one_without_key (group_by (tss (ts_analysis self))) (rows ds) ->
  exists ydf,
    call self ds = Ok ydf /\
    length ydf = length (rows ds) /\
    (forall i, (i < length (rows ds))%nat ->
       exists l, ydf !! i = Some (Preds l) /\ length l = horizon self) /\
    (forall g sd k i r,
        (g, sd) ∈ groupby (group_by (tss (ts_analysis self))) (rows ds) ->
        sd !! k = Some (i, r) ->
        rows ds !! i = Some r /\
        exists l, row_forecast self g sd k = Ok l /\
                  ydf !! i = Some (Preds l)) /\
    (forall i r,
        rows ds !! i = Some r ->
        group_of (group_by (tss (ts_analysis self))) r = None ->
        ydf !! i = Some (Preds (replicate (horizon self) zero))).
Proof. apply call_spec. Qed.

Lemma fitted_on_answers (y : list Q) (d : option (option Z)) :
  answers_from_min_offset (Demo.fitted_on y d).
Proof.
  intros a b Ha. unfold Demo.fitted_on. cbn [predict].
  change (min_offset {| sub_y := y; sub_d := d; predict := _ |})
    with (min_offset {| sub_y := y; sub_d := d;
                        predict := fun _ => Ok [] |}) in Ha.
  set (lo := min_offset _) in *.
  assert (forallb (Z.leb lo) (arange a b) = true) as ->.
  { apply forallb_forall. intros x Hx. apply list_elem_of_In in Hx.
    unfold arange in Hx. apply elem_of_seqZ in Hx. lia. }
  eexists. split; [done|]. by rewrite length_map.
Qed.

Lemma after_ab_valid : valid_for_call (fst (after_ab 2)).
Proof.
  intros g m f Hm Hf.
  apply elem_of_map_to_list in Hm.
  assert (map_to_list (models (fst (after_ab 2)))
          = [("A", fitted_a); ("B", fitted_b)]) as Heq
    by (vm_compute; reflexivity).
  rewrite Heq in Hm. apply list_elem_of_In in Hm.
  destruct Hm as [Hm|[Hm|[]]]; inversion Hm; subst g m;
    cbn in Hf; inversion Hf; subst f;
    (split; [apply fitted_on_answers|]);
    (split; [eexists; vm_compute; reflexivity|]);
    exists Demo.day; split; vm_compute; reflexivity.
Qed.

Lemma after_ab_offsets : offsets_in_range (fst (after_ab 2)) mixed_rows.
Proof.
  intros g sd r0 m cutoff d Hin Hhead Hm Hfit Hc Hd.
  assert (groupby (group_by (tss (ts_analysis (fst (after_ab 2)))))
                  (rows mixed_rows)
          = [("A", [(0%nat, Demo.mk_row 13 "A" 0);
                    (2%nat, Demo.mk_row 14 "A" 0)]);
             ("C", [(3%nat, Demo.mk_row 13 "C" 8);
                    (4%nat, Demo.mk_row 14 "C" 9)])]) as Heq
    by (vm_compute; reflexivity).
  rewrite Heq in Hin. apply list_elem_of_In in Hin.
  destruct Hin as [Hin|[Hin|[]]]; inversion Hin; subst g sd;
    cbn [head] in Hhead; inversion Hhead; subst r0.
  - assert (cutoffs (fst (after_ab 2)) !! "A" = Some (Demo.at_day 10)) as Hc'
      by (vm_compute; reflexivity).
    assert (deltas (ts_analysis (fst (after_ab 2))) !! "A" = Some Demo.day)
      as Hd' by (vm_compute; reflexivity).
    rewrite Hc' in Hc. rewrite Hd' in Hd. inversion Hc; inversion Hd.
    vm_compute. reflexivity.
  - assert (models (fst (after_ab 2)) !! "C" = None) as Hm'
      by (vm_compute; reflexivity).
    rewrite Hm' in Hm. discriminate.
Qed.

Lemma call_returns_one_window_per_row_witness :
  exists ydf,
    call (fst (after_ab 2)) mixed_rows = Ok ydf /\
    length ydf = 5%nat /\
    ydf !! 1%nat = Some (Preds (replicate 3 zero)).
Proof.
  destruct (call_returns_one_window_per_row (fst (after_ab 2)) mixed_rows)
    as (ydf & Hcall & Hlen & _ & _ & Hnokey).
  - exact after_ab_valid.
  - exact after_ab_offsets.
  - intros i j ri rj Hi Hj Hgi Hgj.
    destruct i as [|[|[|[|[|i]]]]]; simpl in Hi; inversion Hi; subst ri;
      try discriminate;
    destruct j as [|[|[|[|[|j]]]]]; simpl in Hj; inversion Hj; subst rj;
      try discriminate; reflexivity.
  - exists ydf. split; [exact Hcall|]. split; [exact Hlen|].
    apply (Hnokey 1%nat (Demo.no_key 13 4)); reflexivity.
Defined.

(** C1 (code bug). The rows no group of the [groupby] covers are left
    pending and are meant to receive the naive forecast after the loop
    (the source: apply default model in all remaining novel-group rows).
    With two such rows the targets reach [_call_default] as a pandas
    series, where the loop over the groups hands over [series.values];
    a series has no [flatten], and [__call__] raises instead of returning
    one array per row. The registry is a valid one, and the same call with
    a single such row returns. *)
Theorem call_raises_on_two_pending_rows :
  length (rows two_rows_without_key) = 3%nat /\
  call (fst (after_ab 2)) two_rows_without_key = Raise AttributeError /\
  is_ok (call (fst (after_ab 2)) mixed_rows) = true.
Proof.
  split; [reflexivity|]. split; vm_compute; reflexivity.
Qed.

Lemma targets_at_ok (df : list row) (idxs : list nat) :
  Forall (fun i => i < length df)%nat idxs ->
  exists l, targets_at df idxs = Ok l /\ length l = length idxs.
Proof.
  induction idxs as [|i idxs IH]; intros Hin.
  { by exists []. }
  apply Forall_cons in Hin as [Hi Hin].
  destruct (IH Hin) as (l & Hl & Hlen).
  destruct (lookup_lt_is_Some_2 df i Hi) as [r Hr].
  exists (r_target r :: l). unfold targets_at in *. cbn [foldr].
  rewrite Hr, Hl. cbn. by rewrite Hlen.
Qed.

Lemma call_default_on_a_series (h : nat) (ydf : list cell) (l : list value)
    (idxs : list nat) :
  (2 <= length l)%nat ->
  squeeze l = PdSeries l /\
  _call_default h ydf (squeeze l) idxs = Raise AttributeError.
Proof.
  intros Hlen. destruct l as [|a [|b l]]; [simpl in Hlen; lia..|done].
Qed.

(** C6 (code bug). The rows the loop of [__call__] leaves pending are a
    batch routed to the naive forecast. When the batch has two rows or
    more, its targets reach [_call_default] as a pandas series, which has
    no [flatten]: [_call_default] raises, no row of the batch receives its
    array, and [__call__] ends with the exception. This holds for every
    registry that can be predicted from and every frame with two rows
    whose group key is null. *)
Theorem fallback_raises_on_a_pending_batch (self : SkTime) (ds : frame)
    (i j : nat) (ri rj : row) :
  valid_for_call self ->
  offsets_in_range self ds ->
  i <> j ->
  rows ds !! i = Some ri ->
  rows ds !! j = Some rj ->
  group_of (group_by (tss (ts_analysis self))) ri = None ->
  group_of (group_by (tss (ts_analysis self))) rj = None ->
  (forall ydf l idxs,
      (2 <= length l)%nat ->
      _call_default (horizon self) ydf (squeeze l) idxs
        = Raise AttributeError) /\
  call self ds = Raise AttributeError.
Proof.
  intros Hvalid Hrange Hij Hi Hj Hgi Hgj.
  split; [intros ydf l idxs Hl; by apply call_default_on_a_series|].
  unfold call.
  set (gby := group_by (tss (ts_analysis self))) in *.
  set (rs := rows ds) in *.
  destruct (call_loop_spec self (ncols ds) gby rs Hvalid (groupby gby rs)
              (replicate (length rs) Zero) (list_to_set (seq 0 (length rs))))
    as (ydf & pending & Hloop & Hlen & Hpend & _ & _).
  { by rewrite length_replicate. }
  { apply groupby_NoDup. }
  { intros g sd Hin. by apply group_rows. }
  { exact Hrange. }
  rewrite Hloop. cbn [rbind].
  assert (forall k r, rs !! k = Some r -> group_of gby r = None ->
                      k ∈ pending) as Hkeyless.
  { intros k r Hk Hg. apply Hpend. split.
    - apply elem_of_list_to_set, elem_of_seq. split; [lia|]. simpl.
      by apply lookup_lt_Some in Hk.
    - intros g sd Hin Hmem.
      apply list_elem_of_fmap in Hmem as ([k' r'] & Heq & Hkr).
      simpl in Heq. subst k'.
      apply (group_rows gby rs g sd Hin) in Hkr as [Hr' Hg'].
      rewrite Hk in Hr'. inversion Hr'; subst. by rewrite Hg in Hg'. }
  pose proof (Hkeyless i ri Hi Hgi) as Hpi.
  pose proof (Hkeyless j rj Hj Hgj) as Hpj.
  assert (2 <= length (elements pending))%nat as Htwo.
  { apply elem_of_elements in Hpi, Hpj.
    destruct (elements pending) as [|a [|b rest]]; simpl; [|exfalso|lia].
    - by apply elem_of_nil in Hpi.
    - apply list_elem_of_singleton in Hpi, Hpj. congruence. }
  destruct (decide (0 < size pending)%nat) as [_|Hn];
    [|unfold size, set_size in Hn; simpl in Hn; lia].
  destruct (targets_at_ok rs (elements pending)) as (series & Hs & Hls).
  { apply Forall_forall. intros k Hk. apply elem_of_elements in Hk.
    apply Hpend in Hk as [Hk _].
    apply elem_of_list_to_set, elem_of_seq in Hk. simpl in Hk. lia. }
  rewrite Hs. cbn [rbind].
  apply call_default_on_a_series. lia.
Qed.

Lemma after_ab_offsets_without_key :
  offsets_in_range (fst (after_ab 2)) two_rows_without_key.
Proof.
  intros g sd r0 m cutoff d Hin Hhead Hm Hfit Hc Hd.
  assert (groupby (group_by (tss (ts_analysis (fst (after_ab 2)))))
                  (rows two_rows_without_key)
          = [("A", [(0%nat, Demo.mk_row 13 "A" 0)])]) as Heq
    by (vm_compute; reflexivity).
  rewrite Heq in Hin. apply list_elem_of_In in Hin.
  destruct Hin as [Hin|[]]; inversion Hin; subst g sd.
  cbn [head] in Hhead. inversion Hhead; subst r0.
  assert (cutoffs (fst (after_ab 2)) !! "A" = Some (Demo.at_day 10)) as Hc'
    by (vm_compute; reflexivity).
  assert (deltas (ts_analysis (fst (after_ab 2))) !! "A" = Some Demo.day)
    as Hd' by (vm_compute; reflexivity).
  rewrite Hc' in Hc. rewrite Hd' in Hd. inversion Hc; inversion Hd.
  vm_compute. reflexivity.
Qed.

Lemma fallback_raises_on_a_pending_batch_witness :
  _call_default 3 [Zero; Zero; Zero]
    (squeeze [Some (4 # 1)%Q; Some (5 # 1)%Q]) [1%nat; 2%nat]
    = Raise AttributeError /\
  call (fst (after_ab 2)) two_rows_without_key = Raise AttributeError.
Proof.
  destruct (fallback_raises_on_a_pending_batch (fst (after_ab 2))
              two_rows_without_key 1%nat 2%nat
              (Demo.no_key 13 4) (Demo.no_key 14 5)) as [Hbatch Hcall].
  - exact after_ab_valid.
  - exact after_ab_offsets_without_key.
  - lia.
  - reflexivity.
  - reflexivity.
  - reflexivity.
  - reflexivity.
  - split; [|exact Hcall].
    apply (Hbatch [Zero; Zero; Zero] [Some (4 # 1)%Q; Some (5 # 1)%Q]).
    simpl. lia.
Defined.

(** The seen group A is forecast by its forecaster, three days and four days
    after its cutoff; the unseen group C receives the naive forecast; the
    row without a key receives zeros. *)
Example call_on_mixed_rows :
  call (fst (after_ab 2)) mixed_rows =
    Ok [Preds [Some (3 # 1); Some (4 # 1); Some (5 # 1)];
        Preds [zero; zero; zero];
        Preds [Some (4 # 1); Some (5 # 1); Some (6 # 1)];
        Preds [zero; zero; zero];
        Preds [Some (8 # 1); Some (8 # 1); Some (8 # 1)]]%Q.
Proof. vm_compute. reflexivity. Qed.

(** ** Further properties of the mixer *)

(** *** [_get_freq] *)

Lemma argmin_fold (delta : Q) (l : list (string * Z)) :
  forall best : string * Z,
    let r := fold_left
               (fun best u =>
                  if Qlt_le_dec (Qabs (inject_Z (snd u) - delta))
                                (Qabs (inject_Z (snd best) - delta))
                  then u else best) l best in
    r ∈ best :: l /\
    forall v, v ∈ best :: l -> (unit_distance delta r <= unit_distance delta v)%Q.
Proof.
  induction l as [|u l IH]; intros best r.
  { split; [by left|]. intros v Hv. apply list_elem_of_singleton in Hv as ->.
    apply Qle_refl. }
  subst r. cbn [fold_left].
  destruct (Qlt_le_dec _ _) as [Hlt|Hle].
  - destruct (IH u) as [Hin Hmin]. split.
    + apply elem_of_cons in Hin as [->|Hin]; [right; by left|by do 2 right].
    + intros v Hv. apply elem_of_cons in Hv as [->|Hv].
      * eapply Qle_trans; [apply Hmin; by left|]. by apply Qlt_le_weak.
      * by apply Hmin.
  - destruct (IH best) as [Hin Hmin]. split.
    + apply elem_of_cons in Hin as [->|Hin]; [by left|by do 2 right].
    + intros v Hv. apply elem_of_cons in Hv as [->|Hv]; [apply Hmin; by left|].
      apply elem_of_cons in Hv as [->|Hv].
      * eapply Qle_trans; [apply Hmin; by left|]. exact Hle.
      * apply Hmin. by right.
Qed.

(** X1. [_get_freq] returns the label of a unit of its table whose length in
    seconds is nearest to the time delta: no unit of the table is nearer. *)
Theorem get_freq_is_nearest_unit (delta : Q) :
  exists u, u ∈ freq_units /\ _get_freq delta = fst u /\
            forall v, v ∈ freq_units ->
                      (unit_distance delta u <= unit_distance delta v)%Q.
Proof.
  destruct (argmin_fold delta freq_units ("S", 1)) as [Hin Hmin].
  unfold _get_freq.
  set (r := fold_left _ freq_units ("S", 1)) in *.
  exists r. split; [|split; [done|]].
  - apply elem_of_cons in Hin as [->|Hin]; [by left|done].
  - intros v Hv. apply Hmin. by right.
Qed.

(** *** What the operations keep *)

Section Invariants.

Context (lib : library).

Lemma optimize_settings grid : forall self train dev,
  settings (optimize lib self train dev grid) = settings self.
Proof.
  induction grid as [|c grid IH]; intros self train dev; [done|].
  unfold optimize in *. cbn [fold_left]. rewrite IH.
  pose proof (_get_best_model_keeps lib
                (add_trial {| t_class := c; t_value := None |} self)
                c train dev) as (_ & _ & Hs).
  destruct (_get_best_model lib _ c train dev) as [s e]. cbn [fst] in Hs.
  exact Hs.
Qed.

Lemma fit_settings self train dev :
  settings (fst (fit lib self train dev)) = settings self.
Proof.
  unfold fit. destruct (hyperparam_search self).
  - destruct (_fit_settings lib
                (optimize lib (set_study (Some []) self) train dev
                   (take (n_trials (set_study (Some []) self))
                      (sampler_order lib
                         (possible_models (set_study (Some []) self)))))
                (ConcatedEncodedDs train dev)) as [Hs _].
    rewrite Hs. by rewrite optimize_settings.
  - apply _fit_settings.
Qed.

Lemma partial_fit_settings self train dev :
  settings (fst (partial_fit lib self train dev)) = settings self.
Proof.
  unfold partial_fit.
  pose proof (fit_settings (set_hyperparam_search false self) dev train) as H.
  destruct (fit lib (set_hyperparam_search false self) dev train) as [s r].
  cbn [fst] in H. by destruct r.
Qed.

Lemma run_settings self o : settings (run lib self o) = settings self.
Proof.
  destruct o; cbn [run];
    [apply fit_settings|apply partial_fit_settings|done].
Qed.

(** X2. No sequence of [fit], [partial_fit] and [__call__] changes the
    horizon, the seasonal override, the time-series analysis, the grouping,
    the truncation settings, the model path, the candidate families, the
    number of trials or the frequency label of a mixer. *)
Theorem operations_keep_the_settings (self : SkTime) (ops : list operation) :
  settings (run_all lib self ops) = settings self /\
  horizon (run_all lib self ops) = horizon self /\
  n_trials (run_all lib self ops) = n_trials self /\
  possible_models (run_all lib self ops) = possible_models self.
Proof.
  assert (settings (run_all lib self ops) = settings self) as H.
  { revert self. induction ops as [|o ops IH]; intros self; [done|].
    unfold run_all in *. cbn [fold_left]. rewrite IH. apply run_settings. }
  split; [done|]. unfold settings in H. repeat split; congruence.
Qed.

Lemma last_is_Some_nonempty {A} (l : list A) : l <> [] -> is_Some (last l).
Proof.
  intros Hne. destruct (exists_last Hne) as (l' & x & ->).
  rewrite last_snoc. by eexists.
Qed.

Lemma fit_or_default_wf mc g series s :
  registry_wf s -> is_Some (cutoffs s !! g) ->
  registry_wf (fst (fit_or_default lib mc g series s)).
Proof.
  intros Hwf Hc. unfold fit_or_default.
  assert (forall m, registry_wf (set_models <[g := m]> s)) as Hset.
  { intros m g' Hg'. cbn [models cutoffs set_models] in *.
    destruct (decide (g = g')) as [->|Hne]; [done|].
    rewrite lookup_insert_ne in Hg' by done. by apply Hwf. }
  destruct (models s !! g); [|done].
  destruct (sk_fit lib f series (horizon s)); [apply Hset|].
  destruct (sk_new lib mc []); [|done].
  destruct (sk_fit lib (default_constructed mc) series (horizon s));
    apply Hset.
Qed.

Lemma fit_group_wf mc df nc self g sd :
  registry_wf self -> sd <> [] -> df <> [] ->
  registry_wf (fst (fit_group lib mc df nc self (g, sd))).
Proof.
  intros Hwf Hsd Hdf. unfold fit_group.
  destruct (seasonal_period self g) as [sp_|e]; [|done].
  cbn zeta.
  destruct (configured_forecaster _ _ _ _ _) as [model|e]; [|done].
  assert (is_Some (last (if decide (grouped_by self = ["__default"]) then df
                         else map snd sd))) as [r_last Hlast].
  { apply last_is_Some_nonempty. destruct (decide _); [done|].
    by destruct sd. }
  cbn [set_model_kwargs set_models grouped_by]. rewrite Hlast.
  assert (forall (m : forecaster) (base : SkTime),
            models base = models (set_model_kwargs (fit_options self sp_) self) ->
            cutoffs base = cutoffs self ->
            registry_wf (set_cutoffs <[g := r_index r_last]>
                           (set_models <[g := m]> base))) as Hstored.
  { intros m base Hm Hc g' Hg'. cbn [cutoffs set_cutoffs set_models] in *.
    cbn [models set_cutoffs set_models] in Hg'.
    destruct (decide (g = g')) as [->|Hne].
    - rewrite lookup_insert_eq. by eexists.
    - rewrite lookup_insert_ne in Hg' by done.
      rewrite lookup_insert_ne by done. rewrite Hc. apply Hwf.
      by rewrite Hm in Hg'. }
  destruct (decide (window _ < _)%nat); [|by apply Hstored].
  destruct (skips_fit _ _ _ _); [by apply Hstored|].
  apply fit_or_default_wf; [by apply Hstored|].
  cbn [cutoffs set_cutoffs]. rewrite lookup_insert_eq. by eexists.
Qed.

Lemma for_each_fit_group_wf mc df nc : forall gs self,
  registry_wf self -> df <> [] ->
  (forall g sd, (g, sd) ∈ gs -> sd <> []) ->
  registry_wf (fst (for_each (fit_group lib mc df nc) self gs)).
Proof.
  induction gs as [|[g sd] gs IH]; intros self Hwf Hdf Hgs; [done|].
  cbn [for_each].
  pose proof (fit_group_wf mc df nc self g sd Hwf
                ltac:(apply (Hgs g sd); by left) Hdf) as Hstep.
  destruct (fit_group lib mc df nc self (g, sd)) as [s r]. cbn [fst] in Hstep.
  destruct r; [|done]. apply IH; [done|done|].
  intros g' sd' Hin. apply (Hgs g' sd'). by right.
Qed.

Lemma _fit_wf self data :
  registry_wf self -> registry_wf (fst (_fit lib self data)).
Proof.
  intros Hwf. unfold _fit.
  destruct (module_name_of self); [|done].
  destruct (resolve_class lib a) as [mc|]; [|done].
  destruct (decide (sort_by r_original_oby (rows data) = [])) as [Hnil|Hne].
  - rewrite Hnil. done.
  - apply for_each_fit_group_wf; [done|done|].
    intros g sd Hin. by apply (group_rows _ _ _ _ Hin).
Qed.

Lemma _get_best_model_wf self cls train dev :
  registry_wf self ->
  registry_wf (fst (_get_best_model lib self cls train dev)).
Proof.
  intros Hwf. unfold _get_best_model.
  pose proof (_fit_wf (set_hyperparam_dict (Some cls) self) train Hwf) as H.
  by destruct (_fit lib (set_hyperparam_dict (Some cls) self) train).
Qed.

Lemma optimize_wf grid : forall self train dev,
  registry_wf self -> registry_wf (optimize lib self train dev grid).
Proof.
  induction grid as [|c grid IH]; intros self train dev Hwf; [done|].
  unfold optimize in *. cbn [fold_left]. apply IH.
  pose proof (_get_best_model_wf
                (add_trial {| t_class := c; t_value := None |} self)
                c train dev Hwf) as H.
  by destruct (_get_best_model lib _ c train dev).
Qed.

Lemma fit_wf self train dev :
  registry_wf self -> registry_wf (fst (fit lib self train dev)).
Proof.
  intros Hwf. unfold fit. destruct (hyperparam_search self).
  - apply _fit_wf, optimize_wf. exact Hwf.
  - by apply _fit_wf.
Qed.

Lemma partial_fit_wf self train dev :
  registry_wf self -> registry_wf (fst (partial_fit lib self train dev)).
Proof.
  intros Hwf. unfold partial_fit.
  pose proof (fit_wf (set_hyperparam_search false self) dev train Hwf) as H.
  destruct (fit lib (set_hyperparam_search false self) dev train) as [s r].
  by destruct r.
Qed.

(** X3. Every group that has a forecaster in the registry has a cutoff:
    the property holds for an empty registry and no sequence of [fit],
    [partial_fit] and [__call__] breaks it, whether a fit ends normally or
    with an exception. *)
Theorem operations_keep_a_cutoff_per_forecaster (self : SkTime)
    (ops : list operation) :
  registry_wf self -> registry_wf (run_all lib self ops).
Proof.
  revert self. induction ops as [|o ops IH]; intros self Hwf; [done|].
  unfold run_all in *. cbn [fold_left]. apply IH.
  destruct o; cbn [run];
    [by apply fit_wf|by apply partial_fit_wf|done].
Qed.

End Invariants.

Lemma operations_keep_a_cutoff_per_forecaster_witness :
  registry_wf
    (run_all Demo.lib (stl_mixer 2)
       [DoFit train_bad_a Demo.empty_frame;
        DoPartialFit Demo.train_ab Demo.train_a]).
Proof.
  apply (operations_keep_a_cutoff_per_forecaster Demo.lib (stl_mixer 2)).
  intros g [m Hm]. vm_compute in Hm. discriminate.
Defined.

(** *** The cutoff of a group *)

Lemma key_le_trans {A} (key : A -> Q) : Transitive (key_le key).
Proof.
  intros x y z Hxy Hyz. unfold key_le in *.
  apply Qle_bool_iff in Hxy, Hyz. apply Qle_bool_iff.
  by eapply Qle_trans.
Qed.

Lemma key_le_total {A} (key : A -> Q) : Total (key_le key).
Proof.
  intros x y. unfold key_le. rewrite !Qle_bool_iff.
  destruct (Qlt_le_dec (key y) (key x)) as [H|H]; [right|left]; [|done].
  by apply Qlt_le_weak.
Qed.

Lemma sort_by_sorted {A} (key : A -> Q) (l : list A) :
  StronglySorted (key_le key) (sort_by key l).
Proof.
  apply StronglySorted_merge_sort; [apply key_le_trans|apply key_le_total].
Qed.

Lemma StronglySorted_sublist {A} (R : relation A) (l1 l2 : list A) :
  l1 `sublist_of` l2 -> StronglySorted R l2 -> StronglySorted R l1.
Proof.
  induction 1 as [|x l1 l2 Hsub IH|x l1 l2 Hsub IH]; intros Hs; [done| |].
  - apply StronglySorted_cons in Hs as [Hall Hs].
    apply StronglySorted_cons. split; [|by apply IH].
    apply Forall_forall. intros y Hy. eapply Forall_forall in Hall; [done|].
    by eapply elem_of_sublist.
  - apply StronglySorted_cons in Hs as [_ Hs]. by apply IH.
Qed.

Lemma StronglySorted_last {A} (R : relation A) (l : list A) (x : A) :
  Reflexive R ->
  StronglySorted R l -> last l = Some x -> forall y, y ∈ l -> R y x.
Proof.
  intros Hrefl.
  induction 1 as [|a l Hs IH Hall]; intros Hlast y Hy; [done|].
  destruct l as [|b l].
  - cbn in Hlast. inversion Hlast; subst.
    apply list_elem_of_singleton in Hy as ->. done.
  - change (last (a :: b :: l)) with (last (b :: l)) in Hlast.
    apply elem_of_cons in Hy as [->|Hy]; [|by apply IH].
    eapply Forall_forall in Hall; [exact Hall|].
    by apply last_elem_of.
Qed.

Lemma enumerate_snd {A} (l : list A) : map snd (enumerate l) = l.
Proof.
  apply list_eq. intros i.
  change (map snd (enumerate l)) with (snd <$> enumerate l).
  unfold enumerate. rewrite list_lookup_fmap, list_lookup_imap.
  by destruct (l !! i).
Qed.

Lemma key_le_refl {A} (key : A -> Q) : Reflexive (key_le key).
Proof. intros x. unfold key_le. apply Qle_bool_iff, Qle_refl. Qed.

(** The rows of a group of a sorted frame are sorted. *)
Lemma group_rows_sorted (gby : list string) (rs : list row) (g : string)
    (sd : subframe) :
  (g, sd) ∈ groupby gby (sort_by r_original_oby rs) ->
  StronglySorted (key_le r_original_oby) (map snd sd).
Proof.
  intros (-> & _)%elem_of_groupby.
  eapply StronglySorted_sublist; [|apply (sort_by_sorted r_original_oby rs)].
  rewrite <- (enumerate_snd (sort_by r_original_oby rs)) at 2.
  apply (fmap_sublist snd), sublist_filter.
Qed.

(** X4. After a pass of [_fit] that ends normally, the cutoff of a group is
    the index label of a row of the pass's data that no row it is compared
    with comes after in the order column: a row of the group itself,
    compared with the rows of the group, when the mixer is grouped; a row
    of the whole frame, compared with all rows, when [grouped_by] is
    [['__default']]. *)
Theorem cutoff_is_the_last_observation (lib : library) (self : SkTime)
    (data : frame) (s' : SkTime) (g : string) (x : row) :
  _fit lib self data = (s', Ok tt) ->
  x ∈ rows data ->
  group_of (group_by (tss (ts_analysis self))) x = Some g ->
  exists last_row,
    last_row ∈ rows data /\
    cutoffs s' !! g = Some (r_index last_row) /\
    (grouped_by self <> ["__default"] ->
     group_of (group_by (tss (ts_analysis self))) last_row = Some g /\
     forall y, y ∈ rows data ->
               group_of (group_by (tss (ts_analysis self))) y = Some g ->
               (r_original_oby y <= r_original_oby last_row)%Q) /\
    (grouped_by self = ["__default"] ->
     forall y, y ∈ rows data ->
               (r_original_oby y <= r_original_oby last_row)%Q).
Proof.
  unfold _fit. intros Hfit Hx Hg.
  destruct (module_name_of self) as [name|e]; [|by inversion Hfit].
  destruct (resolve_class lib name) as [mc|e]; [|by inversion Hfit].
  set (gby := group_by (tss (ts_analysis self))) in *.
  set (df := sort_by r_original_oby (rows data)) in *.
  set (sd := filter (fun ir : nat * row => group_of gby (snd ir) = Some g)
                    (enumerate df)).
  assert ((g, sd) ∈ groupby gby df) as Hin.
  { apply elem_of_groupby. split; [done|]. exists x.
    split; [by apply elem_of_sort_by|done]. }
  destruct (for_each_fit_group_own lib mc df (ncols data) _ self s'
              (groupby_NoDup gby df) Hfit _ _ Hin)
    as (s1 & s2 & (Hset & _) & Hg1 & _ & Hc).
  destruct (fit_group_own lib _ _ _ _ _ _ _ Hg1)
    as (m & r_last & _ & _ & Hc2 & Hlast).
  assert (grouped_by s1 = grouped_by self) as Hgb
    by (unfold settings in Hset; congruence).
  rewrite Hgb in Hlast.
  pose proof (group_rows gby df g sd Hin) as (_ & _ & Hrows).
  exists r_last. rewrite Hc. split; [|split; [done|split]].
  - apply last_elem_of in Hlast. destruct (decide _).
    + by apply elem_of_sort_by in Hlast.
    + apply list_elem_of_fmap in Hlast as ([i y] & -> & Hy).
      apply Hrows in Hy as [Hy _]. cbn [snd].
      apply (elem_of_sort_by r_original_oby).
      by eapply list_elem_of_lookup_2.
  - intros Hgrouped. destruct (decide _) as [|_]; [done|].
    pose proof (last_elem_of _ _ Hlast) as Hl.
    apply list_elem_of_fmap in Hl as ([i z] & -> & Hz).
    split; [by apply Hrows in Hz as [_ Hz]|].
    intros y Hy Hgy. apply Qle_bool_iff.
    apply (StronglySorted_last (key_le r_original_oby) (map snd sd) z);
      [apply key_le_refl|by apply (group_rows_sorted gby (rows data) g)|done|].
    apply (elem_of_sort_by r_original_oby) in Hy.
    apply list_elem_of_lookup in Hy as [j Hj].
    apply list_elem_of_fmap. exists (j, y). split; [done|].
    by apply Hrows.
  - intros Hdefault. destruct (decide _) as [_|]; [|done].
    intros y Hy. apply Qle_bool_iff.
    apply (StronglySorted_last (key_le r_original_oby) df r_last);
      [apply key_le_refl|apply sort_by_sorted|done|].
    by apply elem_of_sort_by.
Qed.

Lemma cutoff_is_the_last_observation_witness :
  exists last_row,
    last_row ∈ rows Demo.train_ab /\
    cutoffs (fst (after_ab 2)) !! "B" = Some (r_index last_row) /\
    group_of ["store"] last_row = Some "B" /\
    forall y, y ∈ rows Demo.train_ab ->
              group_of ["store"] y = Some "B" ->
              (r_original_oby y <= r_original_oby last_row)%Q.
Proof.
  destruct (cutoff_is_the_last_observation Demo.lib (stl_mixer 2)
              (ConcatedEncodedDs Demo.train_ab Demo.empty_frame)
              (fst (after_ab 2)) "B" (Demo.mk_row 8 "B" 5))
    as (last_row & Hin & Hc & Hgrouped & _).
  - vm_compute. reflexivity.
  - apply list_elem_of_In. vm_compute. right. left. reflexivity.
  - reflexivity.
  - exists last_row.
    destruct Hgrouped as [Hg Hmax]; [discriminate|].
    change (rows (ConcatedEncodedDs Demo.train_ab Demo.empty_frame))
      with (rows Demo.train_ab ++ []) in *.
    rewrite app_nil_r in *.
    repeat split; assumption.
Defined.

(** *** The series a group is fitted on *)

Lemma labelled_targets_known (series_data : subframe) :
  omap snd
    (map (fun ir : nat * row => (r_index (snd ir), r_target (snd ir)))
         series_data)
  = omap (fun ir : nat * row => r_target (snd ir)) series_data.
Proof.
  induction series_data as [|ir sd IH]; [done|]. cbn. by rewrite IH.
Qed.

Lemma omap_length_le {A B} (f : A -> option B) (l : list A) :
  (length (omap f l) <= length l)%nat.
Proof.
  induction l as [|x l IH]; [done|]. cbn. destruct (f x); simpl; lia.
Qed.

(** X5. The series of a group holds the targets of the group that are not
    missing, each as often as it occurs among the rows and nothing else:
    missing values are dropped, none is filled in. *)
Theorem training_series_keeps_the_known_targets (series_data : subframe) :
  training_series series_data ≡ₚ
    omap (fun ir : nat * row => r_target (snd ir)) series_data /\
  (length (training_series series_data) <= length series_data)%nat.
Proof.
  assert (training_series series_data ≡ₚ
          omap (fun ir : nat * row => r_target (snd ir)) series_data) as H.
  { unfold training_series.
    rewrite (sort_by_Permutation fst). by rewrite labelled_targets_known. }
  split; [done|]. rewrite H. apply omap_length_le.
Qed.

Lemma fit_input_drop (self : SkTime) (sp_ : Z) (series : list Q) :
  fit_input self sp_ series =
    if auto_size self
    then drop (length series
               - Z.to_nat (Z.max 500 (sp_ * cutoff_factor self))) series
    else series.
Proof.
  unfold fit_input. destruct (auto_size self); [|done].
  set (m := Z.max 500 (sp_ * cutoff_factor self)).
  assert (0 < m) as Hm by (unfold m; lia).
  unfold py_suffix.
  destruct (Z.to_nat (Z.min (Z.of_nat (length series)) m)) as [|k] eqn:E.
  - assert (length series = 0%nat) as Hlen by lia.
    destruct series; [done|simpl in Hlen; lia].
  - f_equal. lia.
Qed.

(** X6. With [auto_size] the series handed to [fit] is the series without
    its oldest observations: the last [max(500, sp * cutoff_factor)] values
    of it, or all of it when it is not longer than that; without
    [auto_size] it is the whole series. *)
Theorem fit_input_keeps_the_most_recent (self : SkTime) (sp_ : Z)
    (series : list Q) :
  exists older,
    series = older ++ fit_input self sp_ series /\
    (auto_size self = true ->
     length (fit_input self sp_ series) =
       Nat.min (length series)
               (Z.to_nat (Z.max 500 (sp_ * cutoff_factor self)))) /\
    (auto_size self = false -> older = []).
Proof.
  rewrite fit_input_drop. destruct (auto_size self).
  - eexists (take _ series). split; [by rewrite take_drop|].
    split; [|done]. intros _. rewrite length_drop. lia.
  - exists []. done.
Qed.

(** *** The options of a forecaster *)

Lemma dict_get_set (q k : string) (v : kwval) (d : pydict) :
  dict_get q (dict_set k v d) =
    if String.eqb q k then Some v else dict_get q d.
Proof.
  induction d as [|[k' v'] d IH]; cbn [dict_set dict_get].
  - by destruct (String.eqb q k).
  - destruct (String.eqb k k') eqn:Ek; cbn [dict_get].
    + apply String.eqb_eq in Ek as ->. by destruct (String.eqb q k').
    + destruct (String.eqb q k') eqn:Eq.
      * apply String.eqb_eq in Eq as ->.
        rewrite String.eqb_sym in Ek. by rewrite Ek.
      * exact IH.
Qed.

Lemma kwargs_are_accepted (lib : library) (mc : model_class)
    (options : pydict) :
  forall (acc : pydict) (k : string),
    is_Some (dict_get k
               (fold_left (fun kw (kv : string * kwval) =>
                             _add_cls_kwarg lib mc kw (fst kv) (snd kv))
                          options acc)) ->
    is_Some (dict_get k acc) \/ accepts_kwarg lib mc k = true.
Proof.
  induction options as [|[k' v'] options IH]; intros acc k Hk; [by left|].
  cbn [fold_left fst snd] in Hk. apply IH in Hk as [Hk|Hk]; [|by right].
  unfold _add_cls_kwarg in Hk.
  destruct (accepts_kwarg lib mc k') eqn:Hacc; [|by left].
  rewrite dict_get_set in Hk.
  destruct (String.eqb k k') eqn:E; [|by left].
  apply String.eqb_eq in E as ->. by right.
Qed.

(** The forecaster built for a group is an unfitted pipeline of the
    class of the pass, and every keyword argument it is constructed with
    is one the constructor of the class takes, with one exception: when
    the STL transformers of the group are used, [sp] is passed, as
    [None], whether the constructor takes it or not. *)
Lemma forecaster_gets_only_accepted_options (lib : library)
    (mc : model_class) (self : SkTime) (g : string) (options : pydict)
    (m : forecaster) :
  configured_forecaster lib mc self g options = Ok m ->
  fc_class m = mc /\ is_fitted m = false /\ is_pipeline m = true /\
  (forall k, is_Some (dict_get k (fc_kwargs m)) ->
             accepts_kwarg lib mc k = true \/
             (k = "sp" /\ use_stl self = true /\
              g ∈ stl_transforms (ts_analysis self))) /\
  (use_stl self = true -> g ∈ stl_transforms (ts_analysis self) ->
   dict_get "sp" (fc_kwargs m) = Some KNone /\
   steps m = [Deseasonalizer g; Detrender g]).
Proof.
  unfold configured_forecaster. cbn zeta. intros Hm.
  destruct (sk_new lib mc _); [|discriminate].
  cbn [rbind] in Hm. inversion Hm; subst m. clear Hm.
  split; [done|]. split; [done|]. split; [done|]. split.
  - intros k Hk. cbn [fc_kwargs TransformedTargetForecaster] in Hk.
    destruct (use_stl self) eqn:Hstl; cbn [andb] in Hk.
    + destruct (bool_decide _) eqn:Hin.
      * apply bool_decide_eq_true in Hin.
        rewrite dict_get_set in Hk.
        destruct (String.eqb k "sp") eqn:E.
        -- apply String.eqb_eq in E. right. done.
        -- apply kwargs_are_accepted in Hk as [[? Hk]|Hk]; [done|by left].
      * apply kwargs_are_accepted in Hk as [[? Hk]|Hk]; [done|by left].
    + apply kwargs_are_accepted in Hk as [[? Hk]|Hk]; [done|by left].
  - intros Hstl Hin. cbn [fc_kwargs steps TransformedTargetForecaster].
    rewrite Hstl. cbn [andb]. rewrite bool_decide_eq_true_2 by done.
    by rewrite dict_get_set.
Qed.

(** With the STL transformers of a group the constructor of the class is
    called with [sp=None] whether it takes [sp] or not. When it does not,
    and raises [TypeError] as python does for a keyword it does not take,
    the iteration ends with that exception: the options are written, the
    registry is as it was. *)
Lemma stl_can_fail_the_constructor (lib : library) (mc : model_class)
    (df : list row) (nc : nat) (self : SkTime) (g : string) (sd : subframe)
    (sp_ : Z) :
  seasonal_period self g = Ok sp_ ->
  use_stl self = true ->
  g ∈ stl_transforms (ts_analysis self) ->
  (forall kwargs, is_Some (dict_get "sp" kwargs) ->
                  sk_new lib mc kwargs = Raise TypeError) ->
  fit_group lib mc df nc self (g, sd)
    = (set_model_kwargs (fit_options self sp_) self, Raise TypeError).
Proof.
  intros Hsp Hstl Hin Hnew. unfold fit_group. rewrite Hsp. cbn zeta.
  unfold configured_forecaster.
  cbn [use_stl ts_analysis set_model_kwargs]. rewrite Hstl. cbn [andb].
  rewrite bool_decide_eq_true_2 by done.
  rewrite Hnew; [done|]. rewrite dict_get_set. by eexists.
Qed.

(** In the demo library [PolynomialTrendForecaster] takes no [sp]: with
    the STL transformers of group A its pass raises [TypeError] and
    leaves no forecaster. *)
Example stl_with_a_class_without_sp :
  let self := stl_on_a (Demo.mixer 2 "trend.PolynomialTrendForecaster") in
  snd (_fit Demo.lib self Demo.train_ab) = Raise TypeError /\
  models (fst (_fit Demo.lib self Demo.train_ab)) = ∅.
Proof. split; vm_compute; reflexivity. Qed.

(** X8. A pass over a group writes into the options dictionary of the
    mixer itself: after the iteration the dictionary holds the seasonal
    period of the group under [sp], overriding a value the user gave,
    [suppress_warnings = True] and [error_action = 'raise'], and every
    other entry of the user, the frequency apart, is as it was. *)
Theorem fit_group_rewrites_the_options (lib : library) (mc : model_class)
    (df : list row) (nc : nat) (self : SkTime) (g : string) (sd : subframe)
    (sp_ : Z) :
  seasonal_period self g = Ok sp_ ->
  let after := fst (fit_group lib mc df nc self (g, sd)) in
  dict_get "sp" (model_kwargs after) = Some (KInt sp_) /\
  dict_get "suppress_warnings" (model_kwargs after) = Some (KBool true) /\
  dict_get "error_action" (model_kwargs after) = Some (KStr "raise") /\
  (forall k, k <> "sp" -> k <> "suppress_warnings" -> k <> "error_action" ->
             k <> "freq" ->
             dict_get k (model_kwargs after) = dict_get k (model_kwargs self)).
Proof.
  intros Hsp after.
  assert (model_kwargs after = fit_options self sp_) as ->.
  { unfold after, fit_group, fit_or_default. rewrite Hsp.
    repeat (case_match; try done). }
  unfold fit_options.
  assert (forall k d, k <> "freq" ->
            dict_get k (if String.eqb (model_path self) "fbprophet.Prophet"
                        then dict_set "freq" (KStr (freq self)) d else d)
            = dict_get k d) as Hfreq.
  { intros k d Hk. destruct (String.eqb (model_path self) _); [|done].
    rewrite dict_get_set. by apply String.eqb_neq in Hk as ->. }
  rewrite !Hfreq by done. rewrite !dict_get_set. cbn.
  split; [done|]. split; [done|]. split; [done|].
  intros k H1 H2 H3 H4. rewrite Hfreq by done. rewrite !dict_get_set.
  apply String.eqb_neq in H1, H2, H3. by rewrite H1, H2, H3.
Qed.

Lemma fit_group_rewrites_the_options_witness :
  dict_get "sp"
    (model_kwargs
       (fst (fit_group Demo.lib stl_class (rows Demo.train_ab) 5
               (set_model_kwargs [("sp", KInt 12); ("degree", KInt 2)]
                  (stl_mixer 2))
               ("A", bad_a_rows)))) = Some (KInt 1) /\
  dict_get "degree"
    (model_kwargs
       (fst (fit_group Demo.lib stl_class (rows Demo.train_ab) 5
               (set_model_kwargs [("sp", KInt 12); ("degree", KInt 2)]
                  (stl_mixer 2))
               ("A", bad_a_rows)))) = Some (KInt 2).
Proof.
  destruct (fit_group_rewrites_the_options Demo.lib stl_class
              (rows Demo.train_ab) 5
              (set_model_kwargs [("sp", KInt 12); ("degree", KInt 2)]
                 (stl_mixer 2))
              "A" bad_a_rows 1) as (Hsp & _ & _ & Hrest).
  - reflexivity.
  - split; [exact Hsp|]. rewrite Hrest; [reflexivity| | | |]; discriminate.
Defined.

(** *** Family names without a class part *)

Lemma split_dot_without_dot (s : string) :
  has_dot s = false -> split_dot s = [s].
Proof.
  induction s as [|a s IH]; [done|]. cbn [has_dot split_dot].
  destruct (Ascii.eqb a "."); [done|]. cbn [orb]. intros H.
  by rewrite (IH H).
Qed.

(** X9. A family name without a dot never resolves to a class: the pass
    ends with the import error when the name is no module of
    [sktime.forecasting], with an index error when it is one, and in both
    cases the mixer is left as it was. *)
Theorem family_name_without_dot_fails (lib : library) (self : SkTime)
    (data : frame) (name : string) :
  module_name_of self = Ok name ->
  has_dot name = false ->
  _fit lib self data =
    (self, Raise (match sktime_forecasting lib name with
                  | Some _ => IndexError
                  | None => ModuleNotFoundError
                  end)).
Proof.
  intros Hname Hdot. unfold _fit, resolve_class. rewrite Hname.
  rewrite (split_dot_without_dot name Hdot). cbn [List.hd].
  by destruct (sktime_forecasting lib name).
Qed.

Lemma family_name_without_dot_fails_witness :
  _fit Demo.lib (Demo.mixer 2 "trend") Demo.train_ab =
    (Demo.mixer 2 "trend", Raise IndexError).
Proof.
  apply (family_name_without_dot_fails Demo.lib (Demo.mixer 2 "trend")
           Demo.train_ab "trend"); reflexivity.
Defined.

(** *** After a search *)

Section AfterSearch.

Context (lib : library).

Lemma filter_finished (trials : list trial) :
  Forall (fun t => is_finished t = true) trials ->
  List.filter is_finished trials = trials.
Proof.
  induction 1 as [|t ts Ht _ IH]; [done|]. simpl. by rewrite Ht, IH.
Qed.

(** With a study whose trials are all finished and as many as [n_trials],
    [_fit] builds from the class of the best trial, whether the search flag
    is set or not. *)
Lemma module_name_of_finished_study (s : SkTime) (trials : list trial)
    (best : trial) :
  study s = Some trials ->
  Forall (fun t => is_finished t = true) trials ->
  length trials = n_trials s ->
  best_trial trials = Some best ->
  module_name_of s = Ok (t_class best).
Proof.
  intros Hst Hfin Hlen Hbest. unfold module_name_of. rewrite Hst.
  rewrite (filter_finished trials Hfin), Hlen, Nat.eqb_refl, Hbest.
  by destruct (hyperparam_search s).
Qed.

Lemma search_has_a_winner (self : SkTime) (train dev : frame) :
  n_trials self = length (possible_models self) ->
  possible_models self <> [] ->
  sampler_order lib (possible_models self) ≡ₚ possible_models self ->
  exists trials best,
    study (searched lib self train dev) = Some trials /\
    Forall (fun t => is_finished t = true) trials /\
    length trials = n_trials self /\
    best_trial trials = Some best /\
    t_class best ∈ possible_models self.
Proof.
  intros Hn Hne Hperm. unfold searched.
  rewrite take_ge by (rewrite Hn; by rewrite Hperm).
  destruct (optimize_study lib train dev
              (sampler_order lib (possible_models self))
              (set_study (Some []) self) [] eq_refl)
    as (trials & Hst & Hcls & Hdone & _ & _).
  simpl in Hst.
  assert (trials <> []) as Hne'.
  { intros ->. simpl in Hcls. rewrite <- Hcls in Hperm.
    by apply Permutation_nil in Hperm. }
  destruct (best_trial_minimal trials Hne' Hdone) as (b & Hbest & Hb & _).
  exists trials, b. split; [done|]. split; [done|]. split; [|split; [done|]].
  - rewrite Hn, <- Hperm, <- Hcls. by rewrite length_map.
  - rewrite <- Hperm, <- Hcls. apply list_elem_of_fmap. by exists b.
Qed.

(** X10. Once a [fit] has searched, the family of the best trial of its
    study is the one every later refit builds from: [partial_fit], which
    turns the search off, does not go back to [model_path]; its pass
    resolves the winner of the earlier search, and so does any pass after
    it. *)
Theorem refit_reuses_the_winner_of_the_search (self : SkTime)
    (train dev train' dev' : frame) :
  hyperparam_search self = true ->
  n_trials self = length (possible_models self) ->
  possible_models self <> [] ->
  sampler_order lib (possible_models self) ≡ₚ possible_models self ->
  exists trials best,
    study (searched lib self train dev) = Some trials /\
    study (fst (fit lib self train dev)) = Some trials /\
    best_trial trials = Some best /\
    t_class best ∈ possible_models self /\
    module_name_of
      (set_hyperparam_search false (fst (fit lib self train dev)))
      = Ok (t_class best) /\
    partial_fit lib (fst (fit lib self train dev)) train' dev' =
      (let '(s, r) :=
         _fit lib (set_hyperparam_search false (fst (fit lib self train dev)))
              (ConcatedEncodedDs dev' train') in
       match r with
       | Ok _ => (set_prepared true s, Ok tt)
       | Raise e => (s, Raise e)
       end) /\
    study (fst (partial_fit lib (fst (fit lib self train dev)) train' dev'))
      = Some trials /\
    module_name_of
      (fst (partial_fit lib (fst (fit lib self train dev)) train' dev'))
      = Ok (t_class best).
Proof.
  intros Hsearch Hn Hne Hperm.
  destruct (search_has_a_winner self train dev Hn Hne Hperm)
    as (trials & best & Hst & Hfin & Hlen & Hbest & Hin).
  assert (fit lib self train dev =
          _fit lib (searched lib self train dev)
               (ConcatedEncodedDs train dev)) as Hfit
    by (unfold fit, searched; by rewrite Hsearch).
  set (s1 := fst (fit lib self train dev)) in *.
  assert (study s1 = Some trials /\ n_trials s1 = n_trials self) as [Hst1 Hn1].
  { unfold s1. rewrite Hfit.
    destruct (_fit_settings lib (searched lib self train dev)
                (ConcatedEncodedDs train dev)) as (Hs & Hstudy & _).
    rewrite Hstudy, Hst. split; [done|].
    assert (n_trials (searched lib self train dev) = n_trials self) as <-.
    { pose proof (optimize_settings lib
                    (take (n_trials self)
                       (sampler_order lib (possible_models self)))
                    (set_study (Some []) self) train dev) as Ho.
      unfold searched. unfold settings in Ho. cbn in Ho. congruence. }
    unfold settings in Hs. congruence. }
  pose proof (partial_fit_settings lib s1 train' dev') as Hs.
  assert (study (fst (partial_fit lib s1 train' dev')) = Some trials) as Hst2.
  { unfold partial_fit, fit. cbn [hyperparam_search set_hyperparam_search].
    pose proof (_fit_study lib (set_hyperparam_search false s1)
                  (ConcatedEncodedDs dev' train')) as Hk.
    destruct (_fit lib (set_hyperparam_search false s1) _) as [s r].
    cbn [fst] in Hk. destruct r; cbn [fst set_prepared study]; by rewrite Hk. }
  exists trials, best. split; [done|]. split; [done|]. split; [done|].
  split; [done|]. split; [|split; [|split; [done|]]].
  - apply (module_name_of_finished_study _ trials); try done.
    by rewrite Hlen.
  - unfold partial_fit, fit. done.
  - apply (module_name_of_finished_study _ trials); try done.
    rewrite Hlen, <- Hn1. unfold settings in Hs. congruence.
Qed.

Lemma call_on_empty_frame (self : SkTime) (nc : nat) :
  call self {| rows := []; ncols := nc |} = Ok [].
Proof. reflexivity. Qed.

(** X11. A trial of the search whose held-out frame has no rows has an
    infinite error, whatever the family and the training data: when the
    fit has gone well the forecast is an empty frame, and taking its first
    prediction raises. *)
Theorem trial_without_held_out_rows_is_infinite (self : SkTime)
    (cls : string) (train_data : frame) (nc : nat) :
  call self {| rows := []; ncols := nc |} = Ok [] /\
  snd (_get_best_model lib self cls train_data {| rows := []; ncols := nc |})
    = Inf.
Proof.
  split; [apply call_on_empty_frame|].
  unfold _get_best_model.
  destruct (_fit lib (set_hyperparam_dict (Some cls) self) train_data)
    as [s r].
  cbn [snd]. destruct r; [|done]. cbn [rbind].
  by rewrite call_on_empty_frame.
Qed.

End AfterSearch.

(** The best trial of the search of [searching_two] on two days of
    training data: the second one. *)
Lemma winner_of_searching_two (trials : list trial) (best : trial) :
  study (searched Demo.lib searching_two Demo.train_a Demo.train_ab)
    = Some trials ->
  best_trial trials = Some best ->
  t_class best = "trend.PolynomialTrendForecaster".
Proof.
  intros Hst Hbest.
  assert (study (searched Demo.lib searching_two Demo.train_a Demo.train_ab)
          = Some [{| t_class := "theta.ThetaForecaster";
                     t_value := Some Inf |};
                  {| t_class := "trend.PolynomialTrendForecaster";
                     t_value := Some (Finite (2 # 1)) |}]) as Heq
    by (vm_compute; reflexivity).
  rewrite Heq in Hst. inversion Hst; subst trials.
  vm_compute in Hbest. by inversion Hbest.
Qed.

Lemma refit_reuses_the_winner_of_the_search_witness :
  model_path searching_two = "trend.STLForecaster" /\
  module_name_of
    (fst (partial_fit Demo.lib
            (fst (fit Demo.lib searching_two Demo.train_a Demo.train_ab))
            Demo.train_a Demo.empty_frame))
    = Ok "trend.PolynomialTrendForecaster".
Proof.
  destruct (refit_reuses_the_winner_of_the_search Demo.lib searching_two
              Demo.train_a Demo.train_ab Demo.train_a Demo.empty_frame)
    as (trials & best & Hst & _ & Hbest & _ & _ & _ & _ & Hname).
  - reflexivity.
  - reflexivity.
  - discriminate.
  - reflexivity.
  - split; [reflexivity|].
    rewrite Hname. f_equal. exact (winner_of_searching_two trials best Hst Hbest).
Defined.

(** *** The windows of a fitted group *)

(** X12. Given the forecasts [p] of the group, [_call_groupmodel] writes
    into the cell of the [k]-th row of the group the forecasts from the
    [k]-th on, [horizon] of them at most, so that the window of a row is
    the window of the row before it moved on by one; the cells of other
    rows and the length of the frame are as before; and an exception of
    [predict] ends the call. *)
Theorem groupmodel_writes_one_window_per_row (h : nat) (ydf : list cell)
    (m : forecaster) (f : fitted) (series : list (nat * value)) (offset : Z) :
  fc_fitted m = Some f ->
  NoDup (map fst series) ->
  Forall (fun i => i < length ydf)%nat (map fst series) ->
  match all_preds_of h m f (length series) offset with
  | Ok p =>
      exists ydf',
        _call_groupmodel h ydf m series offset = Ok ydf' /\
        length ydf' = length ydf /\
        (forall k i v, series !! k = Some (i, v) ->
                       ydf' !! i = Some (Preds (take h (drop k p)))) /\
        (forall j, j ∉ map fst series -> ydf' !! j = ydf !! j)
  | Raise e => _call_groupmodel h ydf m series offset = Raise e
  end.
Proof.
  intros Hf Hnd Hin. unfold _call_groupmodel. rewrite Hf.
  destruct (all_preds_of h m f (length series) offset) as [p|e]; [|done].
  cbn [rbind].
  destruct (write_windows_spec h p ydf series Hnd) as (Hlen & Hset & Hother).
  eexists. split; [done|]. split; [done|]. split; [|done].
  intros k i v Hk. rewrite (Hset k i v Hk).
  - unfold py_slice. by replace (k + h - k)%nat with h by lia.
  - eapply Forall_forall in Hin; [exact Hin|]. by eapply list_elem_of_lookup_2,
      lookup_map_fst.
Qed.

Lemma groupmodel_writes_one_window_per_row_witness :
  match all_preds_of 3 fitted_on_five
          (Demo.fitted_on [1 # 1; 2 # 1; 3 # 1; 4 # 1; 5 # 1]%Q None) 2 1 with
  | Ok p =>
      exists ydf',
        _call_groupmodel 3 [Zero; Zero; Zero] fitted_on_five
          [(2%nat, Some (1 # 1)%Q); (0%nat, Some (2 # 1)%Q)] 1 = Ok ydf' /\
        length ydf' = 3%nat /\
        (forall k i v,
            [(2%nat, Some (1 # 1)%Q); (0%nat, Some (2 # 1)%Q)] !! k
              = Some (i, v) ->
            ydf' !! i = Some (Preds (take 3 (drop k p)))) /\
        (forall j, j ∉ [2%nat; 0%nat] -> ydf' !! j = [Zero; Zero; Zero] !! j)
  | Raise e =>
      _call_groupmodel 3 [Zero; Zero; Zero] fitted_on_five
        [(2%nat, Some (1 # 1)%Q); (0%nat, Some (2 # 1)%Q)] 1 = Raise e
  end.
Proof.
  apply (groupmodel_writes_one_window_per_row 3 [Zero; Zero; Zero]
           fitted_on_five
           (Demo.fitted_on [1 # 1; 2 # 1; 3 # 1; 4 # 1; 5 # 1]%Q None)
           [(2%nat, Some (1 # 1)%Q); (0%nat, Some (2 # 1)%Q)] 1).
  - reflexivity.
  - compute_done.
  - compute_done.
Defined.

Lemma drop_arange (lo start end_ : Z) :
  lo <= start -> start <= end_ ->
  drop (Z.to_nat (start - lo)) (arange lo end_) = arange start end_.
Proof.
  intros H1 H2. unfold arange.
  replace (end_ - lo) with ((start - lo) + (end_ - start)) by lia.
  rewrite seqZ_app by lia.
  rewrite drop_app_length'; [|rewrite length_seqZ; lia].
  f_equal; lia.
Qed.

(** X13. For a forecaster that answers every offset from its least one on
    by itself, the way round for [AutoARIMA] - asking for the window from
    the least offset on and keeping its end - gives the forecasts the
    direct call gives: those of the offsets from the clamped one on, one
    for each row and each step of the horizon. *)
Theorem autoarima_workaround_changes_nothing (h : nat) (m : forecaster)
    (f : fitted) (n : nat) (offset : Z) (answer : Z -> value) :
  (forall offsets, Forall (fun o => min_offset f <= o) offsets ->
                   predict f offsets = Ok (map answer offsets)) ->
  (0 < n + h)%nat ->
  all_preds_of h m f n offset =
    Ok (map answer
          (arange (Z.max offset (min_offset f))
                  (Z.max offset (min_offset f) + Z.of_nat n + Z.of_nat h))).
Proof.
  intros Hpred Hpos. unfold all_preds_of.
  set (lo := min_offset f) in *. set (start := Z.max offset lo).
  set (end_ := start + Z.of_nat n + Z.of_nat h).
  assert (lo <= start) as Hlo by (unfold start; lia).
  assert (forall a, lo <= a -> Forall (fun o => lo <= o) (arange a end_))
    as Hrange.
  { intros a Ha. apply Forall_forall. intros x Hx.
    unfold arange in Hx. apply elem_of_seqZ in Hx. lia. }
  destruct (is_AutoARIMA (fc_class m)).
  - rewrite (Hpred _ (Hrange lo ltac:(lia))). cbn [rbind]. f_equal.
    replace (Z.to_nat (end_ - start)) with (n + h)%nat by (unfold end_; lia).
    unfold py_suffix. destruct (n + h)%nat as [|k] eqn:E; [lia|].
    rewrite length_map, length_arange by (unfold end_; lia).
    replace (Z.to_nat (end_ - lo) - S k)%nat with (Z.to_nat (start - lo))
      by (unfold end_; lia).
    change (drop ?k (map answer ?l)) with (drop k (answer <$> l)).
    rewrite <- fmap_drop. rewrite drop_arange; [done|done|unfold end_; lia].
  - by rewrite (Hpred _ (Hrange start Hlo)).
Qed.

Lemma fitted_on_answers_pointwise (y : list Q) (d : option (option Z))
    (offsets : list Z) :
  Forall (fun o => min_offset (Demo.fitted_on y d) <= o) offsets ->
  predict (Demo.fitted_on y d) offsets
    = Ok (map (fun o => Some (inject_Z o)) offsets).
Proof.
  intros H. unfold Demo.fitted_on in *. cbn [predict].
  change (min_offset {| sub_y := y; sub_d := d; predict := _ |})
    with (min_offset {| sub_y := y; sub_d := d;
                        predict := fun _ => Ok [] |}) in H.
  set (lo := min_offset _) in *.
  assert (forallb (Z.leb lo) offsets = true) as ->; [|done].
  apply forallb_forall. intros x Hx. apply list_elem_of_In in Hx.
  eapply Forall_forall in H; [|exact Hx]. cbn beta in H. lia.
Qed.

Lemma autoarima_workaround_changes_nothing_witness :
  all_preds_of 3
    (with_fitted (default_constructed AutoARIMA)
       (Demo.fitted_on [1 # 1; 2 # 1; 3 # 1; 4 # 1; 5 # 1]%Q None))
    (Demo.fitted_on [1 # 1; 2 # 1; 3 # 1; 4 # 1; 5 # 1]%Q None) 2 1 =
  Ok (map (fun o => Some (inject_Z o)) (arange 1 6)).
Proof.
  apply (autoarima_workaround_changes_nothing 3
           (with_fitted (default_constructed AutoARIMA)
              (Demo.fitted_on [1 # 1; 2 # 1; 3 # 1; 4 # 1; 5 # 1]%Q None))
           (Demo.fitted_on [1 # 1; 2 # 1; 3 # 1; 4 # 1; 5 # 1]%Q None) 2 1
           (fun o => Some (inject_Z o))).
  - apply fitted_on_answers_pointwise.
  - lia.
Defined.

(** *** [simple_split] *)

Lemma py_round_nonneg (x : Q) : (0 <= x)%Q -> 0 <= py_round x.
Proof.
  intros Hx. unfold py_round.
  assert (0 <= Qfloor x) as Hf.
  { change 0 with (Qfloor (inject_Z 0)) at 1. by apply Qfloor_resp_le. }
  destruct (Qcompare _ _); [destruct (Z.even _)| |]; lia.
Qed.

Lemma rows_slice_nonneg {A} (a b : Z) (data : list A) :
  0 <= a -> a <= b ->
  rows_slice a b data =
    take (Z.to_nat b - Z.to_nat a) (drop (Z.to_nat a) data).
Proof.
  intros Ha Hab. unfold rows_slice, slice_bound.
  destruct (Z.ltb_spec a 0) as [|_]; [lia|].
  destruct (Z.ltb_spec b 0) as [|_]; [lia|].
  destruct (decide (Z.of_nat (length data) <= a)) as [Hbig|Hsmall].
  - rewrite !drop_ge by lia. by rewrite !take_nil.
  - replace (Z.to_nat (Z.min a (Z.of_nat (length data)))) with (Z.to_nat a)
      by lia.
    destruct (decide (b <= Z.of_nat (length data))) as [Hb|Hb].
    + f_equal. lia.
    + rewrite !take_ge; [done| |]; rewrite length_drop; lia.
Qed.

Lemma take_then_take {A} (a b : nat) (l : list A) :
  take a l ++ take b (drop a l) = take (a + b) l.
Proof.
  rewrite take_drop_commute.
  replace (take a l) with (take a (take (a + b) l))
    by (rewrite take_take; f_equal; lia).
  apply take_drop.
Qed.

Lemma float_mul_nonneg (x y : Q) :
  (0 <= x)%Q -> (0 <= y)%Q -> (0 <= float_mul x y)%Q.
Proof.
  intros Hx Hy. unfold float_mul.
  apply to_double_nonneg, Qmult_le_0_compat; by apply to_double_nonneg.
Qed.

(** X14. For shares that are not negative, [simple_split] cuts the data,
    in its order, into three stretches that follow one another from the
    first row on: the training rows, then the dev rows, then the test
    rows; the length of a stretch is the rounded float product of the
    number of rows and the share, as far as the data reaches. Together
    they are the first rows of the data, and a row after them is in no
    split. *)
Theorem simple_split_cuts_consecutive_stretches {A} (data : list A)
    (pct_train pct_dev pct_test : Q) :
  (0 <= pct_train)%Q -> (0 <= pct_dev)%Q -> (0 <= pct_test)%Q ->
  let n := inject_Z (Z.of_nat (length data)) in
  is_inf (float_mul n pct_train) = false ->
  is_inf (float_mul n pct_dev) = false ->
  is_inf (float_mul n pct_test) = false ->
  let a := share (length data) pct_train in
  let b := share (length data) pct_dev in
  let c := share (length data) pct_test in
  simple_split data pct_train pct_dev pct_test =
    Ok (take a data, take b (drop a data), take c (drop (a + b) data)) /\
  take a data ++ take b (drop a data) ++ take c (drop (a + b) data)
    = take (a + b + c) data.
Proof.
  intros Ht Hd He n Hft Hfd Hfe a b c.
  assert (forall p, (0 <= p)%Q -> 0 <= py_round (float_mul n p)) as Hr.
  { intros p Hp. apply py_round_nonneg, float_mul_nonneg; [|done].
    unfold n. change 0%Q with (inject_Z 0). rewrite <- Zle_Qle. lia. }
  pose proof (Hr _ Ht) as Ha. pose proof (Hr _ Hd) as Hb.
  pose proof (Hr _ He) as Hc.
  split.
  - unfold simple_split, float_round. cbn zeta. fold n.
    rewrite Hft, Hfd, Hfe. cbn [rbind].
    rewrite !rows_slice_nonneg by lia.
    unfold a, b, c, share. fold n. rewrite drop_0.
    repeat f_equal; lia.
  - replace (drop (a + b) data) with (drop b (drop a data))
      by (by rewrite drop_drop).
    rewrite take_then_take, take_then_take. f_equal. lia.
Qed.

Lemma simple_split_cuts_consecutive_stretches_witness :
  simple_split [1; 2; 3; 4; 5; 6; 7; 8; 9; 10] (1 # 4) (1 # 4) (1 # 2)
    = Ok ([1; 2], [3; 4], [5; 6; 7; 8; 9]) /\
  [1; 2] ++ [3; 4] ++ [5; 6; 7; 8; 9] = take 9 [1; 2; 3; 4; 5; 6; 7; 8; 9; 10].
Proof.
  apply (simple_split_cuts_consecutive_stretches
           [1; 2; 3; 4; 5; 6; 7; 8; 9; 10] (1 # 4) (1 # 4) (1 # 2));
    try discriminate; vm_compute; reflexivity.
Defined.

(** The shares follow the floats, not the exact products: 45 * 0.7 is a
    float below 31.5, and 25 times the float nearest to 0.1 is the float
    2.5, a tie. *)
Example share_of_float_products :
  share 45 (7 # 10) = 31%nat /\
  py_round (45 * (7 # 10))%Q = 32 /\
  share 25 (1 # 10) = 2%nat /\
  py_round (25 * (3602879701896397 # 36028797018963968))%Q = 3 /\
  (exists dev test,
     simple_split (seq 0 45) (7 # 10) (2 # 10) (1 # 10)
       = Ok (seq 0 31, dev, test)).
Proof.
  split; [vm_compute; reflexivity|]. split; [vm_compute; reflexivity|].
  split; [vm_compute; reflexivity|]. split; [vm_compute; reflexivity|].
  eexists _, _. vm_compute. reflexivity.
Qed.

(** *** Construction and the flag [prepared] *)

Section Prepared.

Context (lib : library).

Lemma optimize_prepared grid : forall self train dev,
  prepared (optimize lib self train dev grid) = prepared self.
Proof.
  induction grid as [|c grid IH]; intros self train dev; [done|].
  unfold optimize in *. cbn [fold_left]. rewrite IH.
  unfold _get_best_model.
  pose proof (_fit_settings lib
                (set_hyperparam_dict (Some c)
                   (add_trial {| t_class := c; t_value := None |} self))
                train) as (_ & _ & _ & _ & Hp).
  destruct (_fit lib _ train) as [s r]. cbn [fst] in Hp.
  exact Hp.
Qed.

Lemma fit_prepared self train dev :
  prepared (fst (fit lib self train dev)) = prepared self.
Proof.
  unfold fit. destruct (hyperparam_search self).
  - destruct (_fit_settings lib
                (optimize lib (set_study (Some []) self) train dev
                   (take (n_trials (set_study (Some []) self))
                      (sampler_order lib
                         (possible_models (set_study (Some []) self)))))
                (ConcatedEncodedDs train dev)) as (_ & _ & _ & _ & Hp).
    rewrite Hp. by rewrite optimize_prepared.
  - apply _fit_settings.
Qed.

(** X15. [fit] never changes the flag [prepared]; [partial_fit] sets it
    when its fit has ended normally and leaves it as it was when its fit
    has raised. *)
Theorem prepared_is_set_by_a_successful_partial_fit (self : SkTime)
    (train_data dev_data : frame) :
  prepared (fst (fit lib self train_data dev_data)) = prepared self /\
  match snd (partial_fit lib self train_data dev_data) with
  | Ok _ => prepared (fst (partial_fit lib self train_data dev_data)) = true
  | Raise _ =>
      prepared (fst (partial_fit lib self train_data dev_data))
        = prepared self
  end.
Proof.
  split; [apply fit_prepared|]. unfold partial_fit.
  pose proof (fit_prepared (set_hyperparam_search false self)
                dev_data train_data) as H.
  destruct (fit lib (set_hyperparam_search false self) dev_data train_data)
    as [s r]. cbn [fst] in H.
  by destruct r.
Qed.

End Prepared.

(** X16. A mixer as [__init__] constructs it, called before any fit,
    forecasts every row naively: on a frame with at most one row without
    a group key it returns one array of [horizon] values per row, which
    repeats the target of the row before it in its group, zeros for the
    first row of a group and for the row without a key; no group is
    looked up in the time deltas or the cutoffs. *)
Theorem unfitted_mixer_forecasts_naively (h : nat) (analysis : ts_analysis_t)
    (path : string) (kwargs : pydict) (auto_size_ : bool) (sp_ : option Z)
    (search use_stl_ : bool) (s : SkTime) (ds : frame) :
  init h analysis path kwargs auto_size_ sp_ search use_stl_ = Ok s ->
  at_most_one_without_key (group_by (tss analysis)) (rows ds) ->
  exists ydf,
    call s ds = Ok ydf /\
    length ydf = length (rows ds) /\
    (forall g sd k i r,
        (g, sd) ∈ groupby (group_by (tss analysis)) (rows ds) ->
        sd !! k = Some (i, r) ->
        rows ds !! i = Some r /\
        ydf !! i = Some (Preds (replicate h
                     (previous_target (map snd (series_of sd)) k)))) /\
    (forall i r,
        rows ds !! i = Some r ->
        group_of (group_by (tss analysis)) r = None ->
        ydf !! i = Some (Preds (replicate h zero))).
Proof.
  intros Hinit Hone. unfold init in Hinit.
  destruct (deltas analysis !! "__default") as [d|]; [|discriminate].
  cbn [of_option rbind] in Hinit. injection Hinit as Hs.
  assert (models s = ∅ /\ ts_analysis s = analysis /\ horizon s = h)
    as (Hm & Hts & Hh) by (by rewrite <- Hs).
  clear Hs.
  destruct (call_spec s ds) as (ydf & Hcall & Hlen & _ & Hrows & Hnokey).
  - intros g m f Hg. by rewrite Hm, lookup_empty in Hg.
  - intros g sd r0 m cutoff d' _ _ Hg. by rewrite Hm, lookup_empty in Hg.
  - by rewrite Hts.
  - rewrite Hts, Hh in *. exists ydf. split; [done|]. split; [done|].
    split; [|done].
    intros g sd k i r Hin Hk.
    destruct (Hrows g sd k i r Hin Hk) as (Hr & l & Hl & Hcell).
    split; [done|]. unfold row_forecast in Hl.
    rewrite Hm, lookup_empty, Hh in Hl. by inversion Hl; subst l.
Qed.

Lemma unfitted_mixer_forecasts_naively_witness :
  exists ydf,
    call fresh_mixer mixed_rows = Ok ydf /\
    length ydf = 5%nat /\
    ydf !! 0%nat = Some (Preds (replicate 3 zero)) /\
    ydf !! 2%nat = Some (Preds (replicate 3 (Some (0 # 1)%Q))) /\
    ydf !! 4%nat = Some (Preds (replicate 3 (Some (8 # 1)%Q))) /\
    ydf !! 1%nat = Some (Preds (replicate 3 zero)).
Proof.
  destruct (unfitted_mixer_forecasts_naively 3 (Demo.analysis 2) "" [] true
              None true false fresh_mixer mixed_rows)
    as (ydf & Hcall & Hlen & Hrows & Hnokey).
  - reflexivity.
  - intros i j ri rj Hi Hj Hgi Hgj.
    destruct i as [|[|[|[|[|i]]]]]; simpl in Hi; inversion Hi; subst ri;
      try discriminate;
    destruct j as [|[|[|[|[|j]]]]]; simpl in Hj; inversion Hj; subst rj;
      try discriminate; reflexivity.
  - exists ydf. split; [exact Hcall|]. split; [exact Hlen|].
    assert (groupby (group_by (tss (Demo.analysis 2))) (rows mixed_rows)
            = [("A", [(0%nat, Demo.mk_row 13 "A" 0);
                      (2%nat, Demo.mk_row 14 "A" 0)]);
               ("C", [(3%nat, Demo.mk_row 13 "C" 8);
                      (4%nat, Demo.mk_row 14 "C" 9)])]) as Heq
      by (vm_compute; reflexivity).
    pose (sd_a := [(0%nat, Demo.mk_row 13 "A" 0);
                   (2%nat, Demo.mk_row 14 "A" 0)]).
    pose (sd_c := [(3%nat, Demo.mk_row 13 "C" 8);
                   (4%nat, Demo.mk_row 14 "C" 9)]).
    split; [|split; [|split]].
    + apply (Hrows "A" sd_a 0%nat 0%nat (Demo.mk_row 13 "A" 0));
        [rewrite Heq; by left|reflexivity].
    + apply (Hrows "A" sd_a 1%nat 2%nat (Demo.mk_row 14 "A" 0));
        [rewrite Heq; by left|reflexivity].
    + apply (Hrows "C" sd_c 1%nat 4%nat (Demo.mk_row 14 "C" 9));
        [rewrite Heq; right; by left|reflexivity].
    + apply (Hnokey 1%nat (Demo.no_key 13 4)); reflexivity.
Defined.

(** *** What the search fits *)

Section SearchFits.

Context (lib : library).

Lemma filter_finished_running (ts : list trial) (cls : string) :
  Forall (fun t => is_finished t = true) ts ->
  List.filter is_finished (ts ++ [{| t_class := cls; t_value := None |}]) = ts.
Proof.
  intros H. rewrite List.filter_app. cbn. rewrite app_nil_r.
  by apply filter_finished.
Qed.

(** X18. Every trial of the search fits the family it was handed: when the
    trials for the classes [before] have run and the trial for [cls] is
    the running one, [_fit] builds from [cls], not from the model path nor
    from the best trial so far; and the search goes on from the state that
    trial leaves. *)
Theorem each_trial_fits_its_own_family (self : SkTime)
    (train_data dev_data : frame) (before after : list string) (cls : string) :
  (length before < n_trials self)%nat ->
  let running :=
    add_trial {| t_class := cls; t_value := None |}
      (optimize lib (set_study (Some []) self) train_data dev_data before) in
  module_name_of (set_hyperparam_dict (Some cls) running) = Ok cls /\
  optimize lib (set_study (Some []) self) train_data dev_data
           (before ++ cls :: after) =
    optimize lib
      (finish_trial
         (snd (_get_best_model lib running cls train_data dev_data))
         (fst (_get_best_model lib running cls train_data dev_data)))
      train_data dev_data after.
Proof.
  intros Hlen running. split.
  - destruct (optimize_study lib train_data dev_data before
                (set_study (Some []) self) [] eq_refl)
      as (new & Hst & Hcls & Hdone & Hset & Hh).
    simpl in Hst. unfold module_name_of.
    cbn [study set_hyperparam_dict hyperparam_search hyperparam_dict n_trials].
    unfold running, add_trial. cbn [study set_study hyperparam_search n_trials].
    rewrite Hst. cbn [option_map].
    rewrite (filter_finished_running new cls Hdone).
    assert (n_trials (optimize lib (set_study (Some []) self) train_data
                        dev_data before) = n_trials self) as ->.
    { unfold settings in Hset. cbn in Hset. congruence. }
    assert (length new = length before) as ->
      by (rewrite <- Hcls; by rewrite length_map).
    destruct (Nat.eqb_spec (length before) (n_trials self)) as [|_]; [lia|].
    by destruct (hyperparam_search _).
  - unfold running, optimize. rewrite fold_left_app. cbn [fold_left].
    by destruct (_get_best_model lib _ cls train_data dev_data).
Qed.

Lemma searched_n_trials (self : SkTime) (train dev : frame) :
  n_trials (searched lib self train dev) = n_trials self.
Proof.
  pose proof (optimize_settings lib
                (take (n_trials self)
                   (sampler_order lib (possible_models self)))
                (set_study (Some []) self) train dev) as Ho.
  unfold searched. unfold settings in Ho. cbn in Ho. congruence.
Qed.

(** X7. After a [fit] with the search that ends normally, every group
    with a row in the training or the held-out data holds a forecaster of
    the class the family of the best trial of the study resolves to: what
    the fits of the trials have left for these groups is overwritten. *)
Theorem fit_leaves_the_winning_class (self : SkTime)
    (train_data dev_data : frame) (s' : SkTime) (g : string) (x : row) :
  hyperparam_search self = true ->
  n_trials self = length (possible_models self) ->
  possible_models self <> [] ->
  sampler_order lib (possible_models self) ≡ₚ possible_models self ->
  fit lib self train_data dev_data = (s', Ok tt) ->
  x ∈ rows train_data ++ rows dev_data ->
  group_of (group_by (tss (ts_analysis self))) x = Some g ->
  exists trials best m,
    study (searched lib self train_data dev_data) = Some trials /\
    study s' = Some trials /\
    best_trial trials = Some best /\
    t_class best ∈ possible_models self /\
    models s' !! g = Some m /\
    resolve_class lib (t_class best) = Ok (fc_class m).
Proof.
  intros Hsearch Hn Hne Hperm Hfit Hx Hg.
  destruct (search_has_a_winner lib self train_data dev_data Hn Hne Hperm)
    as (trials & best & Hst & Hfin & Hlen & Hbest & Hin).
  assert (module_name_of (searched lib self train_data dev_data)
          = Ok (t_class best)) as Hname.
  { apply (module_name_of_finished_study _ trials); try done.
    by rewrite searched_n_trials. }
  assert (ts_analysis (searched lib self train_data dev_data)
          = ts_analysis self) as Hts.
  { pose proof (optimize_settings lib
                  (take (n_trials self)
                     (sampler_order lib (possible_models self)))
                  (set_study (Some []) self) train_data dev_data) as Ho.
    unfold searched. unfold settings in Ho. cbn in Ho. congruence. }
  assert (fit lib self train_data dev_data =
          _fit lib (searched lib self train_data dev_data)
               (ConcatedEncodedDs train_data dev_data)) as Heq
    by (unfold fit, searched; by rewrite Hsearch).
  rewrite Heq in Hfit. clear Heq.
  assert (study s' = Some trials) as Hst'.
  { pose proof (_fit_study lib (searched lib self train_data dev_data)
                  (ConcatedEncodedDs train_data dev_data)) as Hk.
    rewrite Hfit in Hk. cbn [fst] in Hk. by rewrite Hk. }
  unfold _fit in Hfit. rewrite Hname in Hfit.
  destruct (resolve_class lib (t_class best)) as [mc|e] eqn:Hres;
    [|by inversion Hfit].
  rewrite Hts in Hfit.
  set (gby := group_by (tss (ts_analysis self))) in *.
  set (df := sort_by r_original_oby
               (rows (ConcatedEncodedDs train_data dev_data))) in *.
  assert ((g, filter (fun ir : nat * row => group_of gby (snd ir) = Some g)
                     (enumerate df)) ∈ groupby gby df) as Hgrp.
  { apply elem_of_groupby. split; [done|]. exists x.
    split; [by apply elem_of_sort_by|done]. }
  destruct (for_each_fit_group_own lib mc df _ _ _ s'
              (groupby_NoDup gby df) Hfit _ _ Hgrp)
    as (s1 & s2 & _ & Hg1 & Hm & _).
  destruct (fit_group_own lib _ _ _ _ _ _ _ Hg1)
    as (m & _ & Hm2 & Hcls & _).
  exists trials, best, m. split; [done|]. split; [done|]. split; [done|].
  split; [done|]. split; [by rewrite Hm|by rewrite Hcls].
Qed.

End SearchFits.

Lemma each_trial_fits_its_own_family_witness :
  module_name_of
    (set_hyperparam_dict (Some "trend.STLForecaster")
       (add_trial {| t_class := "trend.STLForecaster"; t_value := None |}
          (optimize Demo.lib (set_study (Some []) searching_mixer)
             Demo.train_ab dev_a
             ["croston.Croston"; "theta.ThetaForecaster"])))
    = Ok "trend.STLForecaster".
Proof.
  apply (each_trial_fits_its_own_family Demo.lib searching_mixer
           Demo.train_ab dev_a
           ["croston.Croston"; "theta.ThetaForecaster"]
           ["trend.PolynomialTrendForecaster"] "trend.STLForecaster").
  vm_compute. lia.
Defined.

Lemma fit_leaves_the_winning_class_witness :
  model_path searching_two = "trend.STLForecaster" /\
  exists m,
    models (fst (fit Demo.lib searching_two Demo.train_a Demo.train_ab)) !! "B"
      = Some m /\
    fc_class m = polynomial_class.
Proof.
  destruct (fit_leaves_the_winning_class Demo.lib searching_two
              Demo.train_a Demo.train_ab
              (fst (fit Demo.lib searching_two Demo.train_a Demo.train_ab))
              "B" (Demo.mk_row 8 "B" 5))
    as (trials & best & m & Hst & _ & Hbest & _ & Hm & Hres).
  - reflexivity.
  - reflexivity.
  - discriminate.
  - reflexivity.
  - vm_compute. reflexivity.
  - apply list_elem_of_In. vm_compute. right. right. right. left. reflexivity.
  - reflexivity.
  - split; [reflexivity|]. exists m. split; [exact Hm|].
    rewrite (winner_of_searching_two trials best Hst Hbest) in Hres.
    vm_compute in Hres. by inversion Hres.
Defined.
